(** * GradHub: relationship integrity and state transitions

    A shallow embedding of the model methods of [app/models.py], of the
    form validators of [app/forms.py] and of the request handlers of
    [app/api.py] and [app/routes.py] that cast votes and upvotes, create
    polls and communities, accept follow requests, send direct messages and
    delete comments.

    The relational store is a record of tables, every table the list of its
    rows in insertion order.  A handler is a function from the store to the
    store it leaves committed and its response: [db.session.commit()] makes
    the handler's writes the new store, [db.session.rollback()] and a
    request that ends without a commit give back the store the request
    started from. *)

From Stdlib Require Import List ZArith String Bool Arith Lia.
From Stdlib Require Import Permutation Sorted.
Import ListNotations.
Local Open Scope string_scope.
Local Open Scope nat_scope.
Local Open Scope list_scope.

(** ** Responses, clocks, identifiers *)

(** What a handler answers: [jsonify(...)] with a status code, an error
    body with a status code, [flash(msg, category)] followed by a redirect,
    a bare redirect, a rendered page, [abort(status)], or the redirect to
    the login page that [@login_required] gives an anonymous caller. *)
Inductive Response (A : Type) : Type :=
| Json (status : nat) (payload : A)
| JsonError (status : nat) (msg : string)
| Flash (msg category : string)
| Redirect (endpoint : string)
| Render (template : string)
| Abort (status : nat)
| LoginRedirect.

Arguments Json {A} status payload.
Arguments JsonError {A} status msg.
Arguments Flash {A} msg category.
Arguments Redirect {A} endpoint.
Arguments Render {A} template.
Arguments Abort {A} status.
Arguments LoginRedirect {A}.

(** Naive datetimes are counted in microseconds.  The handlers read two
    clocks: [datetime.utcnow()] and [datetime.now()]. *)
Record Clock : Type := { utcnow : Z; now : Z }.

Definition microseconds_per_minute : Z := 60 * 1000000.
Definition microseconds_per_day : Z := 24 * 60 * microseconds_per_minute.

(** [timedelta(days=d)] and [timedelta(minutes=m)]. *)
Definition timedelta_days (d : Z) : Z := d * microseconds_per_day.
Definition timedelta_minutes (m : Z) : Z := m * microseconds_per_minute.

(** An integer primary key that no row of the table holds yet. *)
Definition fresh_id (ids : list nat) : nat := S (list_max ids).

(** No identifier occurs twice: what a primary key asks of a column. *)
Fixpoint distinct (ids : list nat) : bool :=
  match ids with
  | [] => true
  | i :: rest => negb (existsb (Nat.eqb i) rest) && distinct rest
  end.

(** ** [app/models.py] *)

Module Models.

(** The columns the handlers below read or write; a nullable column is an
    [option]. *)

Module User.
Record t : Type := {
  id : nat;
  username : string;
  is_private : bool
}.
End User.

Module Poll.
Record t : Type := {
  id : nat;
  title : string;
  description : string;
  created_at : Z;
  end_date : option Z;
  poll_type : string;
  user_id : option nat
}.

(** ["Just viewing results "] and the popcorn sign U+1F37F, whose UTF-8
    encoding is the last four bytes. *)
Definition DEFAULT_OPTION : string :=
  String.append "Just viewing results "
    (String (Ascii.ascii_of_nat 240) (String (Ascii.ascii_of_nat 159)
      (String (Ascii.ascii_of_nat 141) (String (Ascii.ascii_of_nat 191) "")))).

(** The names the class [Poll] has besides those every model inherits
    (none of which is [course]): its constant, its columns, its
    relationships, the backrefs [author] and [poll_author] of [User] and
    [tags] of [Tag], its property and its methods. *)
Definition attributes : list string :=
  [ "DEFAULT_OPTION"; "id"; "title"; "description"; "created_at";
    "end_date"; "poll_type"; "user_id"; "upvotes"; "options"; "comments";
    "author"; "poll_author"; "tags"; "upvote_count"; "is_upvoted_by";
    "toggle_upvote"; "total_votes"; "has_user_voted"; "get_user_vote";
    "is_active" ].

(** The keywords of [Poll(...)]: the constructor of a declarative model raises
    [TypeError] for a keyword that is no attribute of the class. *)
Definition accepts_keywords (keywords : list string) : bool :=
  forallb (fun k => existsb (String.eqb k) attributes) keywords.
End Poll.

Module PollOption.
Record t : Type := {
  id : nat;
  text : string;
  poll_id : nat
}.
End PollOption.

Module Vote.
Record t : Type := {
  id : nat;
  user_id : option nat;
  option_id : nat;
  timestamp : Z
}.
End Vote.

Module Comment.
Record t : Type := {
  id : nat;
  content : string;
  created_at : Z;
  author_id : nat;
  poll_id : nat;
  parent_id : option nat
}.
End Comment.

Module Follow.
Record t : Type := {
  follower_id : nat;
  followed_id : nat;
  timestamp : Z
}.
End Follow.

Module FollowRequest.
Record t : Type := {
  requester_id : nat;
  requested_id : nat;
  timestamp : Z
}.
End FollowRequest.

Module PollVote.
Record t : Type := {
  id : nat;
  user_id : nat;
  poll_id : nat;
  created_at : Z
}.
End PollVote.

Module Community.
Record t : Type := {
  id : nat;
  name : string;
  university : string;
  program : string;
  description : string;
  created_at : Z;
  created_by_id : option nat
}.
End Community.

Module CommunityMembers.
Record t : Type := {
  id : nat;
  user_id : nat;
  community_id : nat;
  joined_at : Z
}.
End CommunityMembers.

Module DirectMessage.
Record t : Type := {
  id : nat;
  sender_id : nat;
  recipient_id : nat;
  content : string;
  created_at : Z;
  read : bool;
  pinned : bool
}.
End DirectMessage.

Record Store : Type := {
  users : list User.t;
  follows : list Follow.t;
  follow_requests : list FollowRequest.t;
  polls : list Poll.t;
  poll_options : list PollOption.t;
  votes : list Vote.t;
  poll_votes : list PollVote.t;
  comments : list Comment.t;
  communities : list Community.t;
  community_members : list CommunityMembers.t;
  direct_messages : list DirectMessage.t
}.

Definition empty : Store :=
  {| users := []; follows := []; follow_requests := []; polls := [];
     poll_options := []; votes := []; poll_votes := []; comments := [];
     communities := []; community_members := []; direct_messages := [] |}.

(** The store with one table replaced. *)
Definition set_users (st : Store) (rows : list User.t) : Store :=
  {| users := rows; follows := follows st;
     follow_requests := follow_requests st; polls := polls st;
     poll_options := poll_options st; votes := votes st;
     poll_votes := poll_votes st; comments := comments st;
     communities := communities st;
     community_members := community_members st;
     direct_messages := direct_messages st |}.

Definition set_follows (st : Store) (rows : list Follow.t) : Store :=
  {| users := users st; follows := rows;
     follow_requests := follow_requests st; polls := polls st;
     poll_options := poll_options st; votes := votes st;
     poll_votes := poll_votes st; comments := comments st;
     communities := communities st;
     community_members := community_members st;
     direct_messages := direct_messages st |}.

Definition set_follow_requests (st : Store) (rows : list FollowRequest.t)
    : Store :=
  {| users := users st; follows := follows st;
     follow_requests := rows; polls := polls st;
     poll_options := poll_options st; votes := votes st;
     poll_votes := poll_votes st; comments := comments st;
     communities := communities st;
     community_members := community_members st;
     direct_messages := direct_messages st |}.

Definition set_polls (st : Store) (rows : list Poll.t) : Store :=
  {| users := users st; follows := follows st;
     follow_requests := follow_requests st; polls := rows;
     poll_options := poll_options st; votes := votes st;
     poll_votes := poll_votes st; comments := comments st;
     communities := communities st;
     community_members := community_members st;
     direct_messages := direct_messages st |}.

Definition set_poll_options (st : Store) (rows : list PollOption.t) : Store :=
  {| users := users st; follows := follows st;
     follow_requests := follow_requests st; polls := polls st;
     poll_options := rows; votes := votes st;
     poll_votes := poll_votes st; comments := comments st;
     communities := communities st;
     community_members := community_members st;
     direct_messages := direct_messages st |}.

Definition set_votes (st : Store) (rows : list Vote.t) : Store :=
  {| users := users st; follows := follows st;
     follow_requests := follow_requests st; polls := polls st;
     poll_options := poll_options st; votes := rows;
     poll_votes := poll_votes st; comments := comments st;
     communities := communities st;
     community_members := community_members st;
     direct_messages := direct_messages st |}.

Definition set_poll_votes (st : Store) (rows : list PollVote.t) : Store :=
  {| users := users st; follows := follows st;
     follow_requests := follow_requests st; polls := polls st;
     poll_options := poll_options st; votes := votes st;
     poll_votes := rows; comments := comments st;
     communities := communities st;
     community_members := community_members st;
     direct_messages := direct_messages st |}.

Definition set_comments (st : Store) (rows : list Comment.t) : Store :=
  {| users := users st; follows := follows st;
     follow_requests := follow_requests st; polls := polls st;
     poll_options := poll_options st; votes := votes st;
     poll_votes := poll_votes st; comments := rows;
     communities := communities st;
     community_members := community_members st;
     direct_messages := direct_messages st |}.

Definition set_communities (st : Store) (rows : list Community.t) : Store :=
  {| users := users st; follows := follows st;
     follow_requests := follow_requests st; polls := polls st;
     poll_options := poll_options st; votes := votes st;
     poll_votes := poll_votes st; comments := comments st;
     communities := rows;
     community_members := community_members st;
     direct_messages := direct_messages st |}.

Definition set_community_members (st : Store)
    (rows : list CommunityMembers.t) : Store :=
  {| users := users st; follows := follows st;
     follow_requests := follow_requests st; polls := polls st;
     poll_options := poll_options st; votes := votes st;
     poll_votes := poll_votes st; comments := comments st;
     communities := communities st;
     community_members := rows;
     direct_messages := direct_messages st |}.

Definition set_direct_messages (st : Store) (rows : list DirectMessage.t)
    : Store :=
  {| users := users st; follows := follows st;
     follow_requests := follow_requests st; polls := polls st;
     poll_options := poll_options st; votes := votes st;
     poll_votes := poll_votes st; comments := comments st;
     communities := communities st;
     community_members := community_members st;
     direct_messages := rows |}.

(** *** Queries by primary key: [Model.query.get(id)] *)

Definition get_user (st : Store) (id : nat) : option User.t :=
  find (fun u => User.id u =? id) (users st).

Definition get_poll (st : Store) (id : nat) : option Poll.t :=
  find (fun p => Poll.id p =? id) (polls st).

Definition get_option (st : Store) (id : nat) : option PollOption.t :=
  find (fun o => PollOption.id o =? id) (poll_options st).

Definition get_comment (st : Store) (id : nat) : option Comment.t :=
  find (fun c => Comment.id c =? id) (comments st).

(** *** [User] *)

(** [self.following.filter_by(followed_id=user.id).first()]. *)
Definition following_first (st : Store) (self user : nat) : option Follow.t :=
  find (fun f => (Follow.follower_id f =? self)
                 && (Follow.followed_id f =? user)) (follows st).

(** [self.follow_requests_sent.filter_by(requested_id=user.id).first()]. *)
Definition follow_requests_sent_first (st : Store) (self user : nat)
    : option FollowRequest.t :=
  find (fun r => (FollowRequest.requester_id r =? self)
                 && (FollowRequest.requested_id r =? user))
       (follow_requests st).

(** [self.follow_requests_received.filter_by(requester_id=user.id).first()]. *)
Definition follow_requests_received_first (st : Store) (self user : nat)
    : option FollowRequest.t :=
  find (fun r => (FollowRequest.requested_id r =? self)
                 && (FollowRequest.requester_id r =? user))
       (follow_requests st).

Definition is_following (st : Store) (self user : nat) : bool :=
  match following_first st self user with Some _ => true | None => false end.

Definition has_follow_request_pending (st : Store) (self user : nat) : bool :=
  match follow_requests_sent_first st self user with
  | Some _ => true
  | None => false
  end.

(** [User.follow]: it commits. *)
Definition follow (clk : Clock) (st : Store) (self user : nat) : Store :=
  if negb (is_following st self user)
  then set_follows st
         (follows st ++ [ {| Follow.follower_id := self;
                             Follow.followed_id := user;
                             Follow.timestamp := utcnow clk |} ])
  else st.

(** [User.send_follow_request]: the caller commits. *)
Definition send_follow_request (clk : Clock) (st : Store) (self user : nat)
    : Store :=
  if negb (has_follow_request_pending st self user)
  then set_follow_requests st
         (follow_requests st ++ [ {| FollowRequest.requester_id := self;
                                     FollowRequest.requested_id := user;
                                     FollowRequest.timestamp := utcnow clk |} ])
  else st.

(** [db.session.delete(fr)]: the row is deleted by its primary key, the
    ordered pair of users. *)
Definition delete_follow_request (st : Store) (fr : FollowRequest.t) : Store :=
  set_follow_requests st
    (filter (fun r => negb ((FollowRequest.requester_id r
                               =? FollowRequest.requester_id fr)
                            && (FollowRequest.requested_id r
                                  =? FollowRequest.requested_id fr)))
            (follow_requests st)).

(** What a method that commits leaves behind: the committed store, or the
    exception it raised again after [db.session.rollback()]. *)
Inductive Outcome : Type :=
| Committed (st : Store)
| Raised.

(** [User.accept_follow_request].  The pair (follower, followed) is the
    primary key of [follows]: the commit raises when the edge is already
    there, and the [except] branch rolls both writes back and raises
    again. *)
Definition accept_follow_request (clk : Clock) (st : Store) (self user : nat)
    : Outcome :=
  match follow_requests_received_first st self user with
  | Some fr =>
    if is_following st user self then Raised
    else
      Committed
        (delete_follow_request
           (set_follows st
              (follows st ++ [ {| Follow.follower_id := user;
                                  Follow.followed_id := self;
                                  Follow.timestamp := utcnow clk |} ]))
           fr)
  | None => Committed st
  end.

(** [User.can_dm]: "Check if users can DM each other (mutual followers)". *)
Definition can_dm (st : Store) (self user : nat) : bool :=
  is_following st self user && is_following st user self.

(** *** [Poll] *)

(** [poll.options]. *)
Definition options (st : Store) (poll : nat) : list PollOption.t :=
  filter (fun o => PollOption.poll_id o =? poll) (poll_options st).

(** [option.votes.count()]. *)
Definition votes_count (st : Store) (option_id : nat) : nat :=
  List.length (filter (fun v => Vote.option_id v =? option_id) (votes st)).

(** [Poll.upvote_count]: [self.upvotes.count()]. *)
Definition upvote_count (st : Store) (poll : nat) : nat :=
  List.length (filter (fun r => PollVote.poll_id r =? poll) (poll_votes st)).

(** [PollVote.query.filter_by(user_id=user, poll_id=poll).first()]. *)
Definition poll_vote_first (st : Store) (user poll : nat) : option PollVote.t :=
  find (fun r => (PollVote.user_id r =? user) && (PollVote.poll_id r =? poll))
       (poll_votes st).

(** [Poll.is_upvoted_by]; [user] is [None] for no user or an anonymous
    one. *)
Definition is_upvoted_by (st : Store) (poll : nat) (user : option nat) : bool :=
  match user with
  | None => false
  | Some u =>
    match poll_vote_first st u poll with Some _ => true | None => false end
  end.

(** [db.session.delete(vote)] and [db.session.add(PollVote(...))]. *)
Definition delete_poll_vote (st : Store) (vote : PollVote.t) : Store :=
  set_poll_votes st
    (filter (fun r => negb (PollVote.id r =? PollVote.id vote))
            (poll_votes st)).

Definition add_poll_vote (clk : Clock) (st : Store) (user poll : nat) : Store :=
  set_poll_votes st
    (poll_votes st ++
       [ {| PollVote.id := fresh_id (map PollVote.id (poll_votes st));
            PollVote.user_id := user; PollVote.poll_id := poll;
            PollVote.created_at := utcnow clk |} ]).

Inductive UpvoteStatus : Type := removed | added.

(** [Poll.toggle_upvote]: it answers [False] ([None] here) for no user or
    an anonymous one; the writes stay in the session for the caller to
    commit. *)
Definition toggle_upvote (clk : Clock) (st : Store) (poll : nat)
    (user : option nat) : Store * option UpvoteStatus :=
  match user with
  | None => (st, None)
  | Some u =>
    match poll_vote_first st u poll with
    | Some vote => (delete_poll_vote st vote, Some removed)
    | None => (add_poll_vote clk st u poll, Some added)
    end
  end.

(** [Poll.total_votes]. *)
Definition total_votes (st : Store) (poll : nat) : nat :=
  list_sum (map (fun o => votes_count st (PollOption.id o)) (options st poll)).

Definition voted_by (user : nat) (v : Vote.t) : bool :=
  match Vote.user_id v with Some u => u =? user | None => false end.

(** [Poll.has_user_voted]: some vote of the user among the votes of the
    poll's options. *)
Definition has_user_voted (st : Store) (poll : nat) (user : option nat) : bool :=
  match user with
  | None => false
  | Some u =>
    existsb (fun o =>
        existsb (fun v => (Vote.option_id v =? PollOption.id o) && voted_by u v)
                (votes st))
      (options st poll)
  end.

(** The Vote rows of a user on the options of a poll: the rows that "one
    vote per user per poll" counts. *)
Definition votes_of_user_in_poll (st : Store) (user poll : nat) : list Vote.t :=
  filter (fun v => voted_by user v
                   && existsb (fun o => PollOption.id o =? Vote.option_id v)
                              (options st poll))
         (votes st).

(** [Poll.is_active]. *)
Definition is_active (clk : Clock) (poll : Poll.t) : bool :=
  match Poll.end_date poll with
  | None => true
  | Some e => (utcnow clk <? e)%Z
  end.

(** [db.session.add(Vote(user_id=..., option_id=...))]. *)
Definition add_vote (clk : Clock) (st : Store) (user_id : option nat)
    (option_id : nat) : Store :=
  set_votes st
    (votes st ++ [ {| Vote.id := fresh_id (map Vote.id (votes st));
                      Vote.user_id := user_id; Vote.option_id := option_id;
                      Vote.timestamp := utcnow clk |} ]).

(** [db.session.add(PollOption(poll_id=..., text=...))]. *)
Definition add_option (st : Store) (poll : nat) (text : string) : Store :=
  set_poll_options st
    (poll_options st ++
       [ {| PollOption.id := fresh_id (map PollOption.id (poll_options st));
            PollOption.text := text; PollOption.poll_id := poll |} ]).

(** The constraints declared on [PollVote]: the primary key [id] and
    [UniqueConstraint('user_id', 'poll_id')]. *)
Definition same_upvote (r r' : PollVote.t) : bool :=
  (PollVote.user_id r =? PollVote.user_id r')
  && (PollVote.poll_id r =? PollVote.poll_id r').

Definition upvotes_unique (st : Store) : bool :=
  distinct (map PollVote.id (poll_votes st)) &&
  forallb (fun r =>
      forallb (fun r' => implb (same_upvote r r')
                               (PollVote.id r =? PollVote.id r'))
              (poll_votes st))
    (poll_votes st).

(** *** [Comment] *)

Definition is_reply_to (parent : nat) (c : Comment.t) : bool :=
  match Comment.parent_id c with Some p => p =? parent | None => false end.

(** [comment.replies]. *)
Definition replies (st : Store) (comment : nat) : list Comment.t :=
  filter (is_reply_to comment) (comments st).

(** The rows [db.session.delete(comment)] removes: the relationship
    [replies] cascades the delete ('all, delete-orphan') to each reply, and
    so on down the thread.  [depth] bounds the nesting the walk follows. *)
Fixpoint cascade (depth : nat) (st : Store) (comment : nat) : list nat :=
  comment ::
  match depth with
  | 0 => []
  | S d => flat_map (cascade d st) (map Comment.id (replies st comment))
  end.

(** Identifiers grow from a comment to its replies, so no thread is nested
    deeper than the largest identifier. *)
Definition max_depth (st : Store) : nat :=
  list_max (map Comment.id (comments st)).

Definition delete_comment (st : Store) (comment : nat) : Store :=
  let doomed := cascade (max_depth st) st comment in
  set_comments st
    (filter (fun c => negb (existsb (Nat.eqb (Comment.id c)) doomed))
            (comments st)).

Definition add_comment (clk : Clock) (st : Store) (content : string)
    (author poll : nat) (parent : option nat) : Store :=
  set_comments st
    (comments st ++
       [ {| Comment.id := fresh_id (map Comment.id (comments st));
            Comment.content := content; Comment.created_at := utcnow clk;
            Comment.author_id := author; Comment.poll_id := poll;
            Comment.parent_id := parent |} ]).

(** [d] is a reply to [c], or a reply to a reply of [c], and so on. *)
Inductive descendant (st : Store) (c : nat) : nat -> Prop :=
| descendant_reply (r : Comment.t) :
    In r (comments st) -> Comment.parent_id r = Some c ->
    descendant st c (Comment.id r)
| descendant_below (r : Comment.t) (d : nat) :
    In r (comments st) -> Comment.parent_id r = Some c ->
    descendant st (Comment.id r) d ->
    descendant st c d.

(** Every reply was added after the comment it answers. *)
Definition replies_follow_parents (st : Store) : bool :=
  forallb (fun c => match Comment.parent_id c with
                    | Some p => p <? Comment.id c
                    | None => true
                    end) (comments st).

(** *** [Community] *)

(** [Community.query.filter_by(university=..., program=...)], its
    [.first()], and [user in community.members]. *)
Definition communities_of (st : Store) (university program : string)
    : list Community.t :=
  filter (fun c => String.eqb (Community.university c) university
                   && String.eqb (Community.program c) program)
         (communities st).

Definition community_first (st : Store) (university program : string)
    : option Community.t :=
  find (fun c => String.eqb (Community.university c) university
                 && String.eqb (Community.program c) program)
       (communities st).

Definition is_member (st : Store) (community user : nat) : bool :=
  existsb (fun m => (CommunityMembers.community_id m =? community)
                    && (CommunityMembers.user_id m =? user))
          (community_members st).

(** *** More of [User] *)

(** [db.session.delete(f)]: the row is deleted by its primary key, the
    ordered pair of users. *)
Definition delete_follow (st : Store) (f : Follow.t) : Store :=
  set_follows st
    (filter (fun g => negb ((Follow.follower_id g =? Follow.follower_id f)
                            && (Follow.followed_id g =? Follow.followed_id f)))
            (follows st)).

(** [User.unfollow]: it commits. *)
Definition unfollow (st : Store) (self user : nat) : Store :=
  match following_first st self user with
  | Some f => delete_follow st f
  | None => st
  end.

(** [User.reject_follow_request]: the caller commits. *)
Definition reject_follow_request (st : Store) (self user : nat) : Store :=
  match follow_requests_received_first st self user with
  | Some fr => delete_follow_request st fr
  | None => st
  end.

(** [User.query.filter_by(username=username).first()]. *)
Definition user_by_username (st : Store) (username : string) : option User.t :=
  find (fun u => String.eqb (User.username u) username) (users st).

(** The result of a query that ends in [.order_by(key)] (or
    [.order_by(key.desc())]) [.all()]: the selected rows in an order that
    follows the key; rows with equal keys come in any order. *)
Definition ordered_by {A : Type} (key : A -> Z) (descending : bool)
    (rows result : list A) : Prop :=
  Permutation rows result /\
  StronglySorted
    (fun x y => if descending then (key y <= key x)%Z else (key x <= key y)%Z)
    result.

(** The filter of [User.get_dm_history], [routes.chat] and
    [routes.load_messages]: sent by one of the two users to the other. *)
Definition between (a b : nat) (m : DirectMessage.t) : bool :=
  ((DirectMessage.sender_id m =? a) && (DirectMessage.recipient_id m =? b))
  || ((DirectMessage.sender_id m =? b) && (DirectMessage.recipient_id m =? a)).

(** [User.get_dm_history]: newest first. *)
Definition get_dm_history (st : Store) (self other_user : nat)
    (result : list DirectMessage.t) : Prop :=
  ordered_by DirectMessage.created_at true
    (filter (between self other_user) (direct_messages st)) result.

(** *** More of [Poll] *)

(** [Vote.query.filter_by(user_id=user, option_id=option_id).first()]. *)
Definition vote_first (st : Store) (user option_id : nat) : option Vote.t :=
  find (fun v => voted_by user v && (Vote.option_id v =? option_id)) (votes st).

(** [Poll.get_user_vote]: the first option of the poll that holds a vote of
    the user. *)
Definition get_user_vote (st : Store) (poll : nat) (user : option nat)
    : option PollOption.t :=
  match user with
  | None => None
  | Some u =>
    find (fun o => match vote_first st u (PollOption.id o) with
                   | Some _ => true
                   | None => false
                   end)
         (options st poll)
  end.

(** *** The tables of community messages, pins, applications, universities
    and programs *)

Module CommunityMessage.
Record t : Type := {
  id : nat;
  content : string;
  created_at : Z;
  user_id : nat;
  community_id : nat
}.
End CommunityMessage.

Module PinnedCommunities.
Record t : Type := {
  id : nat;
  user_id : nat;
  community_id : nat;
  pinned_at : Z
}.
End PinnedCommunities.

Module PinnedConversations.
Record t : Type := {
  id : nat;
  user_id : nat;
  conversation_with_id : nat;
  pinned_at : Z
}.
End PinnedConversations.

(** Of [Application], the columns that [routes.application_flow] reads. *)
Module Application.
Record t : Type := {
  id : nat;
  user_id : nat;
  university : string;
  program : string;
  status : string
}.
End Application.

Module University.
Record t : Type := {
  id : nat;
  name : string;
  country : string;
  domain : option string
}.
End University.

Module Program.
Record t : Type := {
  id : nat;
  name : string;
  university_id : nat
}.
End Program.

(** [Community.query.get(id)]. *)
Definition get_community (st : Store) (id : nat) : option Community.t :=
  find (fun c => Community.id c =? id) (communities st).

(** Every row of [l] is the only one of its key. *)
Fixpoint one_row_per_key {A : Type} (same : A -> A -> bool) (l : list A)
    : bool :=
  match l with
  | [] => true
  | x :: rest => negb (existsb (same x) rest) && one_row_per_key same rest
  end.

(** The constraint [unique_community_member] and the primary key of
    [CommunityMembers]. *)
Definition same_membership (m m' : CommunityMembers.t) : bool :=
  (CommunityMembers.community_id m =? CommunityMembers.community_id m')
  && (CommunityMembers.user_id m =? CommunityMembers.user_id m').

Definition memberships_unique (st : Store) : bool :=
  distinct (map CommunityMembers.id (community_members st))
  && one_row_per_key same_membership (community_members st).

(** The primary keys of [follows] and [follow_requests]: no ordered pair
    occurs twice. *)
Definition same_edge (f g : Follow.t) : bool :=
  (Follow.follower_id f =? Follow.follower_id g)
  && (Follow.followed_id f =? Follow.followed_id g).

Definition same_request (r s : FollowRequest.t) : bool :=
  (FollowRequest.requester_id r =? FollowRequest.requester_id s)
  && (FollowRequest.requested_id r =? FollowRequest.requested_id s).

(** No edge and no request from a user to themselves. *)
Definition no_self_edges (st : Store) : bool :=
  forallb (fun f => negb (Follow.follower_id f =? Follow.followed_id f))
          (follows st)
  && forallb (fun r => negb (FollowRequest.requester_id r
                               =? FollowRequest.requested_id r))
             (follow_requests st).

Definition graph_keys_unique (st : Store) : bool :=
  one_row_per_key same_edge (follows st)
  && one_row_per_key same_request (follow_requests st).

(** What the graph routes keep: one row per ordered pair in [follows] and
    in [follow_requests], and no row from a user to themselves. *)
Definition keys_kept (st : Store) : Prop :=
  graph_keys_unique st = true /\ no_self_edges st = true.


(** Every reply answers a comment of the table, on the same poll. *)
Definition replies_have_parents (st : Store) : bool :=
  forallb (fun c =>
      match Comment.parent_id c with
      | Some p =>
        existsb (fun q => (Comment.id q =? p)
                          && (Comment.poll_id q =? Comment.poll_id c))
                (comments st)
      | None => true
      end)
    (comments st).

(** What the comment routes keep: replies come after the comment they
    answer, which is in the table and on the same poll. *)
Definition threads_kept (st : Store) : Prop :=
  replies_follow_parents st = true /\ replies_have_parents st = true.

End Models.

(** ** [app/forms.py] *)

Module Forms.

(** [PollForm] as posted: the parsed [end_date] field ([None] when left
    empty), and [other_fields_valid] for the verdict of the CSRF check and
    of the declared validators of the title, description and poll type. *)
Record PollForm : Type := {
  title : string;
  description : string;
  end_date : option Z;
  poll_type : string;
  other_fields_valid : bool
}.

(** [PollForm.validate_end_date]: the error it raises, if any. *)
Definition validate_end_date (clk : Clock) (field : option Z) : option string :=
  match field with
  | Some data =>
    if (data <? now clk)%Z then Some "End date must be in the future" else None
  | None => None
  end.

(** [form.validate_on_submit()] on a [PollForm]. *)
Definition validate_on_submit (clk : Clock) (form : PollForm) : bool :=
  other_fields_valid form &&
  match validate_end_date clk (end_date form) with
  | None => true
  | Some _ => false
  end.

(** [CommunityForm] as posted; [valid] is the verdict of
    [form.validate_on_submit()] on it. *)
Record CommunityForm : Type := {
  university : string;
  program : string;
  community_description : string;
  valid : bool
}.

End Forms.

(** ** [app/api.py] *)

Module Api.
Import Models.

(** What [data.get('end_date')] is after
    [datetime.fromisoformat(... .replace('Z', '+00:00'))]: missing or empty,
    a string that raises [ValueError], a datetime without offset, or one
    with an offset (as the suffix [Z] gives). *)
Inductive EndDateField : Type :=
| NoEndDate
| Unparsable
| Naive (t : Z)
| Aware (t : Z).

(** The JSON body of [POST /polls].  A missing string is the empty string;
    [options] holds the option texts of a general poll and the [name] of
    each entry of a university poll (empty when the entry has none). *)
Record PollData : Type := {
  title : string;
  poll_type : string;
  description : string;
  end_date : EndDateField;
  course : string;
  options : list string
}.

Record PollCreated : Type := {
  id : nat;
  created_end_date : Z;
  default_end_date : Z;
  max_end_date : Z;
  min_end_date : Z
}.

Definition too_soon_message : string :=
  "End date must be at least 5 minutes in the future".
Definition too_far_message : string :=
  "End date cannot be more than 10 days from now".
Definition bad_format_message : string :=
  "Invalid end date format. Please use ISO format (YYYY-MM-DDTHH:MM:SSZ)".

(** Lines 57 to 83 of [create_poll]: the end date of the poll, the message
    of a 400 answer, or the [TypeError] that comparing a datetime with an
    offset to [utcnow()] raises (it is no [ValueError], so the outer handler
    answers it). *)
Inductive EndDateOutcome : Type :=
| EndDate (t : Z)
| Refused (msg : string)
| CompareError.

Definition resolve_end_date (utc : Z) (field : EndDateField)
    : EndDateOutcome :=
  let default_end := (utc + timedelta_days 3)%Z in
  let max_end := (utc + timedelta_days 10)%Z in
  let min_end := (utc + timedelta_minutes 5)%Z in
  match field with
  | NoEndDate => EndDate default_end
  | Unparsable => Refused bad_format_message
  | Aware _ => CompareError
  | Naive requested_end =>
    if (requested_end <=? min_end)%Z then Refused too_soon_message
    else if (max_end <? requested_end)%Z then Refused too_far_message
    else EndDate requested_end
  end.

(** The loop over the options of a general poll. *)
Fixpoint add_general_options (st : Store) (poll : nat) (texts : list string)
    : Store :=
  match texts with
  | [] => st
  | option_text :: rest =>
    add_general_options (add_option st poll option_text) poll rest
  end.

(** The loop over the options of a university poll: it leaves with a 400
    answer at the first entry without a name. *)
Fixpoint add_university_options (st : Store) (poll : nat)
    (names : list string) : option Store :=
  match names with
  | [] => Some st
  | name :: rest =>
    if String.eqb name "" then None
    else add_university_options (add_option st poll name) poll rest
  end.

(** The keywords [create_poll] gives to [Poll(...)]. *)
Definition poll_keywords : list string :=
  ["title"; "description"; "poll_type"; "user_id"; "course"; "end_date"].

(** [create_poll].  [Poll(...)] raises when one of its keywords is no
    attribute of the class, and the [except Exception] of the handler
    answers 500 after a rollback.  The 400 answers after the flush leave
    without a commit, so the session's writes are dropped with the
    request.  (The 400 answers of the end date also carry the bound; only
    the message is kept here.  [created_at] is the default of the column,
    which reads [utcnow()] again at the flush; the row below stands for
    it with the reading of the handler.) *)
Definition create_poll (clk : Clock) (current_user : option nat)
    (data : PollData) (st : Store) : Store * Response PollCreated :=
  if String.eqb (title data) "" || String.eqb (poll_type data) ""
  then (st, JsonError 400 "Title and poll type are required")
  else
    let utc := utcnow clk in
    let default_end := (utc + timedelta_days 3)%Z in
    let max_end := (utc + timedelta_days 10)%Z in
    let min_end := (utc + timedelta_minutes 5)%Z in
    match resolve_end_date utc (end_date data) with
    | Refused msg => (st, JsonError 400 msg)
    | CompareError => (st, JsonError 500 "Failed to create poll")
    | EndDate end_date =>
      if negb (Poll.accepts_keywords poll_keywords)
      then (st, JsonError 500 "Failed to create poll")
      else
        let poll := {| Poll.id := fresh_id (map Poll.id (polls st));
                       Poll.title := title data;
                       Poll.description := description data;
                       Poll.created_at := utc;
                       Poll.end_date := Some end_date;
                       Poll.poll_type := poll_type data;
                       Poll.user_id := current_user |} in
        let session := set_polls st (polls st ++ [poll]) in
        let created :=
          Json 201 {| id := Poll.id poll;
                      created_end_date := end_date;
                      default_end_date := default_end;
                      max_end_date := max_end;
                      min_end_date := min_end |} in
        if List.length (options data) <? 2
        then (st, JsonError 400 "At least two options are required")
        else if String.eqb (poll_type data) "university"
        then
          if String.eqb (course data) ""
          then (st, JsonError 400 "Course is required for university polls")
          else
            match add_university_options session (Poll.id poll)
                    (options data) with
            | None => (st, JsonError 400 "University name is required")
            | Some session =>
              (add_option session (Poll.id poll) Poll.DEFAULT_OPTION, created)
            end
        else
          (add_option
             (add_general_options session (Poll.id poll) (options data))
             (Poll.id poll) Poll.DEFAULT_OPTION,
           created)
    end.

(** The body of the answer of [vote_poll]: the votes of each option of the
    poll, and their sum. *)
Record VoteCounts : Type := {
  counts : list (nat * nat);
  total_votes : nat
}.

Definition options_data (st : Store) (poll : nat) : list (nat * nat) :=
  map (fun opt => (PollOption.id opt, votes_count st (PollOption.id opt)))
      (Models.options st poll).

(** [vote_poll].  [option_id] is [data.get('option_id')]; [None] and [0] are
    falsy.  [get_or_404] is called inside the [try], so its [NotFound] is
    caught by [except Exception] like any other error, and so is the error
    of reading the options of a poll that is not there, after the commit.
    [current_user] is in scope of the handler and never read. *)
Definition vote_poll (clk : Clock) (current_user : option nat) (poll_id : nat)
    (option_id : option nat) (st : Store) : Store * Response VoteCounts :=
  match option_id with
  | None | Some 0 => (st, JsonError 400 "Option ID is required")
  | Some option_id =>
    match get_option st option_id with
    | None => (st, JsonError 500 "Failed to record vote")
    | Some poll_option =>
      if negb (PollOption.poll_id poll_option =? poll_id)
      then (st, JsonError 400 "Invalid option for this poll")
      else
        let st := add_vote clk st None option_id in
        match get_poll st (PollOption.poll_id poll_option) with
        | None => (st, JsonError 500 "Failed to record vote")
        | Some poll =>
          let data := options_data st (Poll.id poll) in
          (st, Json 200 {| counts := data;
                           total_votes := list_sum (map snd data) |})
        end
    end
  end.

(** The body of the answer of [get_poll]. *)
Module OptionView.
Record t : Type := {
  id : nat;
  text : string;
  votes : nat
}.
End OptionView.

Module PollView.
Record t : Type := {
  id : nat;
  title : string;
  description : string;
  poll_type : string;
  created_at : Z;
  options : list OptionView.t;
  total_votes : nat
}.
End PollView.

(** [get_poll].  For a poll of type [university] the loop reads
    [option.university_domain] of the first option, an attribute the
    PollOption model does not have: the error is raised outside any [try]
    and the request ends with status 500. *)
Definition get_poll (poll_id : nat) (st : Store)
    : Store * Response PollView.t :=
  match Models.get_poll st poll_id with
  | None => (st, Abort 404)
  | Some poll =>
    let response_options :=
      map (fun option =>
             {| OptionView.id := PollOption.id option;
                OptionView.text := PollOption.text option;
                OptionView.votes := votes_count st (PollOption.id option) |})
          (Models.options st (Poll.id poll)) in
    if String.eqb (Poll.poll_type poll) "university"
       && negb (match response_options with [] => true | _ => false end)
    then (st, Abort 500)
    else
      (st, Json 200
             {| PollView.id := Poll.id poll;
                PollView.title := Poll.title poll;
                PollView.description := Poll.description poll;
                PollView.poll_type := Poll.poll_type poll;
                PollView.created_at := Poll.created_at poll;
                PollView.options := response_options;
                PollView.total_votes :=
                  list_sum (map OptionView.votes response_options) |})
  end.

End Api.

(** ** [app/routes.py] *)

Module Routes.
Import Models.

(** A handler: the committed store and the response. *)
Definition Handler (A : Type) : Type := Store -> Store * Response A.

(** [@login_required]: the view runs for an authenticated user only. *)
Definition login_required {A : Type} (current_user : option nat)
    (view : nat -> Handler A) : Handler A :=
  fun st =>
    match current_user with
    | Some user => view user st
    | None => (st, LoginRedirect)
    end.

(** [create_poll]: the web form. *)
Definition create_poll (clk : Clock) (current_user : option nat)
    (form : Forms.PollForm) : Handler unit :=
  login_required current_user (fun current_user st =>
    if Forms.validate_on_submit clk form
    then
      let poll := {| Poll.id := fresh_id (map Poll.id (polls st));
                     Poll.title := Forms.title form;
                     Poll.description := Forms.description form;
                     Poll.created_at := utcnow clk;
                     Poll.end_date := Forms.end_date form;
                     Poll.poll_type := Forms.poll_type form;
                     Poll.user_id := Some current_user |} in
      (set_polls st (polls st ++ [poll]),
       Flash "Your poll has been created!" "success")
    else (st, Render "create_poll.html")).

(** [Vote.query.filter_by(user_id=current_user.id,
    option_id=option_id).first()]. *)
Definition existing_vote (st : Store) (current_user option_id : nat)
    : option Vote.t :=
  find (fun v => voted_by current_user v && (Vote.option_id v =? option_id))
       (votes st).

(** [vote]. *)
Definition vote (clk : Clock) (current_user : option nat)
    (poll_id option_id : nat) : Handler unit :=
  login_required current_user (fun current_user st =>
    match get_poll st poll_id with
    | None => (st, Abort 404)
    | Some poll =>
      match get_option st option_id with
      | None => (st, Abort 404)
      | Some option =>
        if match Poll.end_date poll with
           | Some end_date => (end_date <? now clk)%Z
           | None => false
           end
        then (st, Flash "This poll has ended" "danger")
        else
          match existing_vote st current_user option_id with
          | Some _ =>
            (st, Flash "You have already voted on this poll" "warning")
          | None =>
            (add_vote clk st (Some current_user) option_id,
             Flash "Your vote has been recorded!" "success")
          end
      end
    end).

(** [toggle_privacy]. *)
Definition toggle_privacy (current_user : option nat) : Handler bool :=
  login_required current_user (fun current_user st =>
    let flip u :=
      if User.id u =? current_user
      then {| User.id := User.id u; User.username := User.username u;
              User.is_private := negb (User.is_private u) |}
      else u in
    let st := set_users st (map flip (users st)) in
    (st, Json 200 (match get_user st current_user with
                   | Some u => User.is_private u
                   | None => false
                   end))).

(** [follow]. *)
Definition follow (clk : Clock) (current_user : option nat) (is_json : bool)
    (user_id : nat) : Handler string :=
  login_required current_user (fun current_user st =>
    if negb is_json then (st, JsonError 400 "Invalid request")
    else
      match get_user st user_id with
      | None => (st, Abort 404)
      | Some user =>
        if User.id user =? current_user
        then (st, JsonError 400 "Cannot follow yourself")
        else if User.is_private user
        then
          if negb (has_follow_request_pending st current_user (User.id user))
          then (send_follow_request clk st current_user (User.id user),
                Json 200 "Follow request sent")
          else (st, Json 200 "Follow request already sent")
        else
          if negb (is_following st current_user (User.id user))
          then (Models.follow clk st current_user (User.id user),
                Json 200 "Following")
          else (st, Json 200 "Already following")
      end).

(** [accept_follow]. *)
Definition accept_follow (clk : Clock) (current_user : option nat)
    (is_json : bool) (user_id : nat) : Handler string :=
  login_required current_user (fun current_user st =>
    if negb is_json then (st, JsonError 400 "Invalid request")
    else
      match get_user st user_id with
      | None => (st, Abort 404)
      | Some user =>
        match follow_requests_received_first st current_user user_id with
        | None => (st, JsonError 404 "No follow request found")
        | Some request_exists =>
          match accept_follow_request clk st current_user (User.id user) with
          | Committed st => (st, Json 200 "Follow request accepted")
          | Raised => (st, JsonError 500 "Failed to accept follow request")
          end
        end
      end).

(** [str(e)] of the [NotFound] that [get_or_404] raises, which the
    [except] branches of [add_comment], [pin_conversation] and
    [unpin_conversation] send back with status 500. *)
Definition not_found_text : string :=
  "404 Not Found: The requested URL was not found on the server. If you entered the URL manually please check your spelling and try again.".

(** [add_comment]: [content] is [data.get('content')], empty when missing.
    [get_or_404] is called inside the [try], and the 500 answer carries the
    text of the exception after its own. *)
Definition add_comment (clk : Clock) (current_user : option nat)
    (poll_id : nat) (content : string) : Handler nat :=
  login_required current_user (fun current_user st =>
    if String.eqb content ""
    then (st, JsonError 400 "Comment content is required")
    else
      match get_poll st poll_id with
      | None =>
        (st, JsonError 500
               (String.append "Failed to add comment: " not_found_text))
      | Some poll =>
        (Models.add_comment clk st content current_user poll_id None,
         Json 201 (fresh_id (map Comment.id (comments st))))
      end).

(** [delete_comment].  [get_or_404] is called inside the [try]: its
    [NotFound] ends in the [except] branch. *)
Definition delete_comment (current_user : option nat) (comment_id : nat)
    : Handler string :=
  login_required current_user (fun current_user st =>
    match get_comment st comment_id with
    | None => (st, JsonError 500 "Failed to delete comment")
    | Some comment =>
      if negb (Comment.author_id comment =? current_user)
      then (st, JsonError 403 "Unauthorized")
      else (Models.delete_comment st (Comment.id comment),
            Json 200 "Comment deleted successfully")
    end).

(** [add_reply]: [content] and [parent_id] are the fields of the body,
    empty and [0] when missing. *)
Definition add_reply (clk : Clock) (current_user : option nat)
    (poll_id : nat) (content : string) (parent_id : nat) : Handler nat :=
  login_required current_user (fun current_user st =>
    if String.eqb content "" || (parent_id =? 0)
    then (st, JsonError 400 "Reply content and parent comment ID are required")
    else
      match get_comment st parent_id with
      | None => (st, JsonError 500 "Failed to add reply")
      | Some parent_comment =>
        if negb (Comment.poll_id parent_comment =? poll_id)
        then (st, JsonError 400 "Invalid parent comment")
        else
          (Models.add_comment clk st content current_user poll_id
             (Some (Comment.id parent_comment)),
           Json 201 (fresh_id (map Comment.id (comments st))))
      end).

Record UpvoteAnswer : Type := { status : UpvoteStatus; count : nat }.

(** [upvote_poll]. *)
Definition upvote_poll (clk : Clock) (current_user : option nat)
    (poll_id : nat) : Handler UpvoteAnswer :=
  login_required current_user (fun current_user st =>
    match get_poll st poll_id with
    | None => (st, Abort 404)
    | Some poll =>
      match poll_vote_first st current_user (Poll.id poll) with
      | Some existing_vote =>
        let st := delete_poll_vote st existing_vote in
        (st, Json 200 {| status := removed;
                         count := upvote_count st (Poll.id poll) |})
      | None =>
        let st := add_poll_vote clk st current_user (Poll.id poll) in
        (st, Json 200 {| status := added;
                         count := upvote_count st (Poll.id poll) |})
      end
    end).

(** [create_community]. *)
Definition create_community (clk : Clock) (current_user : option nat)
    (form : Forms.CommunityForm) : Handler unit :=
  login_required current_user (fun current_user st =>
    if Forms.valid form
    then
      match community_first st (Forms.university form) (Forms.program form) with
      | Some existing =>
        (st, Flash "A community for this university and program already exists!"
                   "warning")
      | None =>
        let community :=
          {| Community.id := fresh_id (map Community.id (communities st));
             Community.name :=
               String.append (Forms.university form)
                 (String.append " - " (Forms.program form));
             Community.university := Forms.university form;
             Community.program := Forms.program form;
             Community.description := Forms.community_description form;
             Community.created_at := utcnow clk;
             Community.created_by_id := Some current_user |} in
        let membership :=
          {| CommunityMembers.id :=
               fresh_id (map CommunityMembers.id (community_members st));
             CommunityMembers.user_id := current_user;
             CommunityMembers.community_id := Community.id community;
             CommunityMembers.joined_at := utcnow clk |} in
        (set_community_members
           (set_communities st (communities st ++ [community]))
           (community_members st ++ [membership]),
         Flash "Community created successfully!" "success")
      end
    else (st, Render "communities/create.html")).

Inductive Method : Type := GET | POST.

(** What [chat] reads of the request: the method, the form field [content]
    (empty when missing) and whether the header [X-Requested-With] is
    [XMLHttpRequest]. *)
Record ChatRequest : Type := {
  method : Method;
  content : string;
  xml_http_request : bool
}.

(** [chat]; [user_id] is [None] on the route [/messages].  For a caller
    who does not follow the other user the handler flashes its message and
    asks [url_for] for the endpoint [main.messages]; the two routes of
    this view are the endpoint [main.chat], so [url_for] raises
    [BuildError] outside any [try] and the request ends with status
    500. *)
Definition chat (clk : Clock) (current_user : option nat)
    (user_id : option nat) (request : ChatRequest) : Handler string :=
  login_required current_user (fun current_user st =>
    match user_id with
    | None => (st, Render "messages/chat.html")
    | Some user_id =>
      match get_user st user_id with
      | None => (st, Abort 404)
      | Some other_user =>
        if negb (is_following st current_user (User.id other_user))
        then (st, Abort 500)
        else
          match method request with
          | POST =>
            if String.eqb (content request) ""
            then (st, Render "messages/chat.html")
            else
              let message :=
                {| DirectMessage.id :=
                     fresh_id (map DirectMessage.id (direct_messages st));
                   DirectMessage.sender_id := current_user;
                   DirectMessage.recipient_id := user_id;
                   DirectMessage.content := content request;
                   DirectMessage.created_at := utcnow clk;
                   DirectMessage.read := false;
                   DirectMessage.pinned := false |} in
              let st := set_direct_messages st (direct_messages st ++ [message]) in
              if xml_http_request request
              then (st, Json 200 "success")
              else (st, Redirect "main.chat")
          | GET => (st, Render "messages/chat.html")
          end
      end
    end).

(** [unfollow]. *)
Definition unfollow (current_user : option nat) (is_json : bool)
    (user_id : nat) : Handler string :=
  login_required current_user (fun current_user st =>
    if negb is_json then (st, JsonError 400 "Invalid request")
    else
      match get_user st user_id with
      | None => (st, Abort 404)
      | Some user =>
        if User.id user =? current_user
        then (st, JsonError 400 "Cannot unfollow yourself")
        else (Models.unfollow st current_user (User.id user),
              Json 200 "Unfollowed")
      end).

(** [reject_follow]. *)
Definition reject_follow (current_user : option nat) (is_json : bool)
    (user_id : nat) : Handler string :=
  login_required current_user (fun current_user st =>
    if negb is_json then (st, JsonError 400 "Invalid request")
    else
      match get_user st user_id with
      | None => (st, Abort 404)
      | Some user =>
        match follow_requests_received_first st current_user user_id with
        | None => (st, JsonError 404 "No follow request found")
        | Some request_exists =>
          (reject_follow_request st current_user (User.id user),
           Json 200 "Follow request rejected")
        end
      end).

(** The test [can_view] of [view_user_profile], [user_followers] and
    [user_following]. *)
Definition can_view (st : Store) (current_user : nat) (user : User.t) : bool :=
  (User.id user =? current_user)
  || negb (User.is_private user)
  || is_following st current_user (User.id user).

(** [view_user_profile]: the page or the refusal. *)
Definition view_user_profile (current_user : option nat) (username : string)
    : Handler unit :=
  login_required current_user (fun current_user st =>
    match user_by_username st username with
    | None => (st, Abort 404)
    | Some user =>
      if negb (can_view st current_user user)
      then (st, Flash "This profile is private. Send a follow request to view."
                      "warning")
      else (st, Render "users/profile.html")
    end).

(** [load_messages]: what the template is given for an authenticated
    caller and a registered other user, oldest first. *)
Definition load_messages (st : Store) (current_user user_id : nat)
    (messages : list DirectMessage.t) : Prop :=
  ordered_by DirectMessage.created_at false
    (filter (between current_user user_id) (direct_messages st)) messages.

(** [join_community].  [csrf_valid] says whether the POST carries a valid
    CSRF token: the [CSRFProtect] of the application answers a POST
    without one with status 400 before [@login_required] and the view run.
    With one, [form.validate_on_submit()] of the empty [FlaskForm] holds,
    so the last [return] of the view is never reached. *)
Definition join_community (clk : Clock) (current_user : option nat)
    (csrf_valid : bool) (id : nat) : Handler unit :=
  fun st =>
    if negb csrf_valid then (st, Abort 400)
    else
      login_required current_user (fun current_user st =>
        match get_community st id with
        | None => (st, Abort 404)
        | Some community =>
          if is_member st (Community.id community) current_user
          then (st, Flash "You are already a member of this community!" "info")
          else
            let membership :=
              {| CommunityMembers.id :=
                   fresh_id (map CommunityMembers.id (community_members st));
                 CommunityMembers.user_id := current_user;
                 CommunityMembers.community_id := id;
                 CommunityMembers.joined_at := utcnow clk |} in
            (set_community_members st (community_members st ++ [membership]),
             Flash "You have joined the community!" "success")
        end) st.

(** A handler that reads the store and writes one of the tables that are
    kept beside it. *)
Definition TableHandler (T A : Type) : Type := Store -> T -> T * Response A.

Definition login_required_table {T A : Type} (current_user : option nat)
    (view : nat -> TableHandler T A) : TableHandler T A :=
  fun st table =>
    match current_user with
    | Some user => view user st table
    | None => (table, LoginRedirect)
    end.

(** [post_message]: [content] is [data.get('content')], empty when
    missing. *)
Definition post_message (clk : Clock) (current_user : option nat)
    (is_json : bool) (id : nat) (content : string)
    : TableHandler (list CommunityMessage.t) unit :=
  login_required_table current_user (fun current_user st messages =>
    if negb is_json then (messages, JsonError 400 "Invalid request")
    else
      match get_community st id with
      | None => (messages, Abort 404)
      | Some community =>
        if negb (is_member st (Community.id community) current_user)
        then (messages, JsonError 403 "You must be a member to post messages")
        else if String.eqb content ""
        then (messages, JsonError 400 "Message content is required")
        else
          (messages ++
             [ {| CommunityMessage.id :=
                    fresh_id (map CommunityMessage.id messages);
                  CommunityMessage.content := content;
                  CommunityMessage.created_at := utcnow clk;
                  CommunityMessage.user_id := current_user;
                  CommunityMessage.community_id := id |} ],
           Json 201 tt)
      end).

(** [community in current_user.pinned_communities]. *)
Definition community_pinned (pins : list PinnedCommunities.t)
    (current_user community : nat) : bool :=
  existsb (fun p => (PinnedCommunities.user_id p =? current_user)
                    && (PinnedCommunities.community_id p =? community)) pins.

(** [pin_community] and [unpin_community]. *)
Definition pin_community (clk : Clock) (current_user : option nat) (id : nat)
    : TableHandler (list PinnedCommunities.t) string :=
  login_required_table current_user (fun current_user st pins =>
    match get_community st id with
    | None => (pins, Abort 404)
    | Some community =>
      if negb (community_pinned pins current_user (Community.id community))
      then
        (pins ++ [ {| PinnedCommunities.id :=
                        fresh_id (map PinnedCommunities.id pins);
                      PinnedCommunities.user_id := current_user;
                      PinnedCommunities.community_id := Community.id community;
                      PinnedCommunities.pinned_at := utcnow clk |} ],
         Json 200 "pinned")
      else (pins, Json 200 "already_pinned")
    end).

Definition unpin_community (current_user : option nat) (id : nat)
    : TableHandler (list PinnedCommunities.t) string :=
  login_required_table current_user (fun current_user st pins =>
    match get_community st id with
    | None => (pins, Abort 404)
    | Some community =>
      if community_pinned pins current_user (Community.id community)
      then
        (filter (fun p => negb ((PinnedCommunities.user_id p =? current_user)
                                && (PinnedCommunities.community_id p
                                      =? Community.id community))) pins,
         Json 200 "unpinned")
      else (pins, Json 200 "not_pinned")
    end).

(** [user in current_user.pinned_conversations]. *)
Definition conversation_pinned (pins : list PinnedConversations.t)
    (current_user user : nat) : bool :=
  existsb (fun p => (PinnedConversations.user_id p =? current_user)
                    && (PinnedConversations.conversation_with_id p =? user))
          pins.

(** [pin_conversation] and [unpin_conversation]. *)
Definition pin_conversation (clk : Clock) (current_user : option nat)
    (user_id : nat) : TableHandler (list PinnedConversations.t) string :=
  login_required_table current_user (fun current_user st pins =>
    match get_user st user_id with
    | None => (pins, JsonError 500 not_found_text)
    | Some user =>
      if User.id user =? current_user
      then (pins, JsonError 400 "Cannot pin conversation with yourself")
      else if negb (conversation_pinned pins current_user (User.id user))
      then
        (pins ++ [ {| PinnedConversations.id :=
                        fresh_id (map PinnedConversations.id pins);
                      PinnedConversations.user_id := current_user;
                      PinnedConversations.conversation_with_id := User.id user;
                      PinnedConversations.pinned_at := utcnow clk |} ],
         Json 200 "success")
      else (pins, Json 200 "already_pinned")
    end).

Definition unpin_conversation (current_user : option nat) (user_id : nat)
    : TableHandler (list PinnedConversations.t) string :=
  login_required_table current_user (fun current_user st pins =>
    match get_user st user_id with
    | None => (pins, JsonError 500 not_found_text)
    | Some user =>
      if conversation_pinned pins current_user (User.id user)
      then
        (filter (fun p => negb ((PinnedConversations.user_id p =? current_user)
                                && (PinnedConversations.conversation_with_id p
                                      =? User.id user))) pins,
         Json 200 "success")
      else (pins, Json 200 "not_pinned")
    end).

(** *** The listings *)

Inductive Sort : Type := new | top | trending.

(** [request.args.get('sort', 'new')]: anything but ['top'] and
    ['trending'] lists the newest first. *)
Definition sort_of (sort : string) : Sort :=
  if String.eqb sort "top" then top
  else if String.eqb sort "trending" then trending
  else new.

(** [base_query] of [index]: the polls that have not ended. *)
Definition not_ended (clk : Clock) (poll : Poll.t) : bool :=
  match Poll.end_date poll with
  | None => true
  | Some end_date => (utcnow clk <? end_date)%Z
  end.

(** The upvotes that the join of [index] counts for a poll: all of them
    for [top], those after [week_ago] for [trending]. *)
Definition counted_upvotes (clk : Clock) (sort : Sort) (st : Store)
    (poll : nat) : list PollVote.t :=
  filter (fun vote =>
            (PollVote.poll_id vote =? poll)
            && match sort with
               | trending =>
                 (utcnow clk - timedelta_days 7 <? PollVote.created_at vote)%Z
               | _ => true
               end)
         (poll_votes st).

(** The rows of the query of [index] before [paginate] cuts a page: for
    [top] and [trending] the join keeps the polls with a counted upvote and
    orders them by their number, most first; [new] orders by creation
    time, newest first. *)
Definition index_query (clk : Clock) (sort : Sort) (st : Store)
    (result : list Poll.t) : Prop :=
  match sort with
  | new =>
    ordered_by Poll.created_at true (filter (not_ended clk) (polls st)) result
  | _ =>
    ordered_by
      (fun poll => Z.of_nat (List.length
                               (counted_upvotes clk sort st (Poll.id poll))))
      true
      (filter (fun poll =>
                 not_ended clk poll
                 && negb (match counted_upvotes clk sort st (Poll.id poll) with
                          | [] => true
                          | _ => false
                          end))
              (polls st))
      result
  end.

(** [query.paginate(page=page, per_page=10, error_out=False)]: the items of
    the page; a page below 1 is read as page 1. *)
Definition paginate {A : Type} (page : Z) (rows : list A) : list A :=
  let page := if (page <? 1)%Z then 1%Z else page in
  firstn 10 (skipn (10 * (Z.to_nat page - 1)) rows).

(** [index]: the polls handed to the template. *)
Definition index (clk : Clock) (page : Z) (sort : string) (st : Store)
    (items : list Poll.t) : Prop :=
  exists result,
    index_query clk (sort_of sort) st result /\ items = paginate page result.

(** The query of [archived_polls]: the polls that have ended, newest
    first. *)
Definition archived_query (clk : Clock) (st : Store) (result : list Poll.t)
    : Prop :=
  ordered_by Poll.created_at true
    (filter (fun poll => match Poll.end_date poll with
                         | Some end_date => (end_date <=? utcnow clk)%Z
                         | None => false
                         end)
            (polls st))
    result.

(** [archived_polls]: the polls handed to the template. *)
Definition archived_polls (clk : Clock) (page : Z) (st : Store)
    (items : list Poll.t) : Prop :=
  exists result, archived_query clk st result /\ items = paginate page result.

(** *** [application_flow] *)

(** A Python [dict] with string keys, in insertion order. *)
Fixpoint dict_get {V : Type} (d : list (string * V)) (key : string)
    : option V :=
  match d with
  | [] => None
  | (k, v) :: rest => if String.eqb k key then Some v else dict_get rest key
  end.

Fixpoint dict_set {V : Type} (d : list (string * V)) (key : string) (v : V)
    : list (string * V) :=
  match d with
  | [] => [(key, v)]
  | (k, w) :: rest =>
    if String.eqb k key then (k, v) :: rest else (k, w) :: dict_set rest key v
  end.

Record FlowEntry : Type := { count_of : nat; status_of : string }.

Record FlowData : Type := {
  total : nat;
  universities : list (string * FlowEntry);
  decisions : list (string * nat)
}.

Definition initial_flow (applications : list Application.t) : FlowData :=
  {| total := List.length applications;
     universities := [];
     decisions := [("Applied", 0); ("Interview", 0); ("Accepted", 0);
                   ("Rejected", 0); ("Waitlisted", 0); ("Seat Locked", 0)] |}.

(** The body of the loop over the applications. *)
Definition flow_step (data : FlowData) (app : Application.t) : FlowData :=
  let uni_program :=
    String.append (Application.university app)
      (String.append " - " (Application.program app)) in
  {| total := total data;
     universities :=
       match dict_get (universities data) uni_program with
       | None =>
         dict_set (universities data) uni_program
           {| count_of := 1; status_of := Application.status app |}
       | Some entry =>
         dict_set (universities data) uni_program
           {| count_of := count_of entry + 1; status_of := status_of entry |}
       end;
     decisions :=
       dict_set (decisions data) (Application.status app)
         (match dict_get (decisions data) (Application.status app) with
          | Some n => n
          | None => 0
          end + 1) |}.

(** [application_flow]: the data handed to the template, computed from the
    applications of the caller. *)
Definition application_flow (current_user : nat)
    (all_applications : list Application.t) : FlowData :=
  let applications :=
    filter (fun a => Application.user_id a =? current_user) all_applications in
  fold_left flow_step applications (initial_flow applications).

End Routes.

(** ** [populate_universities.py] *)

Module Populate.
Import Models.

(** An entry of the list that [fetch_universities_by_country] returns:
    [name] is [uni_data.get('name', '').strip()], [domains] the list under
    the key ['domains'], [None] when the key is missing. *)
Record UniData : Type := {
  name : string;
  domains : option (list string)
}.

Definition common_programs : list string :=
  [ "Computer Science"; "Data Science"; "Machine Learning";
    "Artificial Intelligence"; "Software Engineering";
    "Information Technology"; "Cybersecurity"; "Web Development";
    "Cloud Computing"; "Business Analytics" ].

Record Tables : Type := {
  universities : list University.t;
  programs : list Program.t
}.

(** [University.query.filter_by(name=uni_name).first()]. *)
Definition existing_uni (t : Tables) (uni_name : string) : option University.t :=
  find (fun u => String.eqb (University.name u) uni_name) (universities t).

(** The loop over [common_programs] for one university. *)
Fixpoint add_programs (programs : list Program.t) (university_id : nat)
    (names : list string) : list Program.t :=
  match names with
  | [] => programs
  | program_name :: rest =>
    add_programs
      (programs ++ [ {| Program.id := fresh_id (map Program.id programs);
                        Program.name := program_name;
                        Program.university_id := university_id |} ])
      university_id rest
  end.

(** The body of the loop over the fetched universities: the tables after
    it and whether a university was added.  An entry without a name and one
    whose name is taken are skipped; [uni_data.get('domains', [None])[0]]
    raises on an empty list, and the [except] branch rolls back and goes
    on. *)
Definition add_university (country : string) (t : Tables)
    (uni_data : UniData) : Tables * bool :=
  let uni_name := name uni_data in
  if String.eqb uni_name "" then (t, false)
  else
    match existing_uni t uni_name with
    | Some _ => (t, false)
    | None =>
      match domains uni_data with
      | Some [] => (t, false)
      | found =>
        let university :=
          {| University.id := fresh_id (map University.id (universities t));
             University.name := uni_name;
             University.country := country;
             University.domain :=
               match found with Some (d :: _) => Some d | _ => None end |} in
        ({| universities := universities t ++ [university];
            programs := add_programs (programs t) (University.id university)
                          common_programs |},
         true)
      end
    end.

(** One round of the loop over the fetched universities, with
    [total_universities] beside the tables. *)
Definition add_and_count (acc : Tables * nat) (uni_data : UniData)
    : Tables * nat :=
  let (t', added) := add_university "United States" (fst acc) uni_data in
  (t', if added then S (snd acc) else snd acc).

(** [populate_database] on the list fetched for ["United States"]: the
    tables it leaves and [total_universities]. *)
Definition populate_database (fetched : list UniData) (t : Tables)
    : Tables * nat :=
  fold_left add_and_count fetched (t, 0).

(** An entry the loop passes over: it has no name, its name is taken, or
    its list of domains is empty. *)
Definition passed_over (t : Tables) (uni_data : UniData) : Prop :=
  name uni_data = ""
  \/ existing_uni t (name uni_data) <> None
  \/ domains uni_data = Some [].

(** No two universities of the same name. *)
Definition names_unique (t : Tables) : bool :=
  one_row_per_key
    (fun u v => String.eqb (University.name u) (University.name v))
    (universities t).

End Populate.

(** ** Sample stores and requests *)

Module Samples.
Import Models.

Definition noon : Clock := {| utcnow := 1000; now := 1000 |}.

(** A poll of user 1 with the end date [e] and two options. *)
Definition intake_poll (e : option Z) : Poll.t :=
  {| Poll.id := 1; Poll.title := "Fall or spring?";
     Poll.description := "Intake"; Poll.created_at := 0;
     Poll.end_date := e; Poll.poll_type := "general";
     Poll.user_id := Some 1 |}.

Definition option_fall : PollOption.t :=
  {| PollOption.id := 10; PollOption.text := "Fall"; PollOption.poll_id := 1 |}.

Definition option_spring : PollOption.t :=
  {| PollOption.id := 11; PollOption.text := "Spring";
     PollOption.poll_id := 1 |}.

Definition poll_store (e : option Z) : Store :=
  set_poll_options (set_polls empty [intake_poll e])
    [option_fall; option_spring].

(** The poll store after user 7 voted for option 10. *)
Definition voted_store : Store :=
  set_votes (poll_store None)
    [ {| Vote.id := 1; Vote.user_id := Some 7; Vote.option_id := 10;
         Vote.timestamp := 5 |} ].

(** The poll store with an upvote of user 3. *)
Definition upvoted_store : Store :=
  set_poll_votes (poll_store None)
    [ {| PollVote.id := 1; PollVote.user_id := 3; PollVote.poll_id := 1;
         PollVote.created_at := 5 |} ].

(** A general poll request with two options and the end date field [f]. *)
Definition intake_data (f : Api.EndDateField) : Api.PollData :=
  {| Api.title := "Fall or spring?"; Api.poll_type := "general";
     Api.description := ""; Api.end_date := f; Api.course := "";
     Api.options := ["Fall"; "Spring"] |}.

(** The web form with the end date field [f]. *)
Definition intake_form (f : option Z) : Forms.PollForm :=
  {| Forms.title := "Fall or spring?"; Forms.description := "Intake";
     Forms.end_date := f; Forms.poll_type := "general";
     Forms.other_fields_valid := true |}.

Definition asha (private : bool) : User.t :=
  {| User.id := 1; User.username := "asha"; User.is_private := private |}.

Definition bo : User.t :=
  {| User.id := 2; User.username := "bo"; User.is_private := false |}.

(** Two public users and nothing else. *)
Definition fresh_graph : Store := set_users empty [asha false; bo].

(** User 1 follows user 2, who does not follow back. *)
Definition one_way_graph : Store :=
  set_follows fresh_graph
    [ {| Follow.follower_id := 1; Follow.followed_id := 2;
         Follow.timestamp := 5 |} ].

(** User 2 has a pending request to the private user 1. *)
Definition pending_graph : Store :=
  set_follow_requests (set_users empty [asha true; bo])
    [ {| FollowRequest.requester_id := 2; FollowRequest.requested_id := 1;
         FollowRequest.timestamp := 5 |} ].

Definition post_hello : Routes.ChatRequest :=
  {| Routes.method := Routes.POST; Routes.content := "hello";
     Routes.xml_http_request := true |}.

(** A thread: comment 1 of user 7, its reply 2 of user 8, the reply 3 of
    user 7 to that reply, and another root comment 4. *)
Definition question : Comment.t :=
  {| Comment.id := 1; Comment.content := "When are results out?";
     Comment.created_at := 1; Comment.author_id := 7;
     Comment.poll_id := 1; Comment.parent_id := None |}.

Definition answer : Comment.t :=
  {| Comment.id := 2; Comment.content := "March";
     Comment.created_at := 2; Comment.author_id := 8;
     Comment.poll_id := 1; Comment.parent_id := Some 1 |}.

Definition thanks : Comment.t :=
  {| Comment.id := 3; Comment.content := "Thanks";
     Comment.created_at := 3; Comment.author_id := 7;
     Comment.poll_id := 1; Comment.parent_id := Some 2 |}.

Definition aside : Comment.t :=
  {| Comment.id := 4; Comment.content := "Good luck";
     Comment.created_at := 4; Comment.author_id := 9;
     Comment.poll_id := 1; Comment.parent_id := None |}.

Definition thread : Store :=
  set_comments (poll_store None) [question; answer; thanks; aside].

Definition mit_cs : Forms.CommunityForm :=
  {| Forms.university := "MIT"; Forms.program := "CS";
     Forms.community_description := "Applicants"; Forms.valid := true |}.

(** A store with one community, created by user 7, who is its member. *)
Definition campus : Store :=
  fst (Routes.create_community noon (Some 7) mit_cs fresh_graph).

(** The intake poll with a second poll that ended at time 100 and has the
    option 20. *)
Definition closed_poll : Poll.t :=
  {| Poll.id := 2; Poll.title := "Housing"; Poll.description := "";
     Poll.created_at := 0; Poll.end_date := Some 100%Z;
     Poll.poll_type := "general"; Poll.user_id := Some 1 |}.

Definition option_dorm : PollOption.t :=
  {| PollOption.id := 20; PollOption.text := "Dorm"; PollOption.poll_id := 2 |}.

Definition two_polls : Store :=
  set_poll_options (set_polls empty [intake_poll None; closed_poll])
    [option_fall; option_spring; option_dorm].

Definition applied (id : nat) (university status : string) : Application.t :=
  {| Application.id := id; Application.user_id := 7;
     Application.university := university; Application.program := "CS";
     Application.status := status |}.

Definition my_applications : list Application.t :=
  [ applied 1 "MIT" "Applied"; applied 2 "CMU" "Planning";
    applied 3 "MIT" "Rejected" ].

Definition fetched_universities : list Populate.UniData :=
  [ {| Populate.name := "MIT"; Populate.domains := Some ["mit.edu"] |};
    {| Populate.name := ""; Populate.domains := None |};
    {| Populate.name := "CMU"; Populate.domains := Some [] |};
    {| Populate.name := "MIT"; Populate.domains := None |};
    {| Populate.name := "Reed"; Populate.domains := None |} ].

Definition no_universities : Populate.Tables :=
  {| Populate.universities := []; Populate.programs := [] |}.

(** The two polls with an upvote of user 3 on the open one, cast at time
    900. *)
Definition two_polls_upvoted : Store :=
  set_poll_votes two_polls
    [ {| PollVote.id := 1; PollVote.user_id := 3; PollVote.poll_id := 1;
         PollVote.created_at := 900 |} ].

End Samples.

(** ** Facts about tables *)

Lemma fresh_id_gt (ids : list nat) (i : nat) : In i ids -> i < fresh_id ids.
Proof.
  unfold fresh_id. induction ids as [|a l IH]; simpl; [tauto|].
  intros [->|H]; [lia|]. specialize (IH H). lia.
Qed.

Lemma fresh_id_not_in (ids : list nat) : ~ In (fresh_id ids) ids.
Proof. intros H. apply fresh_id_gt in H. lia. Qed.

Lemma find_app {A : Type} (f : A -> bool) (l : list A) (x : A) :
  find f (l ++ [x]) =
  match find f l with
  | Some y => Some y
  | None => if f x then Some x else None
  end.
Proof.
  induction l as [|a l IH]; simpl; [reflexivity|].
  destruct (f a); [reflexivity|exact IH].
Qed.

Lemma find_same_test {A : Type} (f g : A -> bool) (l : list A) :
  (forall x, f x = g x) -> find f l = find g l.
Proof.
  intros H. induction l as [|a l IH]; simpl; [reflexivity|].
  now rewrite H, IH.
Qed.

Lemma find_none_filter {A : Type} (f : A -> bool) (l : list A) :
  find f l = None -> filter f l = [].
Proof.
  induction l as [|a l IH]; simpl; [reflexivity|].
  destruct (f a); [discriminate|exact IH].
Qed.

Lemma existsb_eqb_in (i : nat) (l : list nat) :
  existsb (Nat.eqb i) l = true <-> In i l.
Proof.
  rewrite existsb_exists. split.
  - intros [x [Hin Heq]]. apply Nat.eqb_eq in Heq. now subst.
  - intros H. exists i. split; [exact H|apply Nat.eqb_refl].
Qed.

Lemma distinct_app_fresh (ids : list nat) :
  distinct ids = true -> distinct (ids ++ [fresh_id ids]) = true.
Proof.
  intros H. pose proof (fresh_id_gt ids) as Hgt.
  generalize dependent (fresh_id ids). intros n.
  induction ids as [|a l IH]; simpl in *; intros Hgt; [reflexivity|].
  apply andb_true_iff in H as [Ha Hd]. apply andb_true_iff. split.
  - rewrite existsb_app. simpl. apply negb_true_iff in Ha. rewrite Ha. simpl.
    assert (a < n) by (apply Hgt; now left).
    destruct (a =? n) eqn:E; [apply Nat.eqb_eq in E; lia|reflexivity].
  - apply IH; [exact Hd|]. intros i Hi. apply Hgt. now right.
Qed.

Lemma distinct_filter {A : Type} (key : A -> nat) (keep : A -> bool)
    (l : list A) :
  distinct (map key l) = true -> distinct (map key (filter keep l)) = true.
Proof.
  induction l as [|a l IH]; simpl; intros H; [reflexivity|].
  apply andb_true_iff in H as [Ha Hd]. apply negb_true_iff in Ha.
  destruct (keep a); simpl; [|now apply IH].
  rewrite (IH Hd), andb_true_r. apply negb_true_iff.
  destruct (existsb _ (map key (filter keep l))) eqn:E; [|reflexivity].
  apply existsb_eqb_in in E. apply in_map_iff in E as (x & Hx & Hin).
  apply filter_In in Hin as [Hin _].
  assert (In (key a) (map key l)) by (rewrite <- Hx; now apply in_map).
  apply existsb_eqb_in in H. congruence.
Qed.

(** Deleting by a primary key that no row holds deletes nothing. *)
Lemma filter_other_id {A : Type} (key : A -> nat) (l : list A) (i : nat) :
  ~ In i (map key l) ->
  filter (fun r => negb (key r =? i)) l = l.
Proof.
  induction l as [|a l IH]; simpl; intros H; [reflexivity|].
  destruct (key a =? i) eqn:E.
  - apply Nat.eqb_eq in E. tauto.
  - simpl. f_equal. apply IH. tauto.
Qed.

(** Deleting a row by its primary key takes exactly that row out of every
    selection of the table. *)
Lemma filter_delete_count {A : Type} (key : A -> nat) (P : A -> bool)
    (l : list A) (row : A) :
  distinct (map key l) = true ->
  In row l ->
  List.length (filter P (filter (fun r => negb (key r =? key row)) l))
  + (if P row then 1 else 0)
  = List.length (filter P l).
Proof.
  induction l as [|a l IH]; simpl; intros Hd Hin; [contradiction|].
  apply andb_true_iff in Hd as [Ha Hd].
  apply negb_true_iff in Ha.
  destruct (key a =? key row) eqn:E.
  - apply Nat.eqb_eq in E. simpl.
    assert (Hnot : ~ In (key row) (map key l)).
    { intros H. apply existsb_eqb_in in H. rewrite <- E in H. congruence. }
    destruct Hin as [->|Hin]; [|exfalso; apply Hnot; now apply in_map].
    rewrite (filter_other_id key l (key row) Hnot).
    destruct (P row); simpl; lia.
  - simpl. destruct Hin as [->|Hin]; [rewrite Nat.eqb_refl in E; discriminate|].
    specialize (IH Hd Hin). destruct (P a); simpl; lia.
Qed.

Section Lookups.
Import Models.

Lemma empty_store_constraints :
  upvotes_unique empty = true /\ replies_follow_parents empty = true.
Proof. split; reflexivity. Qed.

Lemma get_user_id (st : Store) (id : nat) (u : User.t) :
  get_user st id = Some u -> User.id u = id.
Proof.
  unfold get_user. intros H. apply find_some in H as [_ H].
  now apply Nat.eqb_eq.
Qed.

Lemma get_poll_id (st : Store) (id : nat) (p : Poll.t) :
  get_poll st id = Some p -> Poll.id p = id.
Proof.
  unfold get_poll. intros H. apply find_some in H as [_ H].
  now apply Nat.eqb_eq.
Qed.

Lemma get_option_id (st : Store) (id : nat) (o : PollOption.t) :
  get_option st id = Some o -> PollOption.id o = id.
Proof.
  unfold get_option. intros H. apply find_some in H as [_ H].
  now apply Nat.eqb_eq.
Qed.

Lemma get_comment_id (st : Store) (id : nat) (c : Comment.t) :
  get_comment st id = Some c -> Comment.id c = id /\ In c (comments st).
Proof.
  unfold get_comment. intros H. apply find_some in H as [Hin H].
  apply Nat.eqb_eq in H. auto.
Qed.

End Lookups.

(** ** Votes *)

Module VoteFacts.
Import Models Samples.

(** The check of [routes.vote] looks at the votes of the chosen option
    only: a user without a vote on that option gets the vote recorded,
    whatever [has_user_voted] says of the poll. *)
Lemma vote_checks_chosen_option_only
    (clk : Clock) (u pid oid : nat) (poll : Poll.t) (o : PollOption.t)
    (st : Store) :
  get_poll st pid = Some poll ->
  get_option st oid = Some o ->
  Poll.end_date poll = None ->
  Routes.existing_vote st u oid = None ->
  Routes.vote clk (Some u) pid oid st =
    (add_vote clk st (Some u) oid,
     Flash "Your vote has been recorded!" "success").
Proof.
  intros Hp Ho He Hv. unfold Routes.vote, Routes.login_required.
  now rewrite Hp, Ho, He, Hv.
Qed.

(** A second vote on the same option is turned away and writes nothing. *)
Lemma vote_same_option_rejected
    (clk : Clock) (u pid oid : nat) (poll : Poll.t) (o : PollOption.t)
    (v : Vote.t) (st : Store) :
  get_poll st pid = Some poll ->
  get_option st oid = Some o ->
  Routes.existing_vote st u oid = Some v ->
  let r := Routes.vote clk (Some u) pid oid st in
  fst r = st /\
  (snd r = Flash "This poll has ended" "danger" \/
   snd r = Flash "You have already voted on this poll" "warning").
Proof.
  intros Hp Ho Hv. unfold Routes.vote, Routes.login_required.
  rewrite Hp, Ho, Hv. destruct (Poll.end_date poll) as [e|]; [|simpl; auto].
  destruct (e <? now clk)%Z; simpl; auto.
Qed.

(** With an end date before [now()], [routes.vote] writes nothing. *)
Lemma vote_after_end_date_rejected
    (clk : Clock) (u pid oid : nat) (poll : Poll.t) (o : PollOption.t) (e : Z)
    (st : Store) :
  get_poll st pid = Some poll ->
  get_option st oid = Some o ->
  Poll.end_date poll = Some e ->
  (e < now clk)%Z ->
  Routes.vote clk (Some u) pid oid st = (st, Flash "This poll has ended" "danger").
Proof.
  intros Hp Ho He Hlt. unfold Routes.vote, Routes.login_required.
  rewrite Hp, Ho, He. apply Z.ltb_lt in Hlt. now rewrite Hlt.
Qed.

(** A poll without end date, or with one after [now()], passes the check of
    [routes.vote]: the first vote of a user for an option is recorded. *)
Lemma vote_before_end_date_recorded
    (clk : Clock) (u pid oid : nat) (poll : Poll.t) (o : PollOption.t)
    (st : Store) :
  get_poll st pid = Some poll ->
  get_option st oid = Some o ->
  match Poll.end_date poll with Some e => (now clk < e)%Z | None => True end ->
  Routes.existing_vote st u oid = None ->
  Routes.vote clk (Some u) pid oid st =
    (add_vote clk st (Some u) oid,
     Flash "Your vote has been recorded!" "success").
Proof.
  intros Hp Ho He Hv. unfold Routes.vote, Routes.login_required.
  rewrite Hp, Ho, Hv. destruct (Poll.end_date poll) as [e|]; [|reflexivity].
  assert (E : (e <? now clk)%Z = false) by (apply Z.ltb_ge; lia).
  now rewrite E.
Qed.

(** What the check of [routes.vote] does keep: a user has at most one
    vote on each option. *)
Lemma vote_keeps_one_vote_per_option
    (clk : Clock) (cu : option nat) (pid oid : nat) (st : Store) (u o : nat) :
  let rows st := filter (fun v => voted_by u v && (Vote.option_id v =? o))
                        (votes st) in
  List.length (rows st) <= 1 ->
  List.length (rows (fst (Routes.vote clk cu pid oid st))) <= 1.
Proof.
  intros rows H. subst rows. unfold Routes.vote, Routes.login_required.
  destruct cu as [w|]; [|exact H].
  destruct (get_poll st pid) as [poll|]; [|exact H].
  destruct (get_option st oid); [|exact H].
  destruct (match Poll.end_date poll with
            | Some e => (e <? now clk)%Z
            | None => false
            end); [exact H|].
  destruct (Routes.existing_vote st w oid) eqn:Hv; [exact H|].
  simpl. rewrite filter_app, length_app. simpl.
  unfold voted_by at 2. simpl.
  destruct (w =? u) eqn:Ew; simpl; [|lia].
  destruct (oid =? o) eqn:Eo; simpl; [|lia].
  apply Nat.eqb_eq in Ew, Eo. subst w oid.
  unfold Routes.existing_vote in Hv.
  rewrite (find_none_filter _ _ Hv). simpl. lia.
Qed.

(** C1 (code at the failing input).  User 7 votes for option 10 of poll 1
    and then for option 11 of the same poll: [routes.vote] records both
    votes, although [has_user_voted] already holds after the first, and the
    store ends with two Vote rows of user 7 on poll 1. *)
Theorem vote_on_second_option_is_recorded :
  let first := Routes.vote noon (Some 7) 1 10 (poll_store None) in
  let second := Routes.vote noon (Some 7) 1 11 (fst first) in
  snd first = Flash "Your vote has been recorded!" "success" /\
  has_user_voted (fst first) 1 (Some 7) = true /\
  snd second = Flash "Your vote has been recorded!" "success" /\
  map Vote.option_id (votes_of_user_in_poll (fst second) 7 1) = [10; 11].
Proof. vm_compute. repeat split; reflexivity. Qed.

(** C6 (code at the failing inputs).  A poll that ended at time 100 is no
    longer active at time 1000, and [api.vote_poll] still records a vote on
    its option 10; a poll whose end date equals the time of the call is not
    active either, and [routes.vote] records the vote, since it turns away
    only end dates before [now()]. *)
Theorem ended_poll_accepts_vote :
  is_active noon (intake_poll (Some 100%Z)) = false /\
  (let r := Api.vote_poll noon None 1 (Some 10) (poll_store (Some 100%Z)) in
   map Vote.option_id (votes (fst r)) = [10] /\
   snd r = Json 200 {| Api.counts := [(10, 1); (11, 0)];
                       Api.total_votes := 1 |}) /\
  is_active noon (intake_poll (Some 1000%Z)) = false /\
  (let r := Routes.vote noon (Some 7) 1 10 (poll_store (Some 1000%Z)) in
   map Vote.option_id (votes (fst r)) = [10] /\
   snd r = Flash "Your vote has been recorded!" "success").
Proof. vm_compute. repeat split; reflexivity. Qed.

(** Whatever the request, [api.vote_poll] leaves the vote table as it was
    or appends one row, and that row has no user. *)
Lemma vote_poll_rows (clk : Clock) (cu : option nat) (pid : nat)
    (oid : option nat) (st : Store) :
  let st' := fst (Api.vote_poll clk cu pid oid st) in
  votes st' = votes st \/
  exists v, votes st' = votes st ++ [v] /\ Vote.user_id v = None.
Proof.
  unfold Api.vote_poll. destruct oid as [[|o]|]; simpl; auto.
  destruct (get_option st (S o)) as [po|]; simpl; auto.
  destruct (PollOption.poll_id po =? pid); simpl; auto.
  right. eexists. split.
  - destruct (get_poll _ _); reflexivity.
  - reflexivity.
Qed.

(** C10.  When the option exists and belongs to the poll of the URL,
    [api.vote_poll] appends a Vote row whose [user_id] is [None]: the
    caller [cu], authenticated or not, is never read, and neither are the
    votes already in the table. *)
Theorem vote_poll_inserts_vote_without_user
    (clk : Clock) (cu : option nat) (pid oid : nat) (o : PollOption.t)
    (st : Store) :
  oid <> 0 ->
  get_option st oid = Some o ->
  PollOption.poll_id o = pid ->
  votes (fst (Api.vote_poll clk cu pid (Some oid) st)) =
    votes st ++ [ {| Vote.id := fresh_id (map Vote.id (votes st));
                     Vote.user_id := None; Vote.option_id := oid;
                     Vote.timestamp := utcnow clk |} ] /\
  Api.vote_poll clk cu pid (Some oid) st = Api.vote_poll clk None pid (Some oid) st.
Proof.
  intros Hz Ho Hp. unfold Api.vote_poll.
  destruct oid as [|n]; [contradiction|]. rewrite Ho.
  apply Nat.eqb_eq in Hp. rewrite Hp. simpl negb. cbv iota.
  split; [|reflexivity].
  destruct (get_poll _ _); reflexivity.
Qed.

Lemma vote_poll_inserts_vote_without_user_witness :
  10 <> 0 /\
  get_option voted_store 10 = Some option_fall /\
  PollOption.poll_id option_fall = 1 /\
  has_user_voted voted_store 1 (Some 7) = true /\
  votes (fst (Api.vote_poll noon (Some 7) 1 (Some 10) voted_store)) =
    votes voted_store ++ [ {| Vote.id := 2; Vote.user_id := None;
                              Vote.option_id := 10;
                              Vote.timestamp := 1000 |} ] /\
  Api.vote_poll noon (Some 7) 1 (Some 10) voted_store
    = Api.vote_poll noon None 1 (Some 10) voted_store.
Proof.
  split; [discriminate|]. split; [reflexivity|]. split; [reflexivity|].
  split; [reflexivity|].
  apply (vote_poll_inserts_vote_without_user noon (Some 7) 1 10 option_fall
           voted_store);
    [discriminate | reflexivity | reflexivity].
Defined.

End VoteFacts.

(** ** Upvotes *)

Module UpvoteFacts.
Import Models Samples.

Lemma poll_vote_first_some (st : Store) (u pid : nat) (row : PollVote.t) :
  poll_vote_first st u pid = Some row ->
  In row (poll_votes st) /\ PollVote.user_id row = u /\ PollVote.poll_id row = pid.
Proof.
  unfold poll_vote_first. intros H. apply find_some in H as [Hin H].
  apply andb_true_iff in H as [Hu Hp].
  apply Nat.eqb_eq in Hu, Hp. auto.
Qed.

(** Once the row found for (user, poll) is deleted, the pair has no row
    left: the unique constraint allows one only. *)
Lemma poll_vote_first_after_delete (st : Store) (u pid : nat) (row : PollVote.t) :
  upvotes_unique st = true ->
  poll_vote_first st u pid = Some row ->
  poll_vote_first (delete_poll_vote st row) u pid = None.
Proof.
  intros Hu Hf. apply poll_vote_first_some in Hf as (Hin & Hru & Hrp).
  apply andb_true_iff in Hu as [_ Hu].
  unfold poll_vote_first, delete_poll_vote. simpl.
  destruct (find _ _) as [r|] eqn:E; [exfalso|reflexivity].
  apply find_some in E as [Hr Hm].
  apply filter_In in Hr as [Hr Hne].
  apply andb_true_iff in Hm as [Hmu Hmp]. apply Nat.eqb_eq in Hmu, Hmp.
  rewrite forallb_forall in Hu. specialize (Hu r Hr).
  rewrite forallb_forall in Hu. specialize (Hu row Hin).
  unfold same_upvote in Hu.
  rewrite Hmu, Hmp, Hru, Hrp, !Nat.eqb_refl in Hu. simpl in Hu.
  rewrite Hu in Hne. discriminate.
Qed.

Lemma upvote_count_add (st : Store) (clk : Clock) (u pid : nat) :
  upvote_count (add_poll_vote clk st u pid) pid = S (upvote_count st pid).
Proof.
  unfold upvote_count, add_poll_vote. simpl.
  rewrite filter_app, length_app. simpl. rewrite Nat.eqb_refl. simpl. lia.
Qed.

Lemma upvote_count_delete (st : Store) (row : PollVote.t) :
  upvotes_unique st = true ->
  In row (poll_votes st) ->
  S (upvote_count (delete_poll_vote st row) (PollVote.poll_id row))
  = upvote_count st (PollVote.poll_id row).
Proof.
  intros Hu Hin. apply andb_true_iff in Hu as [Hd _].
  unfold upvote_count, delete_poll_vote. simpl.
  rewrite <- (filter_delete_count PollVote.id
                (fun r => PollVote.poll_id r =? PollVote.poll_id row) _ row
                Hd Hin).
  rewrite Nat.eqb_refl. lia.
Qed.

(** An upvote that was just added is the row the next toggle deletes, and
    deleting it gives the table back. *)
Lemma delete_added (st : Store) (clk : Clock) (u pid : nat) :
  poll_vote_first st u pid = None ->
  exists row,
    poll_vote_first (add_poll_vote clk st u pid) u pid = Some row /\
    delete_poll_vote (add_poll_vote clk st u pid) row = st.
Proof.
  intros Hn. eexists. split.
  - unfold poll_vote_first, add_poll_vote in *. simpl.
    rewrite find_app, Hn. simpl. rewrite !Nat.eqb_refl. reflexivity.
  - unfold delete_poll_vote, add_poll_vote, set_poll_votes. simpl.
    rewrite filter_app. simpl. rewrite Nat.eqb_refl. simpl.
    rewrite app_nil_r.
    rewrite (filter_other_id PollVote.id (poll_votes st) _ (fresh_id_not_in _)).
    destruct st; reflexivity.
Qed.

(** The declared constraints hold again after every [upvote_poll]. *)
Lemma upvote_poll_keeps_constraints
    (clk : Clock) (cu : option nat) (pid : nat) (st : Store) :
  upvotes_unique st = true ->
  upvotes_unique (fst (Routes.upvote_poll clk cu pid st)) = true.
Proof.
  intros Hu. unfold Routes.upvote_poll, Routes.login_required.
  destruct cu as [u|]; [|exact Hu].
  destruct (get_poll st pid) as [poll|]; [|exact Hu].
  destruct (poll_vote_first st u (Poll.id poll)) as [row|] eqn:Hf; simpl fst.
  - apply andb_true_iff in Hu as [Hd Hp].
    unfold upvotes_unique, delete_poll_vote. simpl.
    apply andb_true_iff. split; [now apply distinct_filter|].
    rewrite forallb_forall in Hp. apply forallb_forall. intros r Hr.
    apply filter_In in Hr as [Hr _]. specialize (Hp r Hr).
    rewrite forallb_forall in Hp. apply forallb_forall. intros r' Hr'.
    apply filter_In in Hr' as [Hr' _]. now apply Hp.
  - apply andb_true_iff in Hu as [Hd Hp].
    unfold upvotes_unique, add_poll_vote. simpl.
    apply andb_true_iff. split.
    + rewrite map_app. simpl. now apply distinct_app_fresh.
    + assert (Hnew : forall r, In r (poll_votes st) ->
                same_upvote r {| PollVote.id := fresh_id (map PollVote.id (poll_votes st));
                                 PollVote.user_id := u;
                                 PollVote.poll_id := Poll.id poll;
                                 PollVote.created_at := utcnow clk |} = false).
      { intros r Hr. unfold same_upvote. simpl.
        destruct ((PollVote.user_id r =? u) && (PollVote.poll_id r =? Poll.id poll))
          eqn:E; [|reflexivity].
        unfold poll_vote_first in Hf.
        pose proof (find_none _ _ Hf r Hr) as Hn. simpl in Hn. congruence. }
      rewrite forallb_forall in Hp. apply forallb_forall. intros r Hr.
      apply forallb_forall. intros r' Hr'.
      apply in_app_or in Hr as [Hr|[<-|[]]];
        apply in_app_or in Hr' as [Hr'|[<-|[]]].
      * specialize (Hp r Hr). rewrite forallb_forall in Hp. now apply Hp.
      * now rewrite (Hnew r Hr).
      * specialize (Hnew r' Hr'). unfold same_upvote in *. simpl in *.
        rewrite (Nat.eqb_sym u), (Nat.eqb_sym (Poll.id poll)). now rewrite Hnew.
      * simpl. rewrite Nat.eqb_refl. apply implb_true_r.
Qed.

(** [Poll.toggle_upvote] makes the same writes as the route and names
    them the same way. *)
Lemma toggle_upvote_agrees
    (clk : Clock) (u pid : nat) (poll : Poll.t) (st : Store) :
  get_poll st pid = Some poll ->
  let m := toggle_upvote clk st pid (Some u) in
  let r := Routes.upvote_poll clk (Some u) pid st in
  fst m = fst r /\
  exists n, snd m = Some n /\
            snd r = Json 200 {| Routes.status := n;
                                Routes.count := upvote_count (fst r) pid |}.
Proof.
  intros Hp. pose proof (get_poll_id st pid poll Hp) as Hid.
  cbv zeta. unfold toggle_upvote, Routes.upvote_poll, Routes.login_required.
  rewrite Hp, Hid.
  destruct (poll_vote_first st u pid); simpl; split; try reflexivity;
    eexists; split; reflexivity.
Qed.

(** C5.  For an authenticated user [u] and an existing poll,
    [routes.upvote_poll] deletes the PollVote row of (u, poll) and answers
    [removed] when there is one, and otherwise inserts one and answers
    [added], with the upvote count read after the write.  Two calls in a
    row bring the upvote of (u, poll) and the count back to what they were:
    starting without an upvote and with [N] upvotes on the poll, the first
    call answers [added] with [N + 1] and the second [removed] with [N],
    and the store is the one the first call found. *)
Theorem upvote_poll_toggles
    (clk : Clock) (u pid : nat) (poll : Poll.t) (st : Store) :
  get_poll st pid = Some poll ->
  upvotes_unique st = true ->
  let first := Routes.upvote_poll clk (Some u) pid st in
  let second := Routes.upvote_poll clk (Some u) pid (fst first) in
  let N := upvote_count st pid in
  match poll_vote_first st u pid with
  | Some row =>
    fst first = delete_poll_vote st row /\
    is_upvoted_by (fst first) pid (Some u) = false /\
    snd first = Json 200 {| Routes.status := removed; Routes.count := N - 1 |} /\
    1 <= N /\
    snd second = Json 200 {| Routes.status := added; Routes.count := N |}
  | None =>
    fst first = add_poll_vote clk st u pid /\
    is_upvoted_by (fst first) pid (Some u) = true /\
    snd first = Json 200 {| Routes.status := added; Routes.count := N + 1 |} /\
    snd second = Json 200 {| Routes.status := removed; Routes.count := N |} /\
    fst second = st
  end /\
  is_upvoted_by (fst second) pid (Some u) = is_upvoted_by st pid (Some u) /\
  upvote_count (fst second) pid = N.
Proof.
  intros Hp Hu. pose proof (get_poll_id st pid poll Hp) as Hid.
  cbv zeta. unfold Routes.upvote_poll, Routes.login_required.
  rewrite Hp, Hid.
  change (is_upvoted_by st pid (Some u))
    with (match poll_vote_first st u pid with Some _ => true | None => false end).
  destruct (poll_vote_first st u pid) as [row|] eqn:Hf.
  - pose proof (poll_vote_first_after_delete st u pid row Hu Hf) as Hnone.
    pose proof (poll_vote_first_some st u pid row Hf) as (Hin & _ & Hrp).
    pose proof (upvote_count_delete st row Hu Hin) as Hc. rewrite Hrp in Hc.
    simpl fst. simpl snd.
    change (get_poll (delete_poll_vote st row) pid) with (get_poll st pid).
    rewrite Hp, Hid, Hnone. simpl fst. simpl snd.
    rewrite upvote_count_add.
    unfold is_upvoted_by. rewrite Hnone.
    destruct (delete_added (delete_poll_vote st row) clk u pid Hnone)
      as (row' & Hf' & _).
    rewrite Hf'. rewrite Hc.
    repeat split; try reflexivity; try lia.
    do 2 f_equal. lia.
  - destruct (delete_added st clk u pid Hf) as (row' & Hf' & Hdel).
    simpl fst. simpl snd.
    change (get_poll (add_poll_vote clk st u pid) pid) with (get_poll st pid).
    rewrite Hp, Hid, Hf'. simpl fst. simpl snd.
    rewrite Hdel, upvote_count_add.
    unfold is_upvoted_by. rewrite Hf', Hf.
    repeat split; try reflexivity.
    do 2 f_equal. lia.
Qed.

Lemma upvote_poll_toggles_witness :
  let first := Routes.upvote_poll noon (Some 7) 1 upvoted_store in
  let second := Routes.upvote_poll noon (Some 7) 1 (fst first) in
  get_poll upvoted_store 1 = Some (intake_poll None) /\
  upvotes_unique upvoted_store = true /\
  snd first = Json 200 {| Routes.status := added; Routes.count := 2 |} /\
  snd second = Json 200 {| Routes.status := removed; Routes.count := 1 |} /\
  fst second = upvoted_store.
Proof.
  intros first second.
  split; [reflexivity|]. split; [reflexivity|].
  pose proof (upvote_poll_toggles noon 7 1 (intake_poll None) upvoted_store
                eq_refl eq_refl) as H.
  destruct H as [H _].
  change (poll_vote_first upvoted_store 7 1) with (@None PollVote.t) in H.
  destruct H as (_ & _ & H1 & H2 & H3).
  split; [exact H1|]. split; [exact H2|exact H3].
Defined.

(** An anonymous caller is sent to the login page and nothing is written. *)
Lemma upvote_poll_anonymous (clk : Clock) (pid : nat) (st : Store) :
  Routes.upvote_poll clk None pid st = (st, LoginRedirect).
Proof. reflexivity. Qed.

End UpvoteFacts.

(** ** Poll creation *)

Module CreationFacts.
Import Models Samples.

Ltac timedelta_lia :=
  unfold timedelta_days, timedelta_minutes, microseconds_per_day,
    microseconds_per_minute in *;
  simpl in *; lia.

(** [Poll(...)] in [api.create_poll] raises: [course] is no attribute of
    [Poll]. *)
Lemma poll_keywords_refused : Poll.accepts_keywords Api.poll_keywords = false.
Proof. reflexivity. Qed.

(** [api.create_poll] leaves the store as it was and never answers 201. *)
Lemma create_poll_never_creates
    (clk : Clock) (cu : option nat) (data : Api.PollData) (st : Store) :
  let r := Api.create_poll clk cu data st in
  fst r = st /\ forall c, snd r <> Json 201 c.
Proof.
  unfold Api.create_poll. rewrite poll_keywords_refused.
  destruct (_ || _); [split; [reflexivity|discriminate]|].
  destruct (Api.resolve_end_date _ _); split;
    solve [reflexivity | discriminate].
Qed.

(** [routes.create_poll] never writes an option row. *)
Lemma create_poll_form_writes_no_option
    (clk : Clock) (cu : option nat) (form : Forms.PollForm) (st : Store) :
  poll_options (fst (Routes.create_poll clk cu form st)) = poll_options st.
Proof.
  unfold Routes.create_poll, Routes.login_required.
  destruct cu; [|reflexivity].
  destruct (Forms.validate_on_submit clk form); reflexivity.
Qed.

(** C9 (code at the failing input).  User 7 posts the web form with a
    title, a description and the type [general]: [routes.create_poll]
    creates poll 1 and answers that the poll has been created, and the poll
    has no option at all, neither two of the caller nor the one named
    [DEFAULT_OPTION]. *)
Theorem form_poll_has_no_option :
  let r := Routes.create_poll noon (Some 7) (intake_form None) empty in
  snd r = Flash "Your poll has been created!" "success" /\
  map Poll.id (polls (fst r)) = [1] /\
  options (fst r) 1 = [].
Proof. vm_compute. repeat split; reflexivity. Qed.

(** C2 (counterexample).  Through the web form, a poll created without an
    end date has none (not creation time + 3 days), and a poll is created
    with an end date 20 days ahead, outside [now + 5 min, now + 10 d].
    Through the API, an end date 20 days ahead that carries an offset is
    answered 500 with the catch-all message, not the too-far one. *)
Lemma form_poll_end_date_outside_rule :
  (let r := Routes.create_poll noon (Some 7) (intake_form None) empty in
   snd r = Flash "Your poll has been created!" "success" /\
   map Poll.end_date (polls (fst r)) = [None] /\
   map Poll.created_at (polls (fst r)) = [1000%Z]) /\
  (let d := (1000 + timedelta_days 20)%Z in
   let r := Routes.create_poll noon (Some 7) (intake_form (Some d)) empty in
   snd r = Flash "Your poll has been created!" "success" /\
   map Poll.end_date (polls (fst r)) = [Some d] /\
   (utcnow noon + timedelta_days 10 < d)%Z /\
   (now noon + timedelta_days 10 < d)%Z) /\
  (let d := (1000 + timedelta_days 20)%Z in
   Api.create_poll noon (Some 7) (intake_data (Api.Aware d)) empty =
     (empty, JsonError 500 "Failed to create poll")).
Proof. vm_compute. repeat split; reflexivity. Qed.

Lemma messages_differ : Api.too_soon_message <> Api.too_far_message.
Proof. discriminate. Qed.

(** C2 (amended).  For a call of [api.create_poll] that carries a title,
    a poll type and an end date without offset: a date before
    [utcnow() + 5 min] is answered 400 with the too-soon message and one
    after [utcnow() + 10 d] with the too-far message, a different one, and
    the store stays as it was.  Through the web form, with the other fields
    valid, an end date before [now()] is refused and writes nothing, any
    other is stored as given, and no end date is stored when the field is
    empty. *)
Theorem create_poll_end_date
    (clk : Clock) (cu : option nat) (data : Api.PollData) (st : Store) :
  Api.title data <> "" ->
  Api.poll_type data <> "" ->
  let utc := utcnow clk in
  let r := Api.create_poll clk cu data st in
  (forall d, Api.end_date data = Api.Naive d ->
     (d < utc + timedelta_minutes 5)%Z ->
     r = (st, JsonError 400 Api.too_soon_message)) /\
  (forall d, Api.end_date data = Api.Naive d ->
     (utc + timedelta_days 10 < d)%Z ->
     r = (st, JsonError 400 Api.too_far_message)) /\
  Api.too_soon_message <> Api.too_far_message /\
  (forall (form : Forms.PollForm) (u : nat) (st0 : Store),
     Forms.other_fields_valid form = true ->
     let rf := Routes.create_poll clk (Some u) form st0 in
     match Forms.end_date form with
     | None =>
       exists p, polls (fst rf) = polls st0 ++ [p] /\ Poll.end_date p = None
     | Some d =>
       if (d <? now clk)%Z then rf = (st0, Render "create_poll.html")
       else exists p, polls (fst rf) = polls st0 ++ [p] /\
                      Poll.end_date p = Some d
     end).
Proof.
  intros Ht Hty utc r.
  assert (Hhead : String.eqb (Api.title data) ""
                  || String.eqb (Api.poll_type data) "" = false).
  { apply String.eqb_neq in Ht, Hty. now rewrite Ht, Hty. }
  split; [|split; [|split]].
  - (* too soon *)
    intros d Hd Hlt. subst r. unfold Api.create_poll. rewrite Hhead, Hd.
    fold utc. unfold Api.resolve_end_date.
    assert (E : (d <=? utc + timedelta_minutes 5)%Z = true)
      by (apply Z.leb_le; lia).
    now rewrite E.
  - (* too far *)
    intros d Hd Hlt. subst r. unfold Api.create_poll. rewrite Hhead, Hd.
    fold utc. unfold Api.resolve_end_date.
    assert (E1 : (d <=? utc + timedelta_minutes 5)%Z = false)
      by (apply Z.leb_gt; timedelta_lia).
    assert (E2 : (utc + timedelta_days 10 <? d)%Z = true)
      by (apply Z.ltb_lt; lia).
    now rewrite E1, E2.
  - exact messages_differ.
  - (* the web form *)
    intros form u st0 Hv rf. subst rf.
    unfold Routes.create_poll, Routes.login_required,
      Forms.validate_on_submit, Forms.validate_end_date.
    rewrite Hv. destruct (Forms.end_date form) as [d|]; simpl.
    + destruct (d <? now clk)%Z; simpl; [reflexivity|].
      eexists. split; reflexivity.
    + eexists. split; reflexivity.
Qed.

Lemma create_poll_end_date_witness :
  let soon := intake_data (Api.Naive (1000 + timedelta_minutes 2)) in
  let far := intake_data (Api.Naive (1000 + timedelta_days 11)) in
  Api.title soon <> "" /\
  Api.poll_type soon <> "" /\
  Api.create_poll noon (Some 7) soon empty
    = (empty, JsonError 400 Api.too_soon_message) /\
  Api.create_poll noon (Some 7) far empty
    = (empty, JsonError 400 Api.too_far_message).
Proof.
  intros soon far.
  split; [discriminate|]. split; [discriminate|].
  split.
  - apply (proj1 (create_poll_end_date noon (Some 7) soon empty
                    ltac:(discriminate) ltac:(discriminate))
             (1000 + timedelta_minutes 2)%Z eq_refl).
    vm_compute. reflexivity.
  - apply (proj1 (proj2 (create_poll_end_date noon (Some 7) far empty
                           ltac:(discriminate) ltac:(discriminate)))
             (1000 + timedelta_days 11)%Z eq_refl).
    vm_compute. reflexivity.
Defined.

End CreationFacts.

(** ** Follow requests and direct messages *)

Module GraphFacts.
Import Models Samples.

Lemma follow_requests_received_first_some (st : Store) (self user : nat)
    (fr : FollowRequest.t) :
  follow_requests_received_first st self user = Some fr ->
  In fr (follow_requests st) /\
  FollowRequest.requested_id fr = self /\ FollowRequest.requester_id fr = user.
Proof.
  unfold follow_requests_received_first. intros H.
  apply find_some in H as [Hin H].
  apply andb_true_iff in H as [H1 H2]. apply Nat.eqb_eq in H1, H2. auto.
Qed.

(** A request sent by [user] to [self] is a request [self] received from
    [user]. *)
Lemma sent_is_received (st : Store) (self user : nat) :
  follow_requests_sent_first st user self
  = follow_requests_received_first st self user.
Proof.
  unfold follow_requests_sent_first, follow_requests_received_first.
  apply find_same_test. intros r. apply andb_comm.
Qed.

(** After the request row is deleted, no request of the same ordered pair
    is left. *)
Lemma no_request_after_delete (st : Store) (self user : nat)
    (fr : FollowRequest.t) :
  FollowRequest.requested_id fr = self ->
  FollowRequest.requester_id fr = user ->
  follow_requests_received_first (delete_follow_request st fr) self user = None.
Proof.
  intros Hs Hu.
  unfold follow_requests_received_first, delete_follow_request. simpl.
  destruct (find _ _) as [r|] eqn:E; [exfalso|reflexivity].
  apply find_some in E as [Hin Hm]. apply filter_In in Hin as [_ Hne].
  apply andb_true_iff in Hm as [H1 H2]. apply Nat.eqb_eq in H1, H2.
  rewrite H1, H2, Hs, Hu, !Nat.eqb_refl in Hne. discriminate.
Qed.

(** [routes.accept_follow] answers 200 or leaves the store as it was. *)
Lemma accept_follow_writes_on_200_only
    (clk : Clock) (cu : option nat) (is_json : bool) (uid : nat) (st : Store) :
  let r := Routes.accept_follow clk cu is_json uid st in
  snd r = Json 200 "Follow request accepted" \/ fst r = st.
Proof.
  unfold Routes.accept_follow, Routes.login_required.
  destruct cu as [O|]; [|now right].
  destruct is_json; [|now right]. simpl negb. cbv iota.
  destruct (get_user st uid); [|now right].
  destruct (follow_requests_received_first st O uid); [|now right].
  destruct (accept_follow_request _ _ _ _); [now left|now right].
Qed.

(** For a registered requester [Q] and a JSON request of owner [O]:
    when a request of [Q] to [O] is pending, [routes.accept_follow] either
    commits both writes (the edge [Q -> O] is appended, the request row is
    deleted, the answer is 200, and the same call made again answers 404
    and writes nothing), or, when the edge is already there, answers 500
    with the store as it was; when no such request is pending, it answers
    404 and writes nothing. *)
Lemma accept_follow_consumes_request
    (clk : Clock) (O Q : nat) (requester : User.t) (st : Store) :
  get_user st Q = Some requester ->
  let r := Routes.accept_follow clk (Some O) true Q st in
  (forall fr, follow_requests_received_first st O Q = Some fr ->
     if is_following st Q O
     then r = (st, JsonError 500 "Failed to accept follow request")
     else
       snd r = Json 200 "Follow request accepted" /\
       fst r =
         delete_follow_request
           (set_follows st
              (follows st ++ [ {| Follow.follower_id := Q;
                                  Follow.followed_id := O;
                                  Follow.timestamp := utcnow clk |} ])) fr /\
       is_following (fst r) Q O = true /\
       has_follow_request_pending (fst r) Q O = false /\
       Routes.accept_follow clk (Some O) true Q (fst r) =
         (fst r, JsonError 404 "No follow request found")) /\
  (has_follow_request_pending st Q O = false ->
     r = (st, JsonError 404 "No follow request found")).
Proof.
  intros Hu r. pose proof (get_user_id st Q requester Hu) as Hid.
  subst r. unfold Routes.accept_follow, Routes.login_required.
  simpl negb. cbv iota. rewrite Hu, Hid. split.
  - intros fr Hf. unfold accept_follow_request. rewrite Hf.
    destruct (is_following st Q O) eqn:Efol; [reflexivity|].
    destruct (follow_requests_received_first_some st O Q fr Hf) as (_ & Hs & Hq).
    pose proof (no_request_after_delete
                  (set_follows st
                     (follows st ++ [ {| Follow.follower_id := Q;
                                         Follow.followed_id := O;
                                         Follow.timestamp := utcnow clk |} ]))
                  O Q fr Hs Hq) as Hgone.
    simpl fst. simpl snd.
    split; [reflexivity|]. split; [reflexivity|]. split; [|split].
    + unfold is_following, following_first in *. simpl.
      rewrite find_app.
      destruct (find _ (follows st)); [reflexivity|].
      simpl. now rewrite !Nat.eqb_refl.
    + unfold has_follow_request_pending. now rewrite sent_is_received, Hgone.
    + change (get_user (delete_follow_request _ fr) Q) with (get_user st Q).
      now rewrite Hu, Hgone.
  - unfold has_follow_request_pending. rewrite sent_is_received.
    destruct (follow_requests_received_first st O Q); [discriminate|reflexivity].
Qed.

Lemma accept_follow_consumes_request_witness :
  let r := Routes.accept_follow noon (Some 1) true 2 pending_graph in
  get_user pending_graph 2 = Some bo /\
  has_follow_request_pending pending_graph 2 1 = true /\
  snd r = Json 200 "Follow request accepted" /\
  is_following (fst r) 2 1 = true /\
  has_follow_request_pending (fst r) 2 1 = false /\
  Routes.accept_follow noon (Some 1) true 2 (fst r) =
    (fst r, JsonError 404 "No follow request found").
Proof.
  intros r. split; [reflexivity|]. split; [reflexivity|].
  pose proof (accept_follow_consumes_request noon 1 2 bo pending_graph eq_refl)
    as [H _].
  specialize (H _ eq_refl).
  change (is_following pending_graph 2 1) with false in H.
  destruct H as (H1 & _ & H2 & H3 & H4).
  repeat split; assumption.
Defined.

(** C4 (code at the failing input).  User 1 follows the public user 2,
    user 2 turns private, and user 1 asks again: [routes.follow] files a
    request beside the edge.  When user 2 accepts it,
    [routes.accept_follow] answers 500 and writes nothing, so the request
    stays pending beside the edge, and the same call made again answers
    500 once more, not 404. *)
Theorem accept_follow_with_edge_already_there :
  let s1 := fst (Routes.follow noon (Some 1) true 2 fresh_graph) in
  let s2 := fst (Routes.toggle_privacy (Some 2) s1) in
  let asked := Routes.follow noon (Some 1) true 2 s2 in
  let s3 := fst asked in
  let r := Routes.accept_follow noon (Some 2) true 1 s3 in
  snd asked = Json 200 "Follow request sent" /\
  is_following s3 1 2 = true /\
  has_follow_request_pending s3 1 2 = true /\
  r = (s3, JsonError 500 "Failed to accept follow request") /\
  is_following (fst r) 1 2 = true /\
  has_follow_request_pending (fst r) 1 2 = true /\
  Routes.accept_follow noon (Some 2) true 1 (fst r)
    = (fst r, JsonError 500 "Failed to accept follow request").
Proof. vm_compute. repeat split; reflexivity. Qed.

(** C3 (code at the failing input).  User 1 follows user 2 and user 2
    does not follow back, so [can_dm] is false; the POST of user 1 to
    [/messages/2] still creates the DirectMessage row from 1 to 2. *)
Theorem chat_without_mutual_follow :
  let r := Routes.chat noon (Some 1) (Some 2) post_hello one_way_graph in
  can_dm one_way_graph 1 2 = false /\
  is_following one_way_graph 2 1 = false /\
  snd r = Json 200 "success" /\
  map (fun m => (DirectMessage.sender_id m, DirectMessage.recipient_id m,
                 DirectMessage.content m))
      (direct_messages (fst r)) = [(1, 2, "hello")].
Proof. vm_compute. repeat split; reflexivity. Qed.

(** [routes.chat] creates a DirectMessage from the caller [S] to [R]
    only when the edge [S -> R] exists: without it the call
    writes nothing, and a call that changes the message table appended one
    row from [S] to [R] while [S] was following [R].  The edge is also
    enough: a POST with a content to a registered user [R] whom [S] follows
    appends the row. *)
Lemma chat_requires_sender_follows_recipient
    (clk : Clock) (S R : nat) (req : Routes.ChatRequest) (st : Store) :
  let r := Routes.chat clk (Some S) (Some R) req st in
  (is_following st S R = false -> fst r = st) /\
  (direct_messages (fst r) <> direct_messages st ->
     is_following st S R = true /\
     exists m, direct_messages (fst r) = direct_messages st ++ [m] /\
               DirectMessage.sender_id m = S /\
               DirectMessage.recipient_id m = R /\
               DirectMessage.content m = Routes.content req) /\
  (forall other, get_user st R = Some other ->
     is_following st S R = true ->
     Routes.method req = Routes.POST ->
     Routes.content req <> "" ->
     direct_messages (fst r) =
       direct_messages st ++
       [ {| DirectMessage.id :=
              fresh_id (map DirectMessage.id (direct_messages st));
            DirectMessage.sender_id := S; DirectMessage.recipient_id := R;
            DirectMessage.content := Routes.content req;
            DirectMessage.created_at := utcnow clk;
            DirectMessage.read := false; DirectMessage.pinned := false |} ]).
Proof.
  intros r. subst r. unfold Routes.chat, Routes.login_required.
  destruct (get_user st R) as [other|] eqn:Hu.
  - rewrite (get_user_id st R other Hu).
    destruct (is_following st S R) eqn:Ef; simpl negb; cbv iota.
    + split; [discriminate|]. split.
      * destruct (Routes.method req); simpl; [tauto|].
        destruct (String.eqb (Routes.content req) ""); simpl; [tauto|].
        intros _. split; [reflexivity|]. eexists.
        destruct (Routes.xml_http_request req); simpl; repeat split; reflexivity.
      * intros other' _ _ Hm Hc. rewrite Hm.
        apply String.eqb_neq in Hc. rewrite Hc.
        destruct (Routes.xml_http_request req); reflexivity.
    + split; [reflexivity|]. split; [simpl; tauto|]. discriminate.
  - split; [reflexivity|]. split; [simpl; tauto|]. discriminate.
Qed.

Lemma chat_requires_sender_follows_recipient_witness :
  let r := Routes.chat noon (Some 1) (Some 2) post_hello one_way_graph in
  direct_messages (fst r) <> direct_messages one_way_graph /\
  is_following one_way_graph 1 2 = true /\
  exists m, direct_messages (fst r) = direct_messages one_way_graph ++ [m] /\
            DirectMessage.sender_id m = 1 /\
            DirectMessage.recipient_id m = 2 /\
            DirectMessage.content m = "hello".
Proof.
  intros r.
  assert (H : direct_messages (fst r) <> direct_messages one_way_graph)
    by discriminate.
  split; [exact H|].
  exact (proj1 (proj2 (chat_requires_sender_follows_recipient
                         noon 1 2 post_hello one_way_graph)) H).
Defined.

End GraphFacts.

(** ** Comment threads *)

Module ThreadFacts.
Import Models Samples.

Lemma is_reply_to_iff (cid : nat) (c : Comment.t) :
  is_reply_to cid c = true <-> Comment.parent_id c = Some cid.
Proof.
  unfold is_reply_to. destruct (Comment.parent_id c) as [p|].
  - rewrite Nat.eqb_eq. split; [now intros ->|now intros [= ->]].
  - split; discriminate.
Qed.

Lemma reply_has_larger_id (st : Store) (r : Comment.t) (c : nat) :
  replies_follow_parents st = true ->
  In r (comments st) -> Comment.parent_id r = Some c -> c < Comment.id r.
Proof.
  unfold replies_follow_parents. rewrite forallb_forall.
  intros Hwf Hin Hp. specialize (Hwf r Hin). rewrite Hp in Hwf.
  now apply Nat.ltb_lt.
Qed.

Lemma descendant_has_larger_id (st : Store) (c d : nat) :
  replies_follow_parents st = true -> descendant st c d -> c < d.
Proof.
  intros Hwf H. induction H as [c r Hin Hp|c r d Hin Hp _ IH].
  - eapply reply_has_larger_id; eauto.
  - pose proof (reply_has_larger_id st r c Hwf Hin Hp). lia.
Qed.

Lemma descendant_is_row (st : Store) (c d : nat) :
  descendant st c d -> exists r, In r (comments st) /\ Comment.id r = d.
Proof.
  intros H. induction H as [c r Hin Hp|c r d Hin Hp _ IH]; eauto.
Qed.

Lemma row_id_le_max_depth (st : Store) (r : Comment.t) :
  In r (comments st) -> Comment.id r <= max_depth st.
Proof.
  unfold max_depth. intros Hin.
  pose proof (fresh_id_gt (map Comment.id (comments st)) (Comment.id r)
                (in_map Comment.id _ r Hin)) as H.
  unfold fresh_id in H. lia.
Qed.

Lemma cascade_head (depth : nat) (st : Store) (cid : nat) :
  In cid (cascade depth st cid).
Proof. destruct depth; simpl; auto. Qed.

(** A walk that may go deep enough reaches every descendant. *)
Lemma cascade_reaches (st : Store) (c d : nat) :
  replies_follow_parents st = true ->
  descendant st c d ->
  forall depth, d <= c + depth -> In d (cascade depth st c).
Proof.
  intros Hwf H. induction H as [c r Hin Hp|c r d Hin Hp Hd IH]; intros depth Hle.
  - pose proof (reply_has_larger_id st r c Hwf Hin Hp) as Hlt.
    destruct depth as [|k]; [lia|]. simpl. right.
    apply in_flat_map. exists (Comment.id r). split; [|apply cascade_head].
    apply in_map. apply filter_In. split; [exact Hin|].
    now apply is_reply_to_iff.
  - pose proof (reply_has_larger_id st r c Hwf Hin Hp) as Hlt.
    pose proof (descendant_has_larger_id st _ _ Hwf Hd) as Hlt'.
    destruct depth as [|k]; [lia|]. simpl. right.
    apply in_flat_map. exists (Comment.id r). split.
    + apply in_map. apply filter_In. split; [exact Hin|].
      now apply is_reply_to_iff.
    + apply IH. lia.
Qed.

(** The walk visits the comment and descendants of it, nothing else. *)
Lemma cascade_within_thread (st : Store) (depth : nat) :
  forall c d, In d (cascade depth st c) -> d = c \/ descendant st c d.
Proof.
  induction depth as [|k IH]; intros c d; simpl.
  - intros [->|[]]. now left.
  - intros [->|H]; [now left|]. right.
    apply in_flat_map in H as (i & Hi & Hd).
    apply in_map_iff in Hi as (r & <- & Hr).
    apply filter_In in Hr as [Hin Hp]. apply is_reply_to_iff in Hp.
    destruct (IH _ _ Hd) as [->|Hdesc].
    + now apply descendant_reply.
    + eapply descendant_below; eauto.
Qed.

Lemma get_comment_deleted (st : Store) (doomed : list nat) (d : nat) :
  In d doomed ->
  get_comment
    (set_comments st
       (filter (fun c => negb (existsb (Nat.eqb (Comment.id c)) doomed))
               (comments st))) d
  = None.
Proof.
  intros Hd. unfold get_comment. simpl.
  destruct (find _ _) as [x|] eqn:E; [exfalso|reflexivity].
  apply find_some in E as [Hin Hid]. apply Nat.eqb_eq in Hid.
  apply filter_In in Hin as [_ Hkeep]. apply negb_true_iff in Hkeep.
  rewrite <- Hid in Hd. apply existsb_eqb_in in Hd. congruence.
Qed.

(** Replies keep following their parents: a comment or a reply that a
    route adds gets an identifier above all others, and a delete leaves a
    part of the table. *)
Lemma add_comment_keeps_order
    (clk : Clock) (cu : option nat) (pid : nat) (text : string) (st : Store) :
  replies_follow_parents st = true ->
  replies_follow_parents (fst (Routes.add_comment clk cu pid text st)) = true.
Proof.
  intros Hwf. unfold Routes.add_comment, Routes.login_required.
  destruct cu; [|exact Hwf].
  destruct (String.eqb text ""); [exact Hwf|].
  destruct (get_poll st pid); [|exact Hwf].
  unfold replies_follow_parents, add_comment in *. simpl.
  rewrite forallb_app, Hwf. reflexivity.
Qed.

Lemma add_reply_keeps_order
    (clk : Clock) (cu : option nat) (pid : nat) (text : string) (parent : nat)
    (st : Store) :
  replies_follow_parents st = true ->
  replies_follow_parents (fst (Routes.add_reply clk cu pid text parent st))
  = true.
Proof.
  intros Hwf. unfold Routes.add_reply, Routes.login_required.
  destruct cu; [|exact Hwf].
  destruct (_ || _); [exact Hwf|].
  destruct (get_comment st parent) as [pc|] eqn:Hpc; [|exact Hwf].
  destruct (Comment.poll_id pc =? pid); [|exact Hwf].
  simpl negb. cbv iota.
  destruct (get_comment_id st parent pc Hpc) as [_ Hin].
  unfold replies_follow_parents, add_comment in *. simpl.
  rewrite forallb_app, Hwf. simpl. rewrite andb_true_r.
  apply Nat.ltb_lt. apply fresh_id_gt. now apply in_map.
Qed.

Lemma delete_comment_keeps_order
    (cu : option nat) (cid : nat) (st : Store) :
  replies_follow_parents st = true ->
  replies_follow_parents (fst (Routes.delete_comment cu cid st)) = true.
Proof.
  intros Hwf. unfold Routes.delete_comment, Routes.login_required.
  destruct cu; [|exact Hwf].
  destruct (get_comment st cid) as [c|]; [|exact Hwf].
  destruct (Comment.author_id c =? _); [|exact Hwf].
  simpl negb. cbv iota.
  unfold replies_follow_parents, delete_comment in *. simpl.
  rewrite forallb_forall in Hwf. apply forallb_forall.
  intros x Hx. apply filter_In in Hx as [Hx _]. now apply Hwf.
Qed.

(** C8.  For a comment [cid] of the table and an authenticated actor [A]:
    when [A] is not the author, [routes.delete_comment] answers 403 and
    the store stays as it was; when [A] is the author, it answers 200 and
    the comment and every descendant of it are gone, so [get_or_404] on any
    of them finds nothing, while every other row is kept and no row is
    added. *)
Theorem delete_comment_removes_thread
    (A cid : nat) (c : Comment.t) (st : Store) :
  get_comment st cid = Some c ->
  replies_follow_parents st = true ->
  let r := Routes.delete_comment (Some A) cid st in
  if Comment.author_id c =? A
  then
    snd r = Json 200 "Comment deleted successfully" /\
    get_comment (fst r) cid = None /\
    (forall d, descendant st cid d -> get_comment (fst r) d = None) /\
    (forall x, In x (comments st) ->
       In x (comments (fst r)) \/ Comment.id x = cid
       \/ descendant st cid (Comment.id x)) /\
    (forall x, In x (comments (fst r)) -> In x (comments st))
  else r = (st, JsonError 403 "Unauthorized").
Proof.
  intros Hc Hwf r. subst r.
  destruct (get_comment_id st cid c Hc) as [Hid Hin].
  unfold Routes.delete_comment, Routes.login_required.
  rewrite Hc, Hid.
  destruct (Comment.author_id c =? A); simpl negb; cbv iota; [|reflexivity].
  simpl fst. simpl snd. unfold delete_comment.
  split; [reflexivity|]. split; [|split; [|split]].
  - apply get_comment_deleted. apply cascade_head.
  - intros d Hd. apply get_comment_deleted.
    apply cascade_reaches; [exact Hwf|exact Hd|].
    destruct (descendant_is_row st cid d Hd) as (row & Hrow & <-).
    pose proof (row_id_le_max_depth st row Hrow). lia.
  - intros x Hx. simpl.
    destruct (existsb (Nat.eqb (Comment.id x)) (cascade (max_depth st) st cid))
      eqn:E.
    + right. apply existsb_eqb_in in E.
      now apply cascade_within_thread in E.
    + left. apply filter_In. split; [exact Hx|]. now rewrite E.
  - intros x Hx. simpl in Hx. now apply filter_In in Hx.
Qed.

Lemma delete_comment_removes_thread_witness :
  let r := Routes.delete_comment (Some 7) 1 thread in
  get_comment thread 1 = Some question /\
  replies_follow_parents thread = true /\
  snd r = Json 200 "Comment deleted successfully" /\
  get_comment (fst r) 2 = None /\
  get_comment (fst r) 3 = None /\
  comments (fst r) = [aside].
Proof.
  intros r. split; [reflexivity|]. split; [reflexivity|].
  pose proof (delete_comment_removes_thread 7 1 question thread
                eq_refl eq_refl) as H.
  simpl Nat.eqb in H. cbv iota zeta in H.
  destruct H as (H1 & _ & H2 & _).
  split; [exact H1|].
  assert (D2 : descendant thread 1 2).
  { apply (descendant_reply thread 1 answer); simpl; auto. }
  assert (D3 : descendant thread 1 3).
  { apply (descendant_below thread 1 answer); [simpl; auto|reflexivity|].
    apply (descendant_reply thread 2 thanks); simpl; auto. }
  split; [exact (H2 2 D2)|]. split; [exact (H2 3 D3)|reflexivity].
Defined.

(** User 8 wrote the reply 2 but not the comment 1: asking to delete the
    comment 1 is refused. *)
Lemma delete_comment_of_another_author :
  Routes.delete_comment (Some 8) 1 thread
  = (thread, JsonError 403 "Unauthorized").
Proof. reflexivity. Qed.

End ThreadFacts.

(** ** Communities *)

Module CommunityFacts.
Import Models Samples.

(** C7.  For an authenticated actor [A] posting a valid form:
    [routes.create_community] writes nothing and flashes that the community
    already exists when a row holds the same (university, program) pair;
    otherwise it appends one community with that pair, created by [A], and
    in the same commit the membership row that makes [A] a member, after
    which the pair has exactly that one row.  A pair with at most one row
    before the call has at most one row after it. *)
Theorem create_community_unique_pair
    (clk : Clock) (A : nat) (form : Forms.CommunityForm) (st : Store) :
  Forms.valid form = true ->
  let r := Routes.create_community clk (Some A) form st in
  match community_first st (Forms.university form) (Forms.program form) with
  | Some existing =>
    r = (st, Flash "A community for this university and program already exists!"
                   "warning")
  | None =>
    snd r = Flash "Community created successfully!" "success" /\
    exists c m,
      communities (fst r) = communities st ++ [c] /\
      community_members (fst r) = community_members st ++ [m] /\
      Community.university c = Forms.university form /\
      Community.program c = Forms.program form /\
      Community.created_by_id c = Some A /\
      CommunityMembers.user_id m = A /\
      CommunityMembers.community_id m = Community.id c /\
      is_member (fst r) (Community.id c) A = true /\
      communities_of (fst r) (Forms.university form) (Forms.program form) = [c]
  end /\
  (forall university program,
     List.length (communities_of st university program) <= 1 ->
     List.length (communities_of (fst r) university program) <= 1).
Proof.
  intros Hv r. subst r.
  unfold Routes.create_community, Routes.login_required.
  rewrite Hv.
  destruct (community_first st (Forms.university form) (Forms.program form))
    as [existing|] eqn:Hf.
  - split; [reflexivity|]. intros uni prog H. exact H.
  - pose proof (find_none_filter _ _ Hf) as Hnone. simpl fst. simpl snd.
    split.
    + split; [reflexivity|]. do 2 eexists.
      repeat (split; [reflexivity|]). split.
      * unfold is_member. simpl. rewrite existsb_app. simpl.
        rewrite !Nat.eqb_refl. simpl. now rewrite orb_true_r.
      * unfold communities_of. simpl. rewrite filter_app, Hnone. simpl.
        now rewrite !String.eqb_refl.
    + intros uni prog H. unfold communities_of in *. simpl.
      rewrite filter_app, length_app. simpl.
      destruct (String.eqb (Forms.university form) uni) eqn:Eu; simpl; [|lia].
      destruct (String.eqb (Forms.program form) prog) eqn:Ep; simpl; [|lia].
      apply String.eqb_eq in Eu, Ep. subst uni prog.
      rewrite Hnone. simpl. lia.
Qed.

Lemma create_community_unique_pair_witness :
  let first := Routes.create_community noon (Some 7) mit_cs empty in
  let second := Routes.create_community noon (Some 8) mit_cs (fst first) in
  Forms.valid mit_cs = true /\
  snd first = Flash "Community created successfully!" "success" /\
  is_member (fst first) 1 7 = true /\
  second =
    (fst first,
     Flash "A community for this university and program already exists!"
           "warning") /\
  List.length (communities_of (fst second) "MIT" "CS") = 1.
Proof.
  intros first second. split; [reflexivity|].
  pose proof (create_community_unique_pair noon 7 mit_cs empty eq_refl)
    as [H1 _].
  pose proof (create_community_unique_pair noon 8 mit_cs (fst first) eq_refl)
    as [H2 _].
  simpl community_first in H1. cbv iota in H1. destruct H1 as [H1 _].
  split; [exact H1|]. split; [reflexivity|]. split; [exact H2|reflexivity].
Defined.

End CommunityFacts.

(** ** More facts about tables *)

Lemma find_none_keeps_others {A : Type} (f : A -> bool) (l : list A) :
  find f l = None -> filter (fun x => negb (f x)) l = l.
Proof.
  induction l as [|a l IH]; simpl; [reflexivity|].
  destruct (f a); [discriminate|]. intros H. simpl. f_equal. now apply IH.
Qed.

Lemma find_filter_out {A : Type} (f : A -> bool) (l : list A) :
  find f (filter (fun x => negb (f x)) l) = None.
Proof.
  induction l as [|a l IH]; simpl; [reflexivity|].
  destruct (f a) eqn:E; simpl; [exact IH|]. now rewrite E.
Qed.

Lemma existsb_filter_out {A : Type} (f : A -> bool) (l : list A) :
  existsb f (filter (fun x => negb (f x)) l) = false.
Proof.
  induction l as [|a l IH]; simpl; [reflexivity|].
  destruct (f a) eqn:E; simpl; [exact IH|]. now rewrite E.
Qed.

Lemma existsb_same_test {A : Type} (f g : A -> bool) (l : list A) :
  (forall x, f x = g x) -> existsb f l = existsb g l.
Proof.
  intros H. induction l as [|a l IH]; simpl; [reflexivity|].
  now rewrite H, IH.
Qed.

Lemma find_existsb {A : Type} (f : A -> bool) (l : list A) :
  existsb f l = match find f l with Some _ => true | None => false end.
Proof.
  induction l as [|a l IH]; simpl; [reflexivity|].
  destruct (f a); [reflexivity|exact IH].
Qed.

Lemma one_row_per_key_filter {A : Type} (same : A -> A -> bool)
    (keep : A -> bool) (l : list A) :
  Models.one_row_per_key same l = true ->
  Models.one_row_per_key same (filter keep l) = true.
Proof.
  induction l as [|a l IH]; simpl; intros H; [reflexivity|].
  apply andb_true_iff in H as [Ha Hl]. apply negb_true_iff in Ha.
  destruct (keep a); simpl; [|now apply IH].
  rewrite (IH Hl), andb_true_r. apply negb_true_iff.
  destruct (existsb (same a) (filter keep l)) eqn:E; [|reflexivity].
  apply existsb_exists in E as (x & Hx & Hs). apply filter_In in Hx as [Hx _].
  assert (existsb (same a) l = true) by (apply existsb_exists; eauto).
  congruence.
Qed.

Lemma one_row_per_key_app {A : Type} (same : A -> A -> bool)
    (l : list A) (x : A) :
  Models.one_row_per_key same l = true ->
  (forall y, In y l -> same y x = false) ->
  Models.one_row_per_key same (l ++ [x]) = true.
Proof.
  induction l as [|a l IH]; simpl; intros H Hx; [reflexivity|].
  apply andb_true_iff in H as [Ha Hl]. apply negb_true_iff in Ha.
  rewrite existsb_app, Ha. simpl. rewrite (Hx a (or_introl eq_refl)). simpl.
  apply IH; [exact Hl|]. intros y Hy. apply Hx. now right.
Qed.

Lemma set_follows_same (st : Models.Store) :
  Models.set_follows st (Models.follows st) = st.
Proof. now destruct st. Qed.

Lemma set_follow_requests_same (st : Models.Store) :
  Models.set_follow_requests st (Models.follow_requests st) = st.
Proof. now destruct st. Qed.

Lemma set_comments_same (st : Models.Store) :
  Models.set_comments st (Models.comments st) = st.
Proof. now destruct st. Qed.

Lemma set_users_same (st : Models.Store) :
  Models.set_users st (Models.users st) = st.
Proof. now destruct st. Qed.

(** ** Following, unfollowing and rejecting *)

Module FollowFacts.
Import Models Samples.

Lemma following_first_some (st : Store) (a b : nat) (f : Follow.t) :
  following_first st a b = Some f ->
  In f (follows st) /\ Follow.follower_id f = a /\ Follow.followed_id f = b.
Proof.
  unfold following_first. intros H. apply find_some in H as [Hin H].
  apply andb_true_iff in H as [H1 H2]. apply Nat.eqb_eq in H1, H2. auto.
Qed.

Lemma received_first_some (st : Store) (self user : nat) (fr : FollowRequest.t) :
  follow_requests_received_first st self user = Some fr ->
  In fr (follow_requests st) /\
  FollowRequest.requested_id fr = self /\ FollowRequest.requester_id fr = user.
Proof.
  unfold follow_requests_received_first. intros H.
  apply find_some in H as [Hin H].
  apply andb_true_iff in H as [H1 H2]. apply Nat.eqb_eq in H1, H2. auto.
Qed.

Lemma sent_first_is_received_first (st : Store) (self user : nat) :
  follow_requests_sent_first st user self
  = follow_requests_received_first st self user.
Proof.
  unfold follow_requests_sent_first, follow_requests_received_first.
  apply find_same_test. intros r. apply andb_comm.
Qed.

(** X1.  When the caller does not follow a public user yet,
    [routes.follow] adds the edge and [routes.unfollow] takes it out again:
    after both calls the store is the one before them. *)
Theorem follow_then_unfollow
    (clk : Clock) (cu T : nat) (target : User.t) (st : Store) :
  get_user st T = Some target ->
  T <> cu ->
  User.is_private target = false ->
  is_following st cu T = false ->
  let followed := Routes.follow clk (Some cu) true T st in
  let unfollowed := Routes.unfollow (Some cu) true T (fst followed) in
  snd followed = Json 200 "Following" /\
  is_following (fst followed) cu T = true /\
  snd unfollowed = Json 200 "Unfollowed" /\
  fst unfollowed = st.
Proof.
  intros Hu Hne Hpub Hnf. pose proof (get_user_id st T target Hu) as Hid.
  apply Nat.eqb_neq in Hne.
  cbv zeta. unfold Routes.follow, Routes.unfollow, Routes.login_required.
  simpl negb. cbv iota. rewrite Hu, Hid, Hne, Hpub, Hnf. simpl negb. cbv iota.
  unfold Models.follow. rewrite Hnf. simpl negb. cbv iota. simpl fst. simpl snd.
  change (get_user (set_follows st _) T) with (get_user st T).
  rewrite Hu, Hid, Hne. simpl fst. simpl snd.
  assert (Hnone : find (fun f => (Follow.follower_id f =? cu)
                                 && (Follow.followed_id f =? T)) (follows st)
                  = None).
  { unfold is_following, following_first in Hnf.
    destruct (find _ _); [discriminate|reflexivity]. }
  assert (Hfirst : following_first
            (set_follows st
               (follows st ++ [ {| Follow.follower_id := cu;
                                   Follow.followed_id := T;
                                   Follow.timestamp := utcnow clk |} ])) cu T
          = Some {| Follow.follower_id := cu; Follow.followed_id := T;
                    Follow.timestamp := utcnow clk |}).
  { unfold following_first. simpl. rewrite find_app, Hnone. simpl.
    now rewrite !Nat.eqb_refl. }
  split; [reflexivity|]. split.
  - unfold is_following. now rewrite Hfirst.
  - split; [reflexivity|].
    unfold Models.unfollow. rewrite Hfirst.
    unfold delete_follow. simpl.
    rewrite filter_app. simpl. rewrite !Nat.eqb_refl. simpl.
    rewrite app_nil_r, (find_none_keeps_others _ _ Hnone).
    now destruct st.
Qed.

Lemma follow_then_unfollow_witness :
  let followed := Routes.follow noon (Some 1) true 2 fresh_graph in
  let unfollowed := Routes.unfollow (Some 1) true 2 (fst followed) in
  get_user fresh_graph 2 = Some bo /\
  2 <> 1 /\
  User.is_private bo = false /\
  is_following fresh_graph 1 2 = false /\
  snd followed = Json 200 "Following" /\
  is_following (fst followed) 1 2 = true /\
  snd unfollowed = Json 200 "Unfollowed" /\
  fst unfollowed = fresh_graph.
Proof.
  intros followed unfollowed.
  split; [reflexivity|]. split; [discriminate|]. split; [reflexivity|].
  split; [reflexivity|].
  exact (follow_then_unfollow noon 1 2 bo fresh_graph eq_refl
           ltac:(discriminate) eq_refl eq_refl).
Defined.

(** X2.  Asking to follow a private user files a request and adds no edge;
    asking again is answered that the request was already sent and writes
    nothing. *)
Theorem follow_private_files_request
    (clk : Clock) (cu T : nat) (target : User.t) (st : Store) :
  get_user st T = Some target ->
  T <> cu ->
  User.is_private target = true ->
  has_follow_request_pending st cu T = false ->
  let asked := Routes.follow clk (Some cu) true T st in
  let again := Routes.follow clk (Some cu) true T (fst asked) in
  snd asked = Json 200 "Follow request sent" /\
  follows (fst asked) = follows st /\
  follow_requests (fst asked) =
    follow_requests st ++ [ {| FollowRequest.requester_id := cu;
                               FollowRequest.requested_id := T;
                               FollowRequest.timestamp := utcnow clk |} ] /\
  has_follow_request_pending (fst asked) cu T = true /\
  again = (fst asked, Json 200 "Follow request already sent").
Proof.
  intros Hu Hne Hpriv Hnp. pose proof (get_user_id st T target Hu) as Hid.
  apply Nat.eqb_neq in Hne.
  cbv zeta. unfold Routes.follow, Routes.login_required.
  simpl negb. cbv iota. rewrite Hu, Hid, Hne, Hpriv, Hnp. simpl negb. cbv iota.
  unfold send_follow_request. rewrite Hnp. simpl negb. cbv iota.
  simpl fst. simpl snd.
  change (get_user (set_follow_requests st _) T) with (get_user st T).
  rewrite Hu, Hid, Hne, Hpriv.
  assert (Hp : has_follow_request_pending
                 (set_follow_requests st
                    (follow_requests st ++
                       [ {| FollowRequest.requester_id := cu;
                            FollowRequest.requested_id := T;
                            FollowRequest.timestamp := utcnow clk |} ])) cu T
               = true).
  { unfold has_follow_request_pending, follow_requests_sent_first in *. simpl.
    rewrite find_app. destruct (find _ (follow_requests st)); [reflexivity|].
    simpl. now rewrite !Nat.eqb_refl. }
  rewrite Hp. simpl negb. cbv iota.
  repeat split; reflexivity.
Qed.

Lemma follow_private_files_request_witness :
  let st := set_users empty [asha true; bo] in
  let asked := Routes.follow noon (Some 2) true 1 st in
  get_user st 1 = Some (asha true) /\
  1 <> 2 /\
  User.is_private (asha true) = true /\
  has_follow_request_pending st 2 1 = false /\
  snd asked = Json 200 "Follow request sent" /\
  is_following (fst asked) 2 1 = false /\
  Routes.follow noon (Some 2) true 1 (fst asked)
    = (fst asked, Json 200 "Follow request already sent").
Proof.
  intros st asked.
  split; [reflexivity|]. split; [discriminate|]. split; [reflexivity|].
  split; [reflexivity|].
  destruct (follow_private_files_request noon 2 1 (asha true) st eq_refl
              ltac:(discriminate) eq_refl eq_refl) as (H1 & _ & _ & _ & H2).
  split; [exact H1|]. split; [reflexivity|exact H2].
Defined.

(** X3.  [routes.reject_follow] on a pending request of a registered user
    deletes the request and adds no edge; the same call made again finds
    no request and answers 404. *)
Theorem reject_follow_consumes_request
    (O Q : nat) (requester : User.t) (fr : FollowRequest.t) (st : Store) :
  get_user st Q = Some requester ->
  follow_requests_received_first st O Q = Some fr ->
  let r := Routes.reject_follow (Some O) true Q st in
  snd r = Json 200 "Follow request rejected" /\
  fst r = delete_follow_request st fr /\
  follows (fst r) = follows st /\
  has_follow_request_pending (fst r) Q O = false /\
  Routes.reject_follow (Some O) true Q (fst r)
    = (fst r, JsonError 404 "No follow request found").
Proof.
  intros Hu Hf. pose proof (get_user_id st Q requester Hu) as Hid.
  destruct (received_first_some st O Q fr Hf) as (_ & Hs & Hq).
  cbv zeta. unfold Routes.reject_follow, Routes.login_required.
  simpl negb. cbv iota. rewrite Hu, Hid, Hf.
  unfold reject_follow_request. rewrite Hf. simpl fst. simpl snd.
  assert (Hgone : follow_requests_received_first (delete_follow_request st fr)
                    O Q = None).
  { unfold follow_requests_received_first, delete_follow_request. simpl.
    rewrite <- Hs, <- Hq.
    rewrite (find_same_test _
               (fun r => (FollowRequest.requester_id r
                            =? FollowRequest.requester_id fr)
                         && (FollowRequest.requested_id r
                               =? FollowRequest.requested_id fr))).
    - apply (find_filter_out
               (fun r => (FollowRequest.requester_id r
                            =? FollowRequest.requester_id fr)
                         && (FollowRequest.requested_id r
                               =? FollowRequest.requested_id fr))).
    - intros r. apply andb_comm. }
  split; [reflexivity|]. split; [reflexivity|]. split; [reflexivity|]. split.
  - unfold has_follow_request_pending.
    now rewrite sent_first_is_received_first, Hgone.
  - change (get_user (delete_follow_request st fr) Q) with (get_user st Q).
    now rewrite Hu, Hgone.
Qed.

Lemma reject_follow_consumes_request_witness :
  let r := Routes.reject_follow (Some 1) true 2 pending_graph in
  get_user pending_graph 2 = Some bo /\
  has_follow_request_pending pending_graph 2 1 = true /\
  snd r = Json 200 "Follow request rejected" /\
  is_following (fst r) 2 1 = false /\
  has_follow_request_pending (fst r) 2 1 = false /\
  Routes.reject_follow (Some 1) true 2 (fst r)
    = (fst r, JsonError 404 "No follow request found").
Proof.
  intros r. split; [reflexivity|]. split; [reflexivity|].
  destruct (reject_follow_consumes_request 1 2 bo _ pending_graph
              eq_refl eq_refl) as (H1 & _ & _ & H2 & H3).
  split; [exact H1|]. split; [reflexivity|]. split; [exact H2|exact H3].
Defined.

End FollowFacts.

(** ** The keys of the follow graph, privacy and profiles *)

Module GraphKeyFacts.
Import Models Samples.

Lemma forallb_filter {A : Type} (p keep : A -> bool) (l : list A) :
  forallb p l = true -> forallb p (filter keep l) = true.
Proof.
  rewrite !forallb_forall. intros H x Hx.
  apply filter_In in Hx as [Hx _]. now apply H.
Qed.

Lemma no_edge_like (st : Store) (a b : nat) (t : Z) :
  is_following st a b = false ->
  forall y, In y (follows st) ->
    same_edge y {| Follow.follower_id := a; Follow.followed_id := b;
                   Follow.timestamp := t |} = false.
Proof.
  unfold is_following, following_first. intros H y Hy.
  destruct (find _ _) eqn:E; [discriminate|].
  exact (find_none _ _ E y Hy).
Qed.

Lemma no_request_like (st : Store) (a b : nat) (t : Z) :
  has_follow_request_pending st a b = false ->
  forall y, In y (follow_requests st) ->
    same_request y {| FollowRequest.requester_id := a;
                      FollowRequest.requested_id := b;
                      FollowRequest.timestamp := t |} = false.
Proof.
  unfold has_follow_request_pending, follow_requests_sent_first. intros H y Hy.
  destruct (find _ _) eqn:E; [discriminate|].
  exact (find_none _ _ E y Hy).
Qed.

Lemma keys_kept_parts (st : Store) :
  keys_kept st <->
  (one_row_per_key same_edge (follows st) = true /\
   one_row_per_key same_request (follow_requests st) = true) /\
  (forallb (fun f => negb (Follow.follower_id f =? Follow.followed_id f))
           (follows st) = true /\
   forallb (fun r => negb (FollowRequest.requester_id r
                             =? FollowRequest.requested_id r))
           (follow_requests st) = true).
Proof.
  unfold keys_kept, graph_keys_unique, no_self_edges.
  now rewrite !andb_true_iff.
Qed.

Lemma add_edge_keeps_keys (st : Store) (a b : nat) (t : Z) :
  keys_kept st -> a <> b -> is_following st a b = false ->
  keys_kept (set_follows st
               (follows st ++ [ {| Follow.follower_id := a;
                                   Follow.followed_id := b;
                                   Follow.timestamp := t |} ])).
Proof.
  intros H Hne Hnf. apply keys_kept_parts in H as ((K1 & K2) & (S1 & S2)).
  apply keys_kept_parts. simpl. repeat split; try assumption.
  - apply one_row_per_key_app; [exact K1|]. now apply no_edge_like.
  - rewrite forallb_app, S1. simpl.
    apply Nat.eqb_neq in Hne. now rewrite Hne.
Qed.

Lemma add_request_keeps_keys (st : Store) (a b : nat) (t : Z) :
  keys_kept st -> a <> b -> has_follow_request_pending st a b = false ->
  keys_kept (set_follow_requests st
               (follow_requests st ++
                  [ {| FollowRequest.requester_id := a;
                       FollowRequest.requested_id := b;
                       FollowRequest.timestamp := t |} ])).
Proof.
  intros H Hne Hnp. apply keys_kept_parts in H as ((K1 & K2) & (S1 & S2)).
  apply keys_kept_parts. simpl. repeat split; try assumption.
  - apply one_row_per_key_app; [exact K2|]. now apply no_request_like.
  - rewrite forallb_app, S2. simpl.
    apply Nat.eqb_neq in Hne. now rewrite Hne.
Qed.

Lemma delete_request_keeps_keys (st : Store) (fr : FollowRequest.t) :
  keys_kept st -> keys_kept (delete_follow_request st fr).
Proof.
  intros H. apply keys_kept_parts in H as ((K1 & K2) & (S1 & S2)).
  apply keys_kept_parts. simpl. repeat split; try assumption.
  - now apply one_row_per_key_filter.
  - now apply forallb_filter.
Qed.

Lemma delete_follow_keeps_keys (st : Store) (f : Follow.t) :
  keys_kept st -> keys_kept (delete_follow st f).
Proof.
  intros H. apply keys_kept_parts in H as ((K1 & K2) & (S1 & S2)).
  apply keys_kept_parts. simpl. repeat split; try assumption.
  - now apply one_row_per_key_filter.
  - now apply forallb_filter.
Qed.

(** X4.  Each of [follow], [unfollow], [accept_follow], [reject_follow] and
    [toggle_privacy] leaves at most one Follow row and one FollowRequest
    row per ordered pair of users, and no row from a user to themselves,
    when it starts from such a store. *)
Theorem graph_routes_keep_keys
    (clk : Clock) (cu : option nat) (is_json : bool) (uid : nat) (st : Store) :
  graph_keys_unique st = true ->
  no_self_edges st = true ->
  keys_kept (fst (Routes.follow clk cu is_json uid st)) /\
  keys_kept (fst (Routes.unfollow cu is_json uid st)) /\
  keys_kept (fst (Routes.accept_follow clk cu is_json uid st)) /\
  keys_kept (fst (Routes.reject_follow cu is_json uid st)) /\
  keys_kept (fst (Routes.toggle_privacy cu st)).
Proof.
  intros HK HS. assert (H : keys_kept st) by (split; assumption).
  unfold Routes.follow, Routes.unfollow, Routes.accept_follow,
    Routes.reject_follow, Routes.toggle_privacy, Routes.login_required.
  destruct cu as [c|]; [|repeat split; assumption].
  split; [|split; [|split; [|split]]].
  - (* follow *)
    destruct is_json; [|exact H]. simpl negb. cbv iota.
    destruct (get_user st uid) as [user|]; [|exact H].
    destruct (User.id user =? c) eqn:Eself; [exact H|].
    apply Nat.eqb_neq in Eself.
    destruct (User.is_private user).
    + destruct (has_follow_request_pending st c (User.id user)) eqn:Ep;
        [exact H|]. simpl negb. cbv iota. simpl fst.
      unfold send_follow_request. rewrite Ep. simpl negb. cbv iota.
      apply add_request_keeps_keys; auto.
    + destruct (is_following st c (User.id user)) eqn:Ef; [exact H|].
      simpl negb. cbv iota. simpl fst.
      unfold Models.follow. rewrite Ef. simpl negb. cbv iota.
      apply add_edge_keeps_keys; auto.
  - (* unfollow *)
    destruct is_json; [|exact H]. simpl negb. cbv iota.
    destruct (get_user st uid) as [user|]; [|exact H].
    destruct (User.id user =? c); [exact H|]. simpl fst.
    unfold Models.unfollow.
    destruct (following_first st c (User.id user)); [|exact H].
    now apply delete_follow_keeps_keys.
  - (* accept_follow *)
    destruct is_json; [|exact H]. simpl negb. cbv iota.
    destruct (get_user st uid) as [user|] eqn:Hu; [|exact H].
    pose proof (get_user_id st uid user Hu) as Hid.
    destruct (follow_requests_received_first st c uid) as [fr|] eqn:Hf;
      [|exact H].
    unfold accept_follow_request. rewrite Hid, Hf.
    destruct (is_following st uid c) eqn:Ef; [exact H|]. simpl fst.
    destruct (FollowFacts.received_first_some st c uid fr Hf) as (Hin & Hs & Hq).
    assert (Hne : uid <> c).
    { apply keys_kept_parts in H as (_ & (_ & S2)).
      rewrite forallb_forall in S2. specialize (S2 fr Hin).
      rewrite Hs, Hq in S2. apply negb_true_iff in S2.
      now apply Nat.eqb_neq. }
    apply delete_request_keeps_keys. apply add_edge_keeps_keys; auto.
  - (* reject_follow *)
    destruct is_json; [|exact H]. simpl negb. cbv iota.
    destruct (get_user st uid) as [user|]; [|exact H].
    destruct (follow_requests_received_first st c uid) as [fr|] eqn:Hf;
      [|exact H]. simpl fst.
    unfold reject_follow_request.
    destruct (follow_requests_received_first st c (User.id user)); [|exact H].
    now apply delete_request_keeps_keys.
  - (* toggle_privacy *)
    exact H.
Qed.

Lemma graph_routes_keep_keys_witness :
  graph_keys_unique pending_graph = true /\
  no_self_edges pending_graph = true /\
  keys_kept (fst (Routes.accept_follow noon (Some 1) true 2 pending_graph)).
Proof.
  split; [reflexivity|]. split; [reflexivity|].
  exact (proj1 (proj2 (proj2 (graph_routes_keep_keys noon (Some 1) true 2
                                pending_graph eq_refl eq_refl)))).
Defined.

Lemma find_user_after_map (flip : User.t -> User.t) (l : list User.t) (c : nat) :
  (forall u, User.id (flip u) = User.id u) ->
  find (fun u => User.id u =? c) (map flip l)
  = option_map flip (find (fun u => User.id u =? c) l).
Proof.
  intros H. induction l as [|a l IH]; simpl; [reflexivity|].
  rewrite H. destruct (User.id a =? c); [reflexivity|exact IH].
Qed.

(** X5.  [toggle_privacy] answers the new flag of the caller and touches
    neither edges nor requests; called twice it gives the store back and
    answers the flag the caller started with. *)
Theorem toggle_privacy_twice (c : nat) (u : User.t) (st : Store) :
  get_user st c = Some u ->
  let once := Routes.toggle_privacy (Some c) st in
  let twice := Routes.toggle_privacy (Some c) (fst once) in
  snd once = Json 200 (negb (User.is_private u)) /\
  follows (fst once) = follows st /\
  follow_requests (fst once) = follow_requests st /\
  snd twice = Json 200 (User.is_private u) /\
  fst twice = st.
Proof.
  intros Hu. pose proof (get_user_id st c u Hu) as Hid.
  cbv zeta. unfold Routes.toggle_privacy, Routes.login_required.
  simpl fst. simpl snd. unfold get_user in *. simpl users.
  set (flip := fun u0 : User.t =>
                 if User.id u0 =? c
                 then {| User.id := User.id u0;
                         User.username := User.username u0;
                         User.is_private := negb (User.is_private u0) |}
                 else u0).
  assert (Hflip : forall v, User.id (flip v) = User.id v).
  { intros v. unfold flip. now destruct (User.id v =? c). }
  assert (Hback : forall v, flip (flip v) = v).
  { intros v. unfold flip. destruct (User.id v =? c) eqn:E; simpl.
    - rewrite E, negb_involutive. now destruct v.
    - now rewrite E. }
  rewrite !find_user_after_map by exact Hflip.
  rewrite Hu. simpl option_map.
  rewrite map_map, (map_ext _ (fun v => v) Hback), map_id.
  unfold flip at 1 2. rewrite Hid, Nat.eqb_refl. simpl.
  rewrite Hback.
  repeat split; try reflexivity. now destruct st.
Qed.

Lemma toggle_privacy_twice_witness :
  let once := Routes.toggle_privacy (Some 2) pending_graph in
  get_user pending_graph 2 = Some bo /\
  snd once = Json 200 true /\
  follow_requests (fst once) = follow_requests pending_graph /\
  fst (Routes.toggle_privacy (Some 2) (fst once)) = pending_graph.
Proof.
  intros once. split; [reflexivity|].
  destruct (toggle_privacy_twice 2 bo pending_graph eq_refl)
    as (H1 & _ & H2 & _ & H3).
  split; [exact H1|]. split; [exact H2|exact H3].
Defined.

(** X6.  A private profile is refused to a registered user who does not
    follow its owner and shown once the owner has accepted that user's
    follow request; the owner is always shown their own profile. *)
Theorem accepted_follower_sees_private_profile
    (clk : Clock) (Q : nat) (owner requester : User.t) (fr : FollowRequest.t)
    (st : Store) :
  user_by_username st (User.username owner) = Some owner ->
  User.is_private owner = true ->
  get_user st Q = Some requester ->
  Q <> User.id owner ->
  is_following st Q (User.id owner) = false ->
  follow_requests_received_first st (User.id owner) Q = Some fr ->
  let view := Routes.view_user_profile (Some Q) (User.username owner) in
  let accepted :=
    Routes.accept_follow clk (Some (User.id owner)) true Q st in
  view st =
    (st, Flash "This profile is private. Send a follow request to view."
               "warning") /\
  snd accepted = Json 200 "Follow request accepted" /\
  snd (view (fst accepted)) = Render "users/profile.html" /\
  snd (Routes.view_user_profile (Some (User.id owner)) (User.username owner) st)
    = Render "users/profile.html".
Proof.
  intros Hname Hpriv Hq Hne Hnf Hf.
  pose proof (get_user_id st Q requester Hq) as Hid.
  assert (E : (User.id owner =? Q) = false)
    by (apply Nat.eqb_neq; congruence).
  set (st' := delete_follow_request
                (set_follows st
                   (follows st ++
                      [ {| Follow.follower_id := Q;
                           Follow.followed_id := User.id owner;
                           Follow.timestamp := utcnow clk |} ])) fr).
  assert (Hacc : Routes.accept_follow clk (Some (User.id owner)) true Q st
                 = (st', Json 200 "Follow request accepted")).
  { unfold Routes.accept_follow, Routes.login_required.
    simpl negb. cbv iota. rewrite Hq, Hid, Hf.
    unfold accept_follow_request. now rewrite Hf, Hnf. }
  assert (Hfol : is_following st' Q (User.id owner) = true).
  { unfold is_following, following_first. simpl. rewrite find_app.
    destruct (find _ (follows st)); [reflexivity|].
    simpl. now rewrite !Nat.eqb_refl. }
  cbv zeta. rewrite Hacc. simpl fst. simpl snd.
  unfold Routes.view_user_profile, Routes.login_required, Routes.can_view.
  change (user_by_username st' (User.username owner))
    with (user_by_username st (User.username owner)).
  rewrite !Hname, Hpriv, Hnf, Hfol, E, Nat.eqb_refl. simpl.
  repeat split; reflexivity.
Qed.

Lemma accepted_follower_sees_private_profile_witness :
  let view := Routes.view_user_profile (Some 2) "asha" in
  let accepted := Routes.accept_follow noon (Some 1) true 2 pending_graph in
  user_by_username pending_graph "asha" = Some (asha true) /\
  User.is_private (asha true) = true /\
  get_user pending_graph 2 = Some bo /\
  2 <> 1 /\
  is_following pending_graph 2 1 = false /\
  has_follow_request_pending pending_graph 2 1 = true /\
  snd (view pending_graph) =
    Flash "This profile is private. Send a follow request to view." "warning" /\
  snd (view (fst accepted)) = Render "users/profile.html".
Proof.
  intros view accepted.
  split; [reflexivity|]. split; [reflexivity|]. split; [reflexivity|].
  split; [discriminate|]. split; [reflexivity|]. split; [reflexivity|].
  destruct (accepted_follower_sees_private_profile noon 2 (asha true) bo _
              pending_graph eq_refl eq_refl eq_refl ltac:(discriminate)
              eq_refl eq_refl) as (H1 & _ & H2 & _).
  split; [exact (f_equal snd H1)|exact H2].
Defined.

End GraphKeyFacts.

(** ** Conversations, memberships and pins *)

Module BoardFacts.
Import Models Samples.

Lemma between_sym (a b : nat) (m : DirectMessage.t) :
  between a b m = between b a m.
Proof. unfold between. apply orb_comm. Qed.

(** X7.  After a POST of [S] with a content to a registered user [R] whom
    [S] follows, the new message is among the messages that
    [load_messages] gives to [R] and to [S] and in the history of
    [get_dm_history]; and the two users are always given the same
    conversation. *)
Theorem sent_message_reaches_both_sides
    (clk : Clock) (S R : nat) (other : User.t) (req : Routes.ChatRequest)
    (st : Store) :
  get_user st R = Some other ->
  is_following st S R = true ->
  Routes.method req = Routes.POST ->
  Routes.content req <> "" ->
  let st' := fst (Routes.chat clk (Some S) (Some R) req st) in
  let message :=
    {| DirectMessage.id := fresh_id (map DirectMessage.id (direct_messages st));
       DirectMessage.sender_id := S; DirectMessage.recipient_id := R;
       DirectMessage.content := Routes.content req;
       DirectMessage.created_at := utcnow clk;
       DirectMessage.read := false; DirectMessage.pinned := false |} in
  (forall messages, Routes.load_messages st' R S messages -> In message messages) /\
  (forall messages, Routes.load_messages st' S R messages -> In message messages) /\
  (forall history, get_dm_history st' S R history -> In message history) /\
  (forall a b messages (s : Store),
     Routes.load_messages s a b messages <-> Routes.load_messages s b a messages).
Proof.
  intros Hu Hf Hm Hc. pose proof (get_user_id st R other Hu) as Hid.
  apply String.eqb_neq in Hc.
  cbv zeta. unfold Routes.chat, Routes.login_required.
  rewrite Hu, Hid, Hf, Hm, Hc. simpl negb. cbv iota.
  set (message := {| DirectMessage.id := _ |}).
  assert (Hst : direct_messages
                  (fst (if Routes.xml_http_request req
                        then (set_direct_messages st (direct_messages st ++ [message]),
                              Json 200 "success")
                        else (set_direct_messages st (direct_messages st ++ [message]),
                              @Redirect string "main.chat")))
                = direct_messages st ++ [message]).
  { now destruct (Routes.xml_http_request req). }
  assert (Hin : forall a b, between a b message = true ->
            In message
              (filter (between a b)
                 (direct_messages
                    (fst (if Routes.xml_http_request req
                          then (set_direct_messages st (direct_messages st ++ [message]),
                                Json 200 "success")
                          else (set_direct_messages st (direct_messages st ++ [message]),
                                @Redirect string "main.chat")))))).
  { intros a b Hb. rewrite Hst. apply filter_In. split; [|exact Hb].
    apply in_or_app. right. now left. }
  assert (HSR : between S R message = true).
  { unfold between, message. simpl. now rewrite !Nat.eqb_refl. }
  assert (HRS : between R S message = true) by (now rewrite between_sym).
  split; [|split; [|split]].
  - intros messages [Hperm _]. eapply Permutation_in; [exact Hperm|].
    now apply Hin.
  - intros messages [Hperm _]. eapply Permutation_in; [exact Hperm|].
    now apply Hin.
  - intros history [Hperm _]. eapply Permutation_in; [exact Hperm|].
    now apply Hin.
  - intros a b messages s. unfold Routes.load_messages.
    now rewrite (filter_ext _ _ (between_sym a b)).
Qed.

Lemma sent_message_reaches_both_sides_witness :
  let st' := fst (Routes.chat noon (Some 1) (Some 2) post_hello one_way_graph) in
  get_user one_way_graph 2 = Some bo /\
  is_following one_way_graph 1 2 = true /\
  Routes.method post_hello = Routes.POST /\
  Routes.content post_hello <> "" /\
  forall messages, Routes.load_messages st' 2 1 messages ->
    exists m, In m messages /\ DirectMessage.content m = "hello".
Proof.
  intros st'.
  split; [reflexivity|]. split; [reflexivity|]. split; [reflexivity|].
  split; [discriminate|].
  intros messages H. eexists. split.
  - exact (proj1 (sent_message_reaches_both_sides noon 1 2 bo post_hello
                    one_way_graph eq_refl eq_refl eq_refl ltac:(discriminate))
             messages H).
  - reflexivity.
Defined.

Lemma get_community_id (st : Store) (id : nat) (c : Community.t) :
  get_community st id = Some c -> Community.id c = id.
Proof.
  unfold get_community. intros H. apply find_some in H as [_ H].
  now apply Nat.eqb_eq.
Qed.

Lemma not_member_no_row (st : Store) (community user : nat) :
  is_member st community user = false ->
  forall y, In y (community_members st) ->
    (CommunityMembers.community_id y =? community)
    && (CommunityMembers.user_id y =? user) = false.
Proof.
  unfold is_member. intros H y Hy.
  destruct ((CommunityMembers.community_id y =? community)
            && (CommunityMembers.user_id y =? user)) eqn:E; [|reflexivity].
  assert (existsb (fun m => (CommunityMembers.community_id m =? community)
                            && (CommunityMembers.user_id m =? user))
                  (community_members st) = true)
    by (apply existsb_exists; eauto).
  congruence.
Qed.

(** X8.  A user who is not a member of an existing community becomes one
    by [join_community], joining again is answered that they are a member
    already and writes nothing, nobody else's membership changes, and the
    table keeps one row per (user, community). *)
Theorem join_community_once
    (clk : Clock) (u id : nat) (community : Community.t) (st : Store) :
  get_community st id = Some community ->
  memberships_unique st = true ->
  is_member st id u = false ->
  let joined := Routes.join_community clk (Some u) true id st in
  let again := Routes.join_community clk (Some u) true id (fst joined) in
  snd joined = Flash "You have joined the community!" "success" /\
  is_member (fst joined) id u = true /\
  again = (fst joined, Flash "You are already a member of this community!"
                             "info") /\
  (forall c' u', (c', u') <> (id, u) ->
     is_member (fst joined) c' u' = is_member st c' u') /\
  memberships_unique (fst joined) = true.
Proof.
  intros Hc Huniq Hnm. pose proof (get_community_id st id community Hc) as Hid.
  cbv zeta. unfold Routes.join_community, Routes.login_required.
  rewrite Hc, Hid, Hnm. simpl fst. simpl snd.
  change (get_community (set_community_members st _) id)
    with (get_community st id).
  rewrite Hc, Hid.
  set (membership := {| CommunityMembers.id := _ |}).
  assert (Hnow : is_member
                   (set_community_members st (community_members st ++ [membership]))
                   id u = true).
  { unfold is_member. simpl. rewrite existsb_app. simpl.
    rewrite !Nat.eqb_refl. simpl. apply orb_true_r. }
  rewrite Hnow.
  split; [reflexivity|]. split; [reflexivity|]. split; [reflexivity|]. split.
  - intros c' u' Hne. unfold is_member. simpl. rewrite existsb_app. simpl.
    destruct (id =? c') eqn:Ec; destruct (u =? u') eqn:Eu; simpl;
      rewrite ?orb_false_r; try reflexivity.
    apply Nat.eqb_eq in Ec, Eu. subst. now contradiction Hne.
  - apply andb_true_iff in Huniq as [Hd Hk].
    unfold memberships_unique. simpl. apply andb_true_iff. split.
    + rewrite map_app. simpl. now apply distinct_app_fresh.
    + apply one_row_per_key_app; [exact Hk|]. intros y Hy.
      unfold same_membership. simpl.
      now apply (not_member_no_row st id u Hnm).
Qed.

Lemma join_community_once_witness :
  let joined := Routes.join_community noon (Some 2) true 1 campus in
  get_community campus 1 <> None /\
  memberships_unique campus = true /\
  is_member campus 1 2 = false /\
  snd joined = Flash "You have joined the community!" "success" /\
  is_member (fst joined) 1 2 = true /\
  is_member (fst joined) 1 7 = true /\
  memberships_unique (fst joined) = true.
Proof.
  intros joined.
  split; [discriminate|]. split; [reflexivity|]. split; [reflexivity|].
  destruct (join_community_once noon 2 1 _ campus eq_refl eq_refl eq_refl)
    as (H1 & H2 & _ & _ & H3).
  split; [exact H1|]. split; [exact H2|]. split; [reflexivity|exact H3].
Defined.

(** X9.  [post_message] refuses a user who is not a member of the community
    and writes nothing; once that user has joined, the same post is
    accepted and appends the message under the user and the community. *)
Theorem post_message_after_joining
    (clk : Clock) (u id : nat) (community : Community.t) (content : string)
    (st : Store) (messages : list CommunityMessage.t) :
  get_community st id = Some community ->
  is_member st id u = false ->
  content <> "" ->
  let joined := fst (Routes.join_community clk (Some u) true id st) in
  Routes.post_message clk (Some u) true id content st messages =
    (messages, JsonError 403 "You must be a member to post messages") /\
  Routes.post_message clk (Some u) true id content joined messages =
    (messages ++
       [ {| CommunityMessage.id := fresh_id (map CommunityMessage.id messages);
            CommunityMessage.content := content;
            CommunityMessage.created_at := utcnow clk;
            CommunityMessage.user_id := u;
            CommunityMessage.community_id := id |} ],
     Json 201 tt).
Proof.
  intros Hc Hnm Hne. pose proof (get_community_id st id community Hc) as Hid.
  apply String.eqb_neq in Hne.
  cbv zeta. unfold Routes.post_message, Routes.login_required_table,
    Routes.join_community, Routes.login_required.
  simpl negb. cbv iota. rewrite Hc, Hid, Hnm. simpl fst.
  split; [reflexivity|].
  change (get_community (set_community_members st _) id)
    with (get_community st id).
  rewrite Hc, Hid.
  assert (Hnow : forall m,
            is_member (set_community_members st
                         (community_members st ++
                            [ {| CommunityMembers.id := m;
                                 CommunityMembers.user_id := u;
                                 CommunityMembers.community_id := id;
                                 CommunityMembers.joined_at := utcnow clk |} ]))
                      id u = true).
  { intros m. unfold is_member. simpl. rewrite existsb_app. simpl.
    rewrite !Nat.eqb_refl. simpl. apply orb_true_r. }
  now rewrite Hnow, Hne.
Qed.

Lemma post_message_after_joining_witness :
  let joined := fst (Routes.join_community noon (Some 2) true 1 campus) in
  get_community campus 1 <> None /\
  is_member campus 1 2 = false /\
  "hi" <> "" /\
  snd (Routes.post_message noon (Some 2) true 1 "hi" campus [])
    = JsonError 403 "You must be a member to post messages" /\
  map CommunityMessage.user_id
      (fst (Routes.post_message noon (Some 2) true 1 "hi" joined [])) = [2].
Proof.
  intros joined.
  split; [discriminate|]. split; [reflexivity|]. split; [discriminate|].
  destruct (post_message_after_joining noon 2 1 _ "hi" campus [] eq_refl
              eq_refl ltac:(discriminate)) as [H1 H2].
  split; [exact (f_equal snd H1)|].
  exact (f_equal (fun r => map CommunityMessage.user_id (fst r)) H2).
Defined.

Lemma not_pinned_keeps_all (pins : list PinnedCommunities.t) (u c : nat) :
  Routes.community_pinned pins u c = false ->
  filter (fun p => negb ((PinnedCommunities.user_id p =? u)
                         && (PinnedCommunities.community_id p =? c))) pins
  = pins.
Proof.
  unfold Routes.community_pinned. rewrite find_existsb.
  destruct (find _ pins) eqn:E; [discriminate|]. intros _.
  exact (find_none_keeps_others _ _ E).
Qed.

(** X10.  Pinning a community that the caller has not pinned answers
    [pinned] and pinning it again [already_pinned] without a write;
    unpinning it then answers [unpinned] and gives back the table of before
    the pin, and unpinning again answers [not_pinned]. *)
Theorem pin_then_unpin_community
    (clk : Clock) (u id : nat) (community : Community.t) (st : Store)
    (pins : list PinnedCommunities.t) :
  get_community st id = Some community ->
  Routes.community_pinned pins u id = false ->
  let pinned := Routes.pin_community clk (Some u) id st pins in
  let unpinned := Routes.unpin_community (Some u) id st (fst pinned) in
  snd pinned = Json 200 "pinned" /\
  Routes.community_pinned (fst pinned) u id = true /\
  Routes.pin_community clk (Some u) id st (fst pinned)
    = (fst pinned, Json 200 "already_pinned") /\
  unpinned = (pins, Json 200 "unpinned") /\
  Routes.unpin_community (Some u) id st pins = (pins, Json 200 "not_pinned").
Proof.
  intros Hc Hnp. pose proof (get_community_id st id community Hc) as Hid.
  cbv zeta. unfold Routes.pin_community, Routes.unpin_community,
    Routes.login_required_table.
  rewrite Hc, Hid, Hnp. simpl negb. cbv iota. simpl fst. simpl snd.
  set (row := {| PinnedCommunities.id := _ |}).
  assert (Hnow : Routes.community_pinned (pins ++ [row]) u id = true).
  { unfold Routes.community_pinned. rewrite existsb_app. simpl.
    rewrite !Nat.eqb_refl. simpl. apply orb_true_r. }
  rewrite Hnow. simpl negb. cbv iota.
  split; [reflexivity|]. split; [reflexivity|]. split; [reflexivity|].
  split; [|reflexivity].
  rewrite filter_app. simpl. rewrite !Nat.eqb_refl. simpl.
  now rewrite app_nil_r, (not_pinned_keeps_all pins u id Hnp).
Qed.

Lemma pin_then_unpin_community_witness :
  let pinned := Routes.pin_community noon (Some 2) 1 campus [] in
  get_community campus 1 <> None /\
  Routes.community_pinned [] 2 1 = false /\
  snd pinned = Json 200 "pinned" /\
  Routes.unpin_community (Some 2) 1 campus (fst pinned)
    = ([], Json 200 "unpinned").
Proof.
  intros pinned. split; [discriminate|]. split; [reflexivity|].
  destruct (pin_then_unpin_community noon 2 1 _ campus [] eq_refl eq_refl)
    as (H1 & _ & _ & H2 & _).
  split; [exact H1|exact H2].
Defined.

Lemma conversation_not_pinned_keeps_all
    (pins : list PinnedConversations.t) (u w : nat) :
  Routes.conversation_pinned pins u w = false ->
  filter (fun p => negb ((PinnedConversations.user_id p =? u)
                         && (PinnedConversations.conversation_with_id p =? w)))
         pins
  = pins.
Proof.
  unfold Routes.conversation_pinned. rewrite find_existsb.
  destruct (find _ pins) eqn:E; [discriminate|]. intros _.
  exact (find_none_keeps_others _ _ E).
Qed.

(** X11.  [pin_conversation] refuses the caller's own conversation with
    status 400 and an unregistered user with status 500, both without a
    write; for another registered user whose conversation is not pinned it
    answers [success], a second pin [already_pinned], and
    [unpin_conversation] then gives back the table of before the pin. *)
Theorem pin_then_unpin_conversation
    (clk : Clock) (u w : nat) (me other : User.t) (st : Store)
    (pins : list PinnedConversations.t) :
  get_user st u = Some me ->
  get_user st w = Some other ->
  w <> u ->
  Routes.conversation_pinned pins u w = false ->
  let pinned := Routes.pin_conversation clk (Some u) w st pins in
  Routes.pin_conversation clk (Some u) u st pins
    = (pins, JsonError 400 "Cannot pin conversation with yourself") /\
  (forall x, get_user st x = None ->
     Routes.pin_conversation clk (Some u) x st pins
       = (pins, JsonError 500 Routes.not_found_text)) /\
  snd pinned = Json 200 "success" /\
  Routes.conversation_pinned (fst pinned) u w = true /\
  Routes.pin_conversation clk (Some u) w st (fst pinned)
    = (fst pinned, Json 200 "already_pinned") /\
  Routes.unpin_conversation (Some u) w st (fst pinned)
    = (pins, Json 200 "success") /\
  Routes.unpin_conversation (Some u) w st pins = (pins, Json 200 "not_pinned").
Proof.
  intros Hme Hw Hne Hnp.
  pose proof (get_user_id st u me Hme) as Hidu.
  pose proof (get_user_id st w other Hw) as Hidw.
  apply Nat.eqb_neq in Hne.
  cbv zeta. unfold Routes.pin_conversation, Routes.unpin_conversation,
    Routes.login_required_table.
  rewrite Hme, Hw, Hidu, Hidw, Hne, Hnp, Nat.eqb_refl.
  simpl negb. cbv iota. simpl fst. simpl snd.
  set (row := {| PinnedConversations.id := _ |}).
  assert (Hnow : Routes.conversation_pinned (pins ++ [row]) u w = true).
  { unfold Routes.conversation_pinned. rewrite existsb_app. simpl.
    rewrite !Nat.eqb_refl. simpl. apply orb_true_r. }
  rewrite Hnow. simpl negb. cbv iota.
  split; [reflexivity|]. split; [intros x Hx; now rewrite Hx|].
  split; [reflexivity|]. split; [reflexivity|]. split; [reflexivity|].
  split; [|reflexivity].
  rewrite filter_app. simpl. rewrite !Nat.eqb_refl. simpl.
  now rewrite app_nil_r, (conversation_not_pinned_keeps_all pins u w Hnp).
Qed.

Lemma pin_then_unpin_conversation_witness :
  let pinned := Routes.pin_conversation noon (Some 1) 2 fresh_graph [] in
  get_user fresh_graph 1 = Some (asha false) /\
  get_user fresh_graph 2 = Some bo /\
  2 <> 1 /\
  Routes.conversation_pinned [] 1 2 = false /\
  snd pinned = Json 200 "success" /\
  Routes.unpin_conversation (Some 1) 2 fresh_graph (fst pinned)
    = ([], Json 200 "success").
Proof.
  intros pinned.
  split; [reflexivity|]. split; [reflexivity|]. split; [discriminate|].
  split; [reflexivity|].
  destruct (pin_then_unpin_conversation noon 1 2 _ _ fresh_graph []
              eq_refl eq_refl ltac:(discriminate) eq_refl)
    as (_ & _ & H1 & _ & _ & H2 & _).
  split; [exact H1|exact H2].
Defined.

End BoardFacts.

(** ** Listings *)

Module ListingFacts.
Import Models Samples.

Lemma in_firstn {A : Type} (n : nat) (l : list A) (x : A) :
  In x (firstn n l) -> In x l.
Proof.
  intros H. apply In_nth_error in H as [i Hi].
  rewrite nth_error_firstn in Hi.
  destruct (i <? n); [|discriminate]. now apply nth_error_In in Hi.
Qed.

Lemma in_skipn {A : Type} (n : nat) (l : list A) (x : A) :
  In x (skipn n l) -> In x l.
Proof.
  intros H. apply In_nth_error in H as [i Hi].
  rewrite nth_error_skipn in Hi. now apply nth_error_In in Hi.
Qed.

Lemma paginate_within {A : Type} (page : Z) (rows : list A) (x : A) :
  In x (Routes.paginate page rows) -> In x rows.
Proof.
  unfold Routes.paginate. intros H.
  apply in_firstn in H. now apply in_skipn in H.
Qed.

Lemma paginate_length {A : Type} (page : Z) (rows : list A) :
  List.length (Routes.paginate page rows) <= 10.
Proof. unfold Routes.paginate. apply firstn_le_length. Qed.

Lemma in_some_block {A : Type} (x : A) (rows : list A) :
  In x rows -> exists k, In x (firstn 10 (skipn (10 * k) rows)).
Proof.
  intros H. apply In_nth_error in H as [n Hn].
  exists (n / 10).
  assert (Hlt : n mod 10 < 10) by (apply Nat.mod_upper_bound; lia).
  pose proof (Nat.div_mod_eq n 10) as Hdiv.
  apply (nth_error_In _ (n mod 10)).
  rewrite nth_error_firstn.
  destruct (n mod 10 <? 10) eqn:E; [|apply Nat.ltb_ge in E; lia].
  rewrite nth_error_skipn. now rewrite <- Hdiv.
Qed.

Lemma paginate_covers {A : Type} (x : A) (rows : list A) :
  In x rows -> exists page, (1 <= page)%Z /\ In x (Routes.paginate page rows).
Proof.
  intros H. destruct (in_some_block x rows H) as [k Hk].
  exists (Z.of_nat (S k)). split; [lia|].
  unfold Routes.paginate.
  assert (E : (Z.of_nat (S k) <? 1)%Z = false) by (apply Z.ltb_ge; lia).
  rewrite E, Nat2Z.id. now replace (S k - 1) with k by lia.
Qed.

Lemma ordered_by_in {A : Type} (key : A -> Z) (d : bool) (rows result : list A)
    (x : A) :
  ordered_by key d rows result -> (In x result <-> In x rows).
Proof.
  intros [Hp _]. split; intros H.
  - eapply Permutation_in; [apply Permutation_sym; exact Hp|exact H].
  - eapply Permutation_in; [exact Hp|exact H].
Qed.

Lemma not_ended_is_active (clk : Clock) (p : Poll.t) :
  Routes.not_ended clk p = is_active clk p.
Proof. reflexivity. Qed.

(** X12.  Read at the same time, the listing of [index] (newest first) and
    the archive split the polls: every poll is on some page of exactly one
    of the two, on a page of [index] when [Poll.is_active] holds and on a
    page of the archive when it does not; no page has more than ten
    polls. *)
Theorem index_and_archive_split_the_polls
    (clk : Clock) (st : Store) (listed archived : list Poll.t) :
  Routes.index_query clk Routes.new st listed ->
  Routes.archived_query clk st archived ->
  (forall p, In p (polls st) ->
     if is_active clk p
     then (exists page, In p (Routes.paginate page listed))
          /\ ~ In p archived
     else (exists page, In p (Routes.paginate page archived))
          /\ ~ In p listed) /\
  (forall p page, In p (Routes.paginate page listed) ->
     In p (polls st) /\ is_active clk p = true) /\
  (forall p page, In p (Routes.paginate page archived) ->
     In p (polls st) /\ is_active clk p = false) /\
  (forall page, List.length (Routes.paginate page listed) <= 10
                /\ List.length (Routes.paginate page archived) <= 10).
Proof.
  intros Hl Ha. simpl in Hl. unfold Routes.archived_query in Ha.
  assert (Hended : forall p,
            match Poll.end_date p with
            | Some e => (e <=? utcnow clk)%Z
            | None => false
            end = negb (is_active clk p)).
  { intros p. unfold is_active. destruct (Poll.end_date p) as [e|]; [|reflexivity].
    destruct (utcnow clk <? e)%Z eqn:E; simpl.
    - apply Z.ltb_lt in E. apply Z.leb_gt. lia.
    - apply Z.ltb_ge in E. now apply Z.leb_le. }
  split; [|split; [|split]].
  - intros p Hp. destruct (is_active clk p) eqn:E.
    + split.
      * destruct (paginate_covers p listed) as (page & _ & H); [|eauto].
        apply (ordered_by_in _ _ _ _ p Hl). apply filter_In. now split.
      * intros H. apply (ordered_by_in _ _ _ _ p Ha) in H.
        apply filter_In in H as [_ H]. rewrite Hended, E in H. discriminate.
    + split.
      * destruct (paginate_covers p archived) as (page & _ & H); [|eauto].
        apply (ordered_by_in _ _ _ _ p Ha). apply filter_In.
        split; [exact Hp|]. now rewrite Hended, E.
      * intros H. apply (ordered_by_in _ _ _ _ p Hl) in H.
        apply filter_In in H as [_ H].
        rewrite not_ended_is_active in H. congruence.
  - intros p page H. apply paginate_within in H.
    apply (ordered_by_in _ _ _ _ p Hl) in H. now apply filter_In in H.
  - intros p page H. apply paginate_within in H.
    apply (ordered_by_in _ _ _ _ p Ha) in H. apply filter_In in H as [H1 H2].
    rewrite Hended in H2. apply negb_true_iff in H2. now split.
  - intros page. split; apply paginate_length.
Qed.

Lemma index_and_archive_split_the_polls_witness :
  Routes.index_query noon Routes.new two_polls [intake_poll None] /\
  Routes.archived_query noon two_polls [closed_poll] /\
  In closed_poll (Routes.paginate 1 [closed_poll]) /\
  ~ In closed_poll [intake_poll None].
Proof.
  assert (H1 : Routes.index_query noon Routes.new two_polls [intake_poll None]).
  { split; [apply Permutation_refl|]. repeat constructor. }
  assert (H2 : Routes.archived_query noon two_polls [closed_poll]).
  { split; [apply Permutation_refl|]. repeat constructor. }
  split; [exact H1|]. split; [exact H2|].
  destruct (index_and_archive_split_the_polls noon two_polls _ _ H1 H2)
    as (H & _).
  specialize (H closed_poll (or_intror (or_introl eq_refl))).
  change (is_active noon closed_poll) with false in H.
  destruct H as [_ H]. split; [now left|exact H].
Defined.

Lemma counted_trending_is_counted (clk : Clock) (st : Store) (poll : nat)
    (v : PollVote.t) :
  In v (Routes.counted_upvotes clk Routes.trending st poll) ->
  In v (Routes.counted_upvotes clk Routes.top st poll).
Proof.
  unfold Routes.counted_upvotes. intros H. apply filter_In in H as [Hin H].
  apply andb_true_iff in H as [H _].
  apply filter_In. split; [exact Hin|]. now rewrite H.
Qed.

Lemma counted_top_length (clk : Clock) (st : Store) (poll : nat) :
  List.length (Routes.counted_upvotes clk Routes.top st poll)
  = upvote_count st poll.
Proof.
  unfold Routes.counted_upvotes, upvote_count. f_equal.
  apply filter_ext. intros v. apply andb_true_r.
Qed.

Lemma listed_by_upvotes (clk : Clock) (sort : Routes.Sort) (st : Store)
    (result : list Poll.t) (p : Poll.t) :
  sort <> Routes.new ->
  Routes.index_query clk sort st result ->
  (In p result <->
   In p (polls st) /\ Routes.not_ended clk p = true
   /\ Routes.counted_upvotes clk sort st (Poll.id p) <> []).
Proof.
  intros Hs Hq.
  assert (H : In p result <->
              In p (filter (fun poll =>
                   Routes.not_ended clk poll
                   && negb (match Routes.counted_upvotes clk sort st (Poll.id poll) with
                            | [] => true
                            | _ => false
                            end)) (polls st))).
  { destruct sort; [contradiction| |]; unfold Routes.index_query in Hq;
      exact (ordered_by_in _ _ _ _ p Hq). }
  rewrite H, filter_In, andb_true_iff, negb_true_iff.
  destruct (Routes.counted_upvotes clk sort st (Poll.id p)); split;
    intros (H1 & H2 & H3); repeat split; auto; try discriminate.
  now contradiction H3.
Qed.

(** X13.  A poll listed under [trending] is listed under [top], and a poll
    listed under [top] is listed under [new]; a poll without any upvote is
    on no page of [top], however recent it is. *)
Theorem trending_within_top_within_new
    (clk : Clock) (st : Store) (by_new by_top by_trending : list Poll.t) :
  Routes.index_query clk Routes.new st by_new ->
  Routes.index_query clk Routes.top st by_top ->
  Routes.index_query clk Routes.trending st by_trending ->
  (forall p, In p by_trending -> In p by_top) /\
  (forall p, In p by_top -> In p by_new) /\
  (forall p page, upvote_count st (Poll.id p) = 0 ->
     ~ In p (Routes.paginate page by_top)).
Proof.
  intros Hn Ht Hr. unfold Routes.index_query in Hn. split; [|split].
  - intros p H.
    apply (listed_by_upvotes clk Routes.trending st _ p ltac:(discriminate) Hr)
      in H as (H1 & H2 & H3).
    apply (listed_by_upvotes clk Routes.top st _ p ltac:(discriminate) Ht).
    split; [exact H1|]. split; [exact H2|].
    destruct (Routes.counted_upvotes clk Routes.trending st (Poll.id p))
      as [|v l] eqn:E; [now contradiction H3|].
    assert (Hv : In v (Routes.counted_upvotes clk Routes.top st (Poll.id p))).
    { apply counted_trending_is_counted. rewrite E. now left. }
    intros Hnil. rewrite Hnil in Hv. contradiction.
  - intros p H.
    apply (listed_by_upvotes clk Routes.top st _ p ltac:(discriminate) Ht)
      in H as (H1 & H2 & _).
    apply (ordered_by_in _ _ _ _ p Hn). apply filter_In. now split.
  - intros p page Hz H. apply paginate_within in H.
    apply (listed_by_upvotes clk Routes.top st _ p ltac:(discriminate) Ht)
      in H as (_ & _ & H3).
    pose proof (counted_top_length clk st (Poll.id p)) as Hlen.
    rewrite Hz in Hlen.
    destruct (Routes.counted_upvotes clk Routes.top st (Poll.id p));
      [now contradiction H3|discriminate].
Qed.

Lemma trending_within_top_within_new_witness :
  Routes.index_query noon Routes.new two_polls_upvoted [intake_poll None] /\
  Routes.index_query noon Routes.top two_polls_upvoted [intake_poll None] /\
  Routes.index_query noon Routes.trending two_polls_upvoted [intake_poll None] /\
  (forall page, ~ In closed_poll (Routes.paginate page [intake_poll None])).
Proof.
  assert (H1 : Routes.index_query noon Routes.new two_polls_upvoted
                 [intake_poll None]).
  { split; [apply Permutation_refl|]. repeat constructor. }
  assert (H2 : Routes.index_query noon Routes.top two_polls_upvoted
                 [intake_poll None]).
  { split; [apply Permutation_refl|]. repeat constructor. }
  assert (H3 : Routes.index_query noon Routes.trending two_polls_upvoted
                 [intake_poll None]).
  { split; [apply Permutation_refl|]. repeat constructor. }
  split; [exact H1|]. split; [exact H2|]. split; [exact H3|].
  intros page.
  exact (proj2 (proj2 (trending_within_top_within_new noon two_polls_upvoted
                         _ _ _ H1 H2 H3)) closed_poll page eq_refl).
Defined.

(** X14.  Once a user has upvoted a poll that has not ended, the poll is in
    every result of the [trending] query read at the same time, and so
    under [top]. *)
Theorem upvoted_poll_is_trending
    (clk : Clock) (u pid : nat) (poll : Poll.t) (st : Store)
    (by_top by_trending : list Poll.t) :
  get_poll st pid = Some poll ->
  is_active clk poll = true ->
  poll_vote_first st u pid = None ->
  let st' := fst (Routes.upvote_poll clk (Some u) pid st) in
  Routes.index_query clk Routes.top st' by_top ->
  Routes.index_query clk Routes.trending st' by_trending ->
  In poll by_trending /\ In poll by_top.
Proof.
  intros Hp Hact Hnone. pose proof (get_poll_id st pid poll Hp) as Hid.
  assert (Hin : In poll (polls st)).
  { unfold get_poll in Hp. now apply find_some in Hp as [Hin _]. }
  cbv zeta. unfold Routes.upvote_poll, Routes.login_required.
  rewrite Hp, Hid, Hnone. simpl fst. intros Ht Hr.
  assert (Hcounted : forall sort,
            Routes.counted_upvotes clk sort (add_poll_vote clk st u pid)
              (Poll.id poll) <> []).
  { intros sort. unfold Routes.counted_upvotes, add_poll_vote. simpl.
    rewrite filter_app. simpl. rewrite Hid, Nat.eqb_refl. simpl.
    assert (E : (utcnow clk - 604800000000 <? utcnow clk)%Z = true)
      by (apply Z.ltb_lt; lia).
    destruct sort; rewrite ?E; intros H; now apply app_eq_nil in H as [_ H]. }
  split.
  - apply (listed_by_upvotes clk Routes.trending _ _ poll ltac:(discriminate) Hr).
    repeat split; auto.
  - apply (listed_by_upvotes clk Routes.top _ _ poll ltac:(discriminate) Ht).
    repeat split; auto.
Qed.

Lemma upvoted_poll_is_trending_witness :
  let st' := fst (Routes.upvote_poll noon (Some 7) 1 two_polls) in
  get_poll two_polls 1 = Some (intake_poll None) /\
  is_active noon (intake_poll None) = true /\
  poll_vote_first two_polls 7 1 = None /\
  Routes.index_query noon Routes.top st' [intake_poll None] /\
  Routes.index_query noon Routes.trending st' [intake_poll None] /\
  forall by_trending,
    Routes.index_query noon Routes.trending st' by_trending ->
    In (intake_poll None) by_trending.
Proof.
  intros st'.
  assert (H2 : Routes.index_query noon Routes.top st' [intake_poll None]).
  { split; [apply Permutation_refl|]. repeat constructor. }
  assert (H3 : Routes.index_query noon Routes.trending st' [intake_poll None]).
  { split; [apply Permutation_refl|]. repeat constructor. }
  split; [reflexivity|]. split; [reflexivity|]. split; [reflexivity|].
  split; [exact H2|]. split; [exact H3|].
  intros by_trending H.
  exact (proj1 (upvoted_poll_is_trending noon 7 1 (intake_poll None) two_polls
                  _ by_trending eq_refl eq_refl eq_refl H2 H)).
Defined.

End ListingFacts.

(** ** Vote counts *)

Module CountFacts.
Import Models Samples.

Lemma votes_count_add (clk : Clock) (st : Store) (user : option nat)
    (oid i : nat) :
  votes_count (add_vote clk st user oid) i
  = votes_count st i + (if oid =? i then 1 else 0).
Proof.
  unfold votes_count, add_vote. simpl.
  rewrite filter_app, length_app. simpl.
  now destruct (oid =? i).
Qed.

Lemma key_occurs_once {A : Type} (key : A -> nat) (l : list A) (o : A) :
  distinct (map key l) = true ->
  In o l ->
  list_sum (map (fun x => if key o =? key x then 1 else 0) l) = 1.
Proof.
  induction l as [|a l IH]; simpl; intros Hd Hin; [contradiction|].
  apply andb_true_iff in Hd as [Ha Hd]. apply negb_true_iff in Ha.
  assert (Hzero : forall k, ~ In k (map key l) ->
            list_sum (map (fun x => if k =? key x then 1 else 0) l) = 0).
  { intros k. clear. induction l as [|b l IH]; simpl; intros H; [reflexivity|].
    destruct (k =? key b) eqn:E.
    - apply Nat.eqb_eq in E. exfalso. apply H. now left.
    - apply IH. tauto. }
  destruct Hin as [->|Hin].
  - rewrite Nat.eqb_refl. rewrite Hzero; [reflexivity|].
    intros H. apply existsb_eqb_in in H. congruence.
  - destruct (key o =? key a) eqn:E.
    + apply Nat.eqb_eq in E. exfalso.
      assert (In (key a) (map key l)) by (rewrite <- E; now apply in_map).
      apply existsb_eqb_in in H. congruence.
    + simpl. now apply IH.
Qed.

Lemma list_sum_plus {A : Type} (f g : A -> nat) (l : list A) :
  list_sum (map (fun x => f x + g x) l)
  = list_sum (map f l) + list_sum (map g l).
Proof. induction l as [|a l IH]; simpl; [reflexivity|]. rewrite IH. lia. Qed.

Lemma options_distinct (st : Store) (pid : nat) :
  distinct (map PollOption.id (poll_options st)) = true ->
  distinct (map PollOption.id (options st pid)) = true.
Proof. apply distinct_filter. Qed.

(** X15.  When [api.vote_poll] records a vote, its answer gives the chosen
    option one vote more than before, every other option of the poll the
    votes it had, and a total that is one more than [Poll.total_votes]
    before the call. *)
Theorem vote_poll_counts_one_more
    (clk : Clock) (cu : option nat) (pid oid : nat) (o : PollOption.t)
    (poll : Poll.t) (st : Store) :
  oid <> 0 ->
  get_option st oid = Some o ->
  PollOption.poll_id o = pid ->
  get_poll st pid = Some poll ->
  distinct (map PollOption.id (poll_options st)) = true ->
  snd (Api.vote_poll clk cu pid (Some oid) st) =
    Json 200
      {| Api.counts :=
           map (fun opt => (PollOption.id opt,
                            votes_count st (PollOption.id opt)
                            + (if oid =? PollOption.id opt then 1 else 0)))
               (options st pid);
         Api.total_votes := total_votes st pid + 1 |}.
Proof.
  intros Hz Ho Hp Hpoll Hd.
  pose proof (get_poll_id st pid poll Hpoll) as Hid.
  pose proof (get_option_id st oid o Ho) as Hoid.
  unfold Api.vote_poll. destruct oid as [|n]; [contradiction|].
  rewrite Ho. apply Nat.eqb_eq in Hp as Hpb. rewrite Hpb. simpl negb. cbv iota.
  change (get_poll (add_vote clk st None (S n)) (PollOption.poll_id o))
    with (get_poll st (PollOption.poll_id o)).
  rewrite Hp, Hpoll, Hid. simpl snd.
  unfold Api.options_data.
  change (options (add_vote clk st None (S n)) pid) with (options st pid).
  rewrite map_map. simpl snd.
  assert (Hcounts : forall opt,
            votes_count (add_vote clk st None (S n)) (PollOption.id opt)
            = votes_count st (PollOption.id opt)
              + (if S n =? PollOption.id opt then 1 else 0))
    by (intros; apply votes_count_add).
  rewrite (map_ext _ _ (fun opt => f_equal (pair (PollOption.id opt)) (Hcounts opt))).
  rewrite (map_ext _ _ Hcounts).
  f_equal. f_equal.
  rewrite list_sum_plus. unfold total_votes. f_equal.
  rewrite <- Hoid.
  apply (key_occurs_once PollOption.id (options st pid) o).
  - now apply options_distinct.
  - unfold options. apply filter_In. split; [|now apply Nat.eqb_eq].
    unfold get_option in Ho. now apply find_some in Ho as [Hin _].
Qed.

Lemma vote_poll_counts_one_more_witness :
  10 <> 0 /\
  get_option voted_store 10 = Some option_fall /\
  PollOption.poll_id option_fall = 1 /\
  get_poll voted_store 1 = Some (intake_poll None) /\
  distinct (map PollOption.id (poll_options voted_store)) = true /\
  snd (Api.vote_poll noon None 1 (Some 10) voted_store) =
    Json 200 {| Api.counts := [(10, 2); (11, 0)]; Api.total_votes := 2 |}.
Proof.
  split; [discriminate|]. split; [reflexivity|]. split; [reflexivity|].
  split; [reflexivity|]. split; [reflexivity|].
  exact (vote_poll_counts_one_more noon None 1 10 option_fall (intake_poll None)
           voted_store ltac:(discriminate) eq_refl eq_refl eq_refl eq_refl).
Defined.

(** X16.  [api.vote_poll] writes only when the body names an existing
    option of the poll in the URL: whenever the vote table changed, such an
    option was named; an option of another poll is answered 400 and an
    unknown one 500, with the store as it was. *)
Theorem vote_poll_writes_for_own_options_only
    (clk : Clock) (cu : option nat) (pid : nat) (oid : option nat) (st : Store) :
  let r := Api.vote_poll clk cu pid oid st in
  (votes (fst r) <> votes st ->
     exists i o, oid = Some i /\ i <> 0 /\ get_option st i = Some o
                 /\ PollOption.poll_id o = pid) /\
  (forall i o, oid = Some i -> get_option st i = Some o ->
     PollOption.poll_id o <> pid ->
     r = (st, JsonError 400 "Invalid option for this poll")
     \/ r = (st, JsonError 400 "Option ID is required")) /\
  (forall i, oid = Some i -> i <> 0 -> get_option st i = None ->
     r = (st, JsonError 500 "Failed to record vote")).
Proof.
  cbv zeta. unfold Api.vote_poll. split; [|split].
  - destruct oid as [[|n]|]; simpl; try tauto.
    destruct (get_option st (S n)) as [o|] eqn:Ho; simpl; [|tauto].
    destruct (PollOption.poll_id o =? pid) eqn:E; simpl; [|tauto].
    intros _. exists (S n), o. apply Nat.eqb_eq in E. repeat split; auto.
  - intros i o -> Ho Hne. destruct i as [|n]; [now right|].
    rewrite Ho. apply Nat.eqb_neq in Hne. rewrite Hne. now left.
  - intros i -> Hz Ho. destruct i as [|n]; [contradiction|]. now rewrite Ho.
Qed.

(** X17.  [Poll.has_user_voted] holds exactly when [Poll.get_user_vote]
    finds an option, and the option it finds belongs to the poll and holds
    a vote of the user. *)
Theorem get_user_vote_agrees_with_has_user_voted
    (st : Store) (poll : nat) (user : option nat) :
  (has_user_voted st poll user = true <->
   exists o, get_user_vote st poll user = Some o) /\
  (forall o, get_user_vote st poll user = Some o ->
     PollOption.poll_id o = poll /\
     exists u v, user = Some u /\ In v (votes st) /\
                 Vote.user_id v = Some u /\ Vote.option_id v = PollOption.id o).
Proof.
  destruct user as [u|]; simpl.
  - assert (Hsame : forall o,
              existsb (fun v => (Vote.option_id v =? PollOption.id o)
                                && voted_by u v) (votes st)
              = match vote_first st u (PollOption.id o) with
                | Some _ => true
                | None => false
                end).
    { intros o. unfold vote_first. rewrite <- find_existsb.
      apply existsb_same_test. intros v. apply andb_comm. }
    split.
    + rewrite (existsb_same_test _ _ _ Hsame), find_existsb.
      destruct (find _ (options st poll)) as [o|].
      * split; [eauto|reflexivity].
      * split; [discriminate|]. now intros [o Ho].
    + intros o Ho. apply find_some in Ho as [Hin Hv].
      unfold options in Hin. apply filter_In in Hin as [_ Hp].
      apply Nat.eqb_eq in Hp. split; [exact Hp|].
      destruct (vote_first st u (PollOption.id o)) as [v|] eqn:E; [|discriminate].
      unfold vote_first in E. apply find_some in E as [Hvin Hm].
      apply andb_true_iff in Hm as [Hm1 Hm2]. apply Nat.eqb_eq in Hm2.
      exists u, v. unfold voted_by in Hm1.
      destruct (Vote.user_id v) as [w|]; [|discriminate].
      apply Nat.eqb_eq in Hm1. subst w. auto.
  - split; [split; [discriminate|now intros [o Ho]]|discriminate].
Qed.

End CountFacts.

(** ** Votes and options of a poll *)

Module PollOptionFacts.
Import Models Samples.

(** X18.  [routes.vote] checks the end date of the poll in the URL and
    records the vote on the option it is given, of whatever poll: the
    option gets one vote more, and [Poll.has_user_voted] then holds for the
    poll the option belongs to. *)
Theorem vote_lands_on_the_poll_of_the_option
    (clk : Clock) (u pid oid : nat) (poll : Poll.t) (o : PollOption.t)
    (st : Store) :
  get_poll st pid = Some poll ->
  get_option st oid = Some o ->
  match Poll.end_date poll with Some e => (now clk <= e)%Z | None => True end ->
  Routes.existing_vote st u oid = None ->
  let r := Routes.vote clk (Some u) pid oid st in
  snd r = Flash "Your vote has been recorded!" "success" /\
  votes_count (fst r) oid = votes_count st oid + 1 /\
  has_user_voted (fst r) (PollOption.poll_id o) (Some u) = true.
Proof.
  intros Hp Ho He Hv.
  pose proof (get_option_id st oid o Ho) as Hoid.
  assert (Hin : In o (poll_options st)).
  { unfold get_option in Ho. now apply find_some in Ho as [Hin _]. }
  cbv zeta. unfold Routes.vote, Routes.login_required.
  rewrite Hp, Ho, Hv.
  assert (E : match Poll.end_date poll with
              | Some e => (e <? now clk)%Z
              | None => false
              end = false).
  { destruct (Poll.end_date poll) as [e|]; [|reflexivity].
    apply Z.ltb_ge. lia. }
  rewrite E. simpl fst. simpl snd.
  split; [reflexivity|]. split.
  - rewrite CountFacts.votes_count_add, Nat.eqb_refl. reflexivity.
  - unfold has_user_voted. apply existsb_exists. exists o. split.
    + unfold options. simpl. apply filter_In. split; [exact Hin|].
      apply Nat.eqb_refl.
    + unfold add_vote. simpl. rewrite existsb_app. simpl.
      unfold voted_by at 2. simpl.
      rewrite Hoid, !Nat.eqb_refl. simpl. apply orb_true_r.
Qed.

Lemma vote_lands_on_the_poll_of_the_option_witness :
  let r := Routes.vote noon (Some 7) 1 20 two_polls in
  get_poll two_polls 1 = Some (intake_poll None) /\
  get_option two_polls 20 = Some option_dorm /\
  Routes.existing_vote two_polls 7 20 = None /\
  is_active noon closed_poll = false /\
  snd r = Flash "Your vote has been recorded!" "success" /\
  has_user_voted (fst r) 2 (Some 7) = true /\
  has_user_voted (fst r) 1 (Some 7) = false.
Proof.
  intros r.
  split; [reflexivity|]. split; [reflexivity|]. split; [reflexivity|].
  split; [reflexivity|].
  destruct (vote_lands_on_the_poll_of_the_option noon 7 1 20 (intake_poll None)
              option_dorm two_polls eq_refl eq_refl I eq_refl)
    as (H1 & _ & H2).
  split; [exact H1|]. split; [exact H2|reflexivity].
Defined.

Lemma filter_or_length {A : Type} (f g : A -> bool) (l : list A) :
  (forall x, f x = true -> g x = false) ->
  List.length (filter (fun x => f x || g x) l)
  = List.length (filter f l) + List.length (filter g l).
Proof.
  intros H. induction l as [|a l IH]; simpl; [reflexivity|].
  destruct (f a) eqn:Ef; simpl.
  - rewrite (H a Ef). simpl. now rewrite IH.
  - destruct (g a); simpl; rewrite IH; lia.
Qed.

(** The votes of the options of a list with distinct identifiers add up to
    the number of Vote rows on one of them. *)
Lemma counts_add_up (st : Store) (opts : list PollOption.t) :
  distinct (map PollOption.id opts) = true ->
  list_sum (map (fun o => votes_count st (PollOption.id o)) opts)
  = List.length
      (filter (fun v => existsb (fun o => PollOption.id o =? Vote.option_id v)
                                opts)
              (votes st)).
Proof.
  induction opts as [|a r IH]; simpl; intros Hd.
  - induction (votes st) as [|v l IHl]; simpl; auto.
  - apply andb_true_iff in Hd as [Ha Hd]. apply negb_true_iff in Ha.
    rewrite (IH Hd). rewrite filter_or_length.
    + f_equal. unfold votes_count. f_equal. apply filter_ext.
      intros v. apply Nat.eqb_sym.
    + intros v Hv. apply Nat.eqb_eq in Hv.
      destruct (existsb (fun o => PollOption.id o =? Vote.option_id v) r)
        eqn:E; [|reflexivity].
      apply existsb_exists in E as (o & Hin & Ho). apply Nat.eqb_eq in Ho.
      assert (In (PollOption.id a) (map PollOption.id r)).
      { rewrite Hv, <- Ho. now apply in_map. }
      apply existsb_eqb_in in H. congruence.
Qed.

(** X19.  For an existing poll [api.get_poll] ends with status 500 when the
    poll is of type [university] and has an option; otherwise it answers
    the options of the poll with a total that is [Poll.total_votes], the
    number of Vote rows on the options of the poll. *)
Theorem get_poll_total_counts_the_votes
    (pid : nat) (poll : Poll.t) (st : Store) :
  get_poll st pid = Some poll ->
  distinct (map PollOption.id (poll_options st)) = true ->
  if String.eqb (Poll.poll_type poll) "university"
     && negb (match options st pid with [] => true | _ => false end)
  then Api.get_poll pid st = (st, Abort 500)
  else
    exists view,
      Api.get_poll pid st = (st, Json 200 view) /\
      map Api.OptionView.id (Api.PollView.options view)
        = map PollOption.id (options st pid) /\
      Api.PollView.total_votes view = total_votes st pid /\
      Api.PollView.total_votes view =
        List.length
          (filter (fun v => existsb (fun o => PollOption.id o =? Vote.option_id v)
                                    (options st pid))
                  (votes st)).
Proof.
  intros Hp Hd. pose proof (get_poll_id st pid poll Hp) as Hid.
  unfold Api.get_poll. rewrite Hp, Hid.
  assert (Hnil : match map (fun option =>
                              {| Api.OptionView.id := PollOption.id option;
                                 Api.OptionView.text := PollOption.text option;
                                 Api.OptionView.votes :=
                                   votes_count st (PollOption.id option) |})
                            (options st pid) with
                 | [] => true
                 | _ => false
                 end
                 = match options st pid with [] => true | _ => false end)
    by (now destruct (options st pid)).
  rewrite Hnil.
  destruct (String.eqb (Poll.poll_type poll) "university"
            && negb (match options st pid with [] => true | _ => false end));
    [reflexivity|].
  eexists. split; [reflexivity|]. simpl.
  rewrite !map_map. simpl.
  split; [reflexivity|]. split; [reflexivity|].
  apply counts_add_up. now apply CountFacts.options_distinct.
Qed.

Lemma get_poll_total_counts_the_votes_witness :
  get_poll voted_store 1 = Some (intake_poll None) /\
  distinct (map PollOption.id (poll_options voted_store)) = true /\
  exists view,
    Api.get_poll 1 voted_store = (voted_store, Json 200 view) /\
    Api.PollView.total_votes view = 1.
Proof.
  split; [reflexivity|]. split; [reflexivity|].
  destruct (get_poll_total_counts_the_votes 1 (intake_poll None) voted_store
              eq_refl eq_refl) as (view & H1 & _ & H2 & _).
  exists view. split; [exact H1|exact H2].
Defined.

Lemma filter_all {A : Type} (f : A -> bool) (l : list A) :
  Forall (fun x => f x = true) l -> filter f l = l.
Proof.
  induction 1 as [|a l Ha _ IH]; simpl; [reflexivity|]. now rewrite Ha, IH.
Qed.

Lemma filter_none {A : Type} (f : A -> bool) (l : list A) :
  Forall (fun x => f x = false) l -> filter f l = [].
Proof.
  induction 1 as [|a l Ha _ IH]; simpl; [reflexivity|]. now rewrite Ha.
Qed.

(** X20.  [api.create_poll] stores nothing and never answers 201: every
    request leaves the store as it was, and a request with a title, a poll
    type and an end date that passes the check of the handler (none, or one
    without offset after [utcnow() + 5 min] and not after
    [utcnow() + 10 d]) is answered 500 with the catch-all message whatever
    its options are, since [Poll(...)] is given the keyword [course], which
    is no attribute of [Poll]. *)
Theorem create_poll_stores_nothing
    (clk : Clock) (cu : option nat) (data : Api.PollData) (st : Store) :
  let utc := utcnow clk in
  let r := Api.create_poll clk cu data st in
  fst r = st /\
  (forall c, snd r <> Json 201 c) /\
  (Api.title data <> "" -> Api.poll_type data <> "" ->
   match Api.end_date data with
   | Api.NoEndDate => r = (st, JsonError 500 "Failed to create poll")
   | Api.Naive d =>
     (utc + timedelta_minutes 5 < d <= utc + timedelta_days 10)%Z ->
     r = (st, JsonError 500 "Failed to create poll")
   | Api.Aware d => r = (st, JsonError 500 "Failed to create poll")
   | Api.Unparsable => r = (st, JsonError 400 Api.bad_format_message)
   end).
Proof.
  cbv zeta.
  destruct (CreationFacts.create_poll_never_creates clk cu data st) as [H1 H2].
  split; [exact H1|]. split; [exact H2|].
  intros Ht Hty. apply String.eqb_neq in Ht, Hty.
  unfold Api.create_poll. rewrite Ht, Hty. simpl orb. cbv iota.
  unfold Api.resolve_end_date.
  destruct (Api.end_date data) as [| |d|d]; try reflexivity.
  intros [Hlo Hhi].
  assert (E1 : (d <=? utcnow clk + timedelta_minutes 5)%Z = false)
    by (apply Z.leb_gt; lia).
  assert (E2 : (utcnow clk + timedelta_days 10 <? d)%Z = false)
    by (apply Z.ltb_ge; lia).
  now rewrite E1, E2.
Qed.

End PollOptionFacts.

(** ** Replies *)

Module ReplyFacts.
Import Models Samples.

Lemma descendant_step_right (st : Store) (c d : nat) (r : Comment.t) :
  descendant st c d ->
  In r (comments st) -> Comment.parent_id r = Some d ->
  descendant st c (Comment.id r).
Proof.
  intros H Hin Hp. induction H as [c r0 Hin0 Hp0|c r0 d Hin0 Hp0 _ IH].
  - apply (descendant_below st c r0); auto. now apply descendant_reply.
  - apply (descendant_below st c r0); auto.
Qed.

(** No row answers a comment that is not yet in the table. *)
Lemma no_reply_to_fresh_id (st : Store) (c : Comment.t) :
  replies_follow_parents st = true ->
  In c (comments st) ->
  is_reply_to (fresh_id (map Comment.id (comments st))) c = false.
Proof.
  intros Hwf Hin. unfold is_reply_to.
  destruct (Comment.parent_id c) as [p|] eqn:Hp; [|reflexivity].
  pose proof (ThreadFacts.reply_has_larger_id st c p Hwf Hin Hp).
  pose proof (fresh_id_gt (map Comment.id (comments st)) (Comment.id c)
                (in_map Comment.id _ c Hin)).
  apply Nat.eqb_neq. lia.
Qed.

Lemma cascade_without_replies (depth : nat) (st : Store) (c : nat) :
  replies st c = [] -> cascade depth st c = [c].
Proof. intros H. destruct depth; simpl; [reflexivity|]. now rewrite H. Qed.

(** X22.  A reply to a comment of the same poll is stored under a new
    identifier as a descendant of that comment, with the caller as its
    author; when its author deletes it again, the store is what it was
    before the reply. *)
Theorem reply_then_delete_restores_store
    (clk : Clock) (u pid parent : nat) (text : string) (pc : Comment.t)
    (st : Store) :
  text <> "" ->
  parent <> 0 ->
  get_comment st parent = Some pc ->
  Comment.poll_id pc = pid ->
  replies_follow_parents st = true ->
  exists (rid : nat) (st1 : Store) (r : Comment.t),
    Routes.add_reply clk (Some u) pid text parent st = (st1, Json 201 rid) /\
    get_comment st rid = None /\
    get_comment st1 rid = Some r /\
    Comment.parent_id r = Some parent /\
    Comment.poll_id r = pid /\
    Comment.author_id r = u /\
    descendant st1 parent rid /\
    Routes.delete_comment (Some u) rid st1
      = (st, Json 200 "Comment deleted successfully").
Proof.
  intros Ht Hp0 Hpc Hpoll Hwf.
  destruct (get_comment_id st parent pc Hpc) as [Hid Hin].
  apply String.eqb_neq in Ht. apply Nat.eqb_neq in Hp0.
  set (rid := fresh_id (map Comment.id (comments st))).
  set (reply := {| Comment.id := rid; Comment.content := text;
                   Comment.created_at := utcnow clk; Comment.author_id := u;
                   Comment.poll_id := pid; Comment.parent_id := Some parent |}).
  assert (Hold : forall c, In c (comments st) -> (Comment.id c =? rid) = false).
  { intros c Hc. apply Nat.eqb_neq.
    pose proof (fresh_id_gt (map Comment.id (comments st)) (Comment.id c)
                  (in_map Comment.id _ c Hc)). unfold rid. lia. }
  assert (Hnone : get_comment st rid = None).
  { unfold get_comment. destruct (find _ _) as [x|] eqn:E; [|reflexivity].
    apply find_some in E as [Hx E]. rewrite (Hold x Hx) in E. discriminate. }
  assert (Hget : get_comment (Models.add_comment clk st text u pid (Some parent))
                   rid = Some reply).
  { unfold get_comment in *. unfold Models.add_comment. simpl.
    rewrite find_app, Hnone. simpl. fold rid. now rewrite Nat.eqb_refl. }
  exists rid, (Models.add_comment clk st text u pid (Some parent)), reply.
  split; [|split; [exact Hnone|split; [exact Hget|]]].
  { unfold Routes.add_reply, Routes.login_required.
    rewrite Ht, Hp0, Hpc, Hpoll, Nat.eqb_refl, Hid. reflexivity. }
  split; [reflexivity|]. split; [reflexivity|]. split; [reflexivity|].
  split.
  { apply (descendant_reply _ parent reply); [|reflexivity].
    unfold Models.add_comment. simpl. apply in_or_app. right. now left. }
  unfold Routes.delete_comment, Routes.login_required.
  rewrite Hget. simpl Comment.author_id. rewrite Nat.eqb_refl.
  simpl negb. cbv iota. f_equal.
  unfold delete_comment. simpl Comment.id.
  assert (Hrep : replies (Models.add_comment clk st text u pid (Some parent))
                   rid = []).
  { unfold replies, Models.add_comment. simpl. rewrite filter_app.
    rewrite (PollOptionFacts.filter_none _ (comments st)).
    - simpl. unfold is_reply_to. simpl.
      assert (E : (parent =? rid) = false).
      { rewrite <- Hid. now apply Hold. }
      now rewrite E.
    - apply Forall_forall. intros c Hc.
      now apply no_reply_to_fresh_id. }
  rewrite (cascade_without_replies _ _ _ Hrep).
  unfold Models.add_comment. simpl. rewrite filter_app.
  rewrite (PollOptionFacts.filter_all _ (comments st)).
  - simpl. fold rid. rewrite Nat.eqb_refl. simpl. rewrite app_nil_r.
    now destruct st.
  - apply Forall_forall. intros c Hc. fold rid. now rewrite (Hold c Hc).
Qed.

Lemma reply_then_delete_restores_store_witness :
  get_comment thread 2 = Some answer /\
  replies_follow_parents thread = true /\
  exists (st1 : Store),
    Routes.add_reply noon (Some 9) 1 "Really?" 2 thread = (st1, Json 201 5) /\
    descendant st1 1 5 /\
    Routes.delete_comment (Some 9) 5 st1
      = (thread, Json 200 "Comment deleted successfully").
Proof.
  split; [reflexivity|]. split; [reflexivity|].
  destruct (reply_then_delete_restores_store noon 9 1 2 "Really?" answer thread
              ltac:(discriminate) ltac:(discriminate) eq_refl eq_refl eq_refl)
    as (rid & st1 & r & H1 & _ & _ & _ & _ & _ & H2 & H3).
  assert (E : rid = 5).
  { apply (f_equal snd) in H1. simpl in H1. now injection H1 as <-. }
  subst rid. exists st1. split; [exact H1|]. split; [|exact H3].
  apply (descendant_below st1 1 answer).
  - apply (f_equal fst) in H1. simpl in H1. subst st1. simpl. auto.
  - reflexivity.
  - exact H2.
Defined.

(** X23.  [add_comment], [add_reply] and [delete_comment] keep the
    threads well formed: from a store where every reply comes after the
    comment it answers, and that comment is in the table and on the same
    poll, each of them leads to such a store; a delete leaves no reply
    without its parent. *)
Theorem comment_routes_keep_threads
    (clk : Clock) (cu : option nat) (pid cid : nat) (text : string)
    (st : Store) :
  replies_follow_parents st = true ->
  replies_have_parents st = true ->
  threads_kept (fst (Routes.add_comment clk cu pid text st)) /\
  threads_kept (fst (Routes.add_reply clk cu pid text cid st)) /\
  threads_kept (fst (Routes.delete_comment cu cid st)).
Proof.
  intros Hwf Hhave.
  assert (H : threads_kept st) by (split; assumption).
  split; [|split]; (split;
    [first [ now apply ThreadFacts.add_comment_keeps_order
           | now apply ThreadFacts.add_reply_keeps_order
           | now apply ThreadFacts.delete_comment_keeps_order ]|]).
  - (* add_comment *)
    unfold Routes.add_comment, Routes.login_required.
    destruct cu as [u|]; [|exact Hhave].
    destruct (String.eqb text ""); [exact Hhave|].
    destruct (get_poll st pid); [|exact Hhave].
    unfold replies_have_parents, Models.add_comment in *. simpl.
    rewrite forallb_app. simpl. rewrite andb_true_r.
    rewrite forallb_forall in Hhave. apply forallb_forall.
    intros c Hc. specialize (Hhave c Hc).
    destruct (Comment.parent_id c); [|reflexivity].
    now rewrite existsb_app, Hhave.
  - (* add_reply *)
    unfold Routes.add_reply, Routes.login_required.
    destruct cu as [u|]; [|exact Hhave].
    destruct (_ || _); [exact Hhave|].
    destruct (get_comment st cid) as [pc|] eqn:Hpc; [|exact Hhave].
    destruct (Comment.poll_id pc =? pid) eqn:Epoll; [|exact Hhave].
    simpl negb. cbv iota.
    destruct (get_comment_id st cid pc Hpc) as [_ Hin].
    unfold replies_have_parents, Models.add_comment in *. simpl.
    rewrite forallb_app. apply andb_true_iff. split.
    + rewrite forallb_forall in Hhave. apply forallb_forall.
      intros c Hc. specialize (Hhave c Hc).
      destruct (Comment.parent_id c); [|reflexivity].
      now rewrite existsb_app, Hhave.
    + simpl. rewrite andb_true_r, existsb_app.
      apply orb_true_iff. left. apply existsb_exists.
      exists pc. split; [exact Hin|]. now rewrite Nat.eqb_refl, Epoll.
  - (* delete_comment *)
    unfold Routes.delete_comment, Routes.login_required.
    destruct cu as [u|]; [|exact Hhave].
    destruct (get_comment st cid) as [c|] eqn:Hc; [|exact Hhave].
    destruct (Comment.author_id c =? u); [|exact Hhave].
    simpl negb. cbv iota.
    unfold replies_have_parents, delete_comment in *. simpl.
    rewrite forallb_forall in Hhave. apply forallb_forall.
    intros x Hx. apply filter_In in Hx as [Hx Hkeep].
    specialize (Hhave x Hx).
    destruct (Comment.parent_id x) as [p|] eqn:Hp; [|reflexivity].
    apply existsb_exists in Hhave as (q & Hq & Eq).
    apply existsb_exists. exists q. split; [|exact Eq].
    apply andb_true_iff in Eq as [Eq _]. apply Nat.eqb_eq in Eq.
    apply filter_In. split; [exact Hq|].
    apply negb_true_iff. apply negb_true_iff in Hkeep.
    destruct (existsb (Nat.eqb (Comment.id q)) _) eqn:E; [exfalso|reflexivity].
    apply existsb_eqb_in in E.
    assert (Hd : descendant st (Comment.id c) (Comment.id x)).
    { apply ThreadFacts.cascade_within_thread in E as [E|E].
      - apply descendant_reply; [exact Hx|]. congruence.
      - apply (descendant_step_right st _ (Comment.id q)); auto. congruence. }
    assert (In (Comment.id x) (cascade (max_depth st) st (Comment.id c))).
    { apply ThreadFacts.cascade_reaches; [exact Hwf|exact Hd|].
      pose proof (ThreadFacts.row_id_le_max_depth st x Hx). lia. }
    apply existsb_eqb_in in H0. congruence.
Qed.

Lemma comment_routes_keep_threads_witness :
  replies_follow_parents thread = true /\
  replies_have_parents thread = true /\
  threads_kept (fst (Routes.delete_comment (Some 8) 2 thread)) /\
  comments (fst (Routes.delete_comment (Some 8) 2 thread)) = [question; aside].
Proof.
  split; [reflexivity|]. split; [reflexivity|].
  split; [|reflexivity].
  exact (proj2 (proj2 (comment_routes_keep_threads noon (Some 8) 1 2 "" thread
                         eq_refl eq_refl))).
Defined.

End ReplyFacts.

(** ** The application flow *)

Module FlowFacts.
Import Models Samples.

Lemma dict_get_set {V : Type} (d : list (string * V)) (k k' : string) (v : V) :
  Routes.dict_get (Routes.dict_set d k v) k'
  = if String.eqb k k' then Some v else Routes.dict_get d k'.
Proof.
  induction d as [|[k0 w] rest IH]; simpl.
  - reflexivity.
  - destruct (String.eqb k0 k) eqn:E0; simpl.
    + apply String.eqb_eq in E0. subst k0.
      now destruct (String.eqb k k').
    + destruct (String.eqb k0 k') eqn:E1; [|exact IH].
      apply String.eqb_eq in E1. subst k0.
      rewrite String.eqb_sym in E0. now rewrite E0.
Qed.

Lemma dict_set_weight {V : Type} (w : V -> nat) (d : list (string * V))
    (k : string) (v : V) :
  list_sum (map (fun e => w (snd e)) (Routes.dict_set d k v))
  + match Routes.dict_get d k with Some x => w x | None => 0 end
  = list_sum (map (fun e => w (snd e)) d) + w v.
Proof.
  induction d as [|[k0 x] rest IH]; simpl; [lia|].
  destruct (String.eqb k0 k); simpl; lia.
Qed.

Lemma flow_totals (apps : list Application.t) :
  forall data : Routes.FlowData,
  let data' := fold_left Routes.flow_step apps data in
  Routes.total data' = Routes.total data /\
  list_sum (map (fun e => Routes.count_of (snd e)) (Routes.universities data'))
  = list_sum (map (fun e => Routes.count_of (snd e)) (Routes.universities data))
    + List.length apps /\
  list_sum (map (fun e => snd e) (Routes.decisions data'))
  = list_sum (map (fun e => snd e) (Routes.decisions data)) + List.length apps.
Proof.
  induction apps as [|a rest IH]; intros data; simpl.
  - repeat split; lia.
  - destruct (IH (Routes.flow_step data a)) as (H1 & H2 & H3).
    rewrite H1, H2, H3. split; [reflexivity|].
    unfold Routes.flow_step. simpl. split.
    + pose proof (fun v =>
        dict_set_weight Routes.count_of (Routes.universities data)
          (String.append (Application.university a)
             (String.append " - " (Application.program a))) v) as Hw.
      destruct (Routes.dict_get (Routes.universities data) _) as [entry|];
        match goal with
        | |- context [Routes.dict_set _ _ ?v] => specialize (Hw v)
        end; simpl in Hw; lia.
    + pose proof (dict_set_weight (fun n : nat => n) (Routes.decisions data)
                    (Application.status a)
                    (match Routes.dict_get (Routes.decisions data)
                             (Application.status a) with
                     | Some n => n
                     | None => 0
                     end + 1)) as Hw.
      simpl in Hw.
      destruct (Routes.dict_get (Routes.decisions data) (Application.status a));
        lia.
Qed.

Lemma flow_decisions (s : string) (apps : list Application.t) :
  forall data : Routes.FlowData,
  match Routes.dict_get
          (Routes.decisions (fold_left Routes.flow_step apps data)) s with
  | Some n => n
  | None => 0
  end
  = match Routes.dict_get (Routes.decisions data) s with
    | Some n => n
    | None => 0
    end
    + List.length
        (filter (fun a => String.eqb (Application.status a) s) apps).
Proof.
  induction apps as [|a rest IH]; intros data; simpl; [lia|].
  rewrite IH. unfold Routes.flow_step at 1. simpl.
  rewrite dict_get_set.
  destruct (String.eqb (Application.status a) s) eqn:E; simpl; [|lia].
  apply String.eqb_eq in E. subst s. lia.
Qed.

(** X24.  In the data of [application_flow], [total] is the number of
    applications of the caller, the counts under [universities] add up to
    it and so do the numbers under [decisions]; the number under a status
    is the number of the caller's applications in that status, also for a
    status that is not among the six the dictionary starts with. *)
Theorem application_flow_counts_add_up
    (current_user : nat) (all_applications : list Application.t) :
  let mine := filter (fun a => Application.user_id a =? current_user)
                     all_applications in
  let data := Routes.application_flow current_user all_applications in
  Routes.total data = List.length mine /\
  list_sum (map (fun e => Routes.count_of (snd e)) (Routes.universities data))
  = List.length mine /\
  list_sum (map (fun e => snd e) (Routes.decisions data)) = List.length mine /\
  forall s,
    match Routes.dict_get (Routes.decisions data) s with
    | Some n => n
    | None => 0
    end
    = List.length (filter (fun a => String.eqb (Application.status a) s) mine).
Proof.
  cbv zeta. unfold Routes.application_flow.
  set (mine := filter _ all_applications).
  destruct (flow_totals mine (Routes.initial_flow mine)) as (H1 & H2 & H3).
  split; [exact H1|]. split; [exact H2|]. split; [exact H3|].
  intros s. rewrite flow_decisions.
  assert (E : match Routes.dict_get
                      (Routes.decisions (Routes.initial_flow mine)) s with
              | Some n => n
              | None => 0
              end = 0).
  { unfold Routes.initial_flow. cbn [Routes.decisions Routes.dict_get].
    repeat match goal with
           | |- context [String.eqb ?k s] =>
             destruct (String.eqb k s); [reflexivity|]
           end.
    reflexivity. }
  rewrite E. reflexivity.
Qed.

Lemma flow_universities (key : string) (apps : list Application.t) :
  forall data : Routes.FlowData,
  let mentions := fun a =>
    String.eqb (String.append (Application.university a)
                  (String.append " - " (Application.program a))) key in
  Routes.dict_get
    (Routes.universities (fold_left Routes.flow_step apps data)) key
  = match Routes.dict_get (Routes.universities data) key with
    | Some e =>
      Some {| Routes.count_of :=
                Routes.count_of e + List.length (filter mentions apps);
              Routes.status_of := Routes.status_of e |}
    | None =>
      match find mentions apps with
      | Some first =>
        Some {| Routes.count_of := List.length (filter mentions apps);
                Routes.status_of := Application.status first |}
      | None => None
      end
    end.
Proof.
  cbv zeta.
  induction apps as [|a rest IH]; intros data.
  - cbn [fold_left filter find List.length].
    destruct (Routes.dict_get (Routes.universities data) key) as [[n s]|];
      [|reflexivity].
    cbn [Routes.count_of Routes.status_of]. now rewrite Nat.add_0_r.
  - cbn [fold_left filter find]. rewrite IH.
    unfold Routes.flow_step. cbn [Routes.universities].
    destruct (String.eqb (String.append (Application.university a)
                (String.append " - " (Application.program a))) key) eqn:E.
    + apply String.eqb_eq in E. rewrite E.
      destruct (Routes.dict_get (Routes.universities data) key) as [e|];
        rewrite dict_get_set, String.eqb_refl; cbv beta iota;
        cbn [Routes.count_of Routes.status_of List.length];
        (apply (f_equal (@Some Routes.FlowEntry));
         apply (f_equal2 Routes.Build_FlowEntry); [lia|reflexivity]).
    + destruct (Routes.dict_get (Routes.universities data)
                  (String.append (Application.university a)
                     (String.append " - " (Application.program a))));
        rewrite dict_get_set, E; reflexivity.
Qed.

(** X25.  In the data of [application_flow], the entry of a university and
    program counts the applications of the caller for them and carries the
    status of the first of these; later applications for the same
    university and program raise the count and leave the status.  A
    university and program without an application of the caller have no
    entry. *)
Theorem application_flow_entry_of_university
    (current_user : nat) (all_applications : list Application.t)
    (key : string) :
  let mine := filter (fun a => Application.user_id a =? current_user)
                     all_applications in
  let mentions := fun a =>
    String.eqb (String.append (Application.university a)
                  (String.append " - " (Application.program a))) key in
  Routes.dict_get
    (Routes.universities
       (Routes.application_flow current_user all_applications)) key
  = match find mentions mine with
    | Some first =>
      Some {| Routes.count_of := List.length (filter mentions mine);
              Routes.status_of := Application.status first |}
    | None => None
    end.
Proof.
  cbv zeta. unfold Routes.application_flow.
  now rewrite flow_universities.
Qed.

End FlowFacts.

(** ** Populating the universities *)

Module PopulateFacts.
Import Models Samples.

(** The rows [add_programs] appends: one per name, in order, under the
    university, with identifiers that stay distinct. *)
Lemma add_programs_rows (names : list string) :
  forall (programs : list Program.t) (uid : nat),
  map (fun p => (Program.name p, Program.university_id p))
      (Populate.add_programs programs uid names)
  = map (fun p => (Program.name p, Program.university_id p)) programs
    ++ map (fun name => (name, uid)) names /\
  (distinct (map Program.id programs) = true ->
   distinct (map Program.id (Populate.add_programs programs uid names))
   = true).
Proof.
  induction names as [|n rest IH]; intros programs uid; simpl.
  - rewrite app_nil_r. auto.
  - destruct (IH (programs ++ [ {| Program.id :=
                                     fresh_id (map Program.id programs);
                                   Program.name := n;
                                   Program.university_id := uid |} ]) uid)
      as [Hrows Hids].
    split.
    + rewrite Hrows, map_app, <- app_assoc. reflexivity.
    + intros Hd. apply Hids. rewrite map_app. simpl.
      now apply distinct_app_fresh.
Qed.

Lemma add_university_cases
    (country : string) (t : Populate.Tables) (e : Populate.UniData) :
  Populate.add_university country t e = (t, false) /\ Populate.passed_over t e
  \/ exists t' u,
       Populate.add_university country t e = (t', true) /\
       Populate.existing_uni t (Populate.name e) = None /\
       Populate.universities t' = Populate.universities t ++ [u] /\
       University.name u = Populate.name e /\
       Populate.programs t'
       = Populate.add_programs (Populate.programs t) (University.id u)
           Populate.common_programs /\
       University.id u
       = fresh_id (map University.id (Populate.universities t)) /\
       University.country u = country /\
       University.domain u
       = match Populate.domains e with Some (d :: _) => Some d | _ => None end.
Proof.
  unfold Populate.add_university.
  destruct (String.eqb (Populate.name e) "") eqn:En.
  { left. apply String.eqb_eq in En. split; [reflexivity|now left]. }
  destruct (Populate.existing_uni t (Populate.name e)) eqn:Ex.
  { left. split; [reflexivity|]. right. left. rewrite Ex. discriminate. }
  destruct (Populate.domains e) as [[|d ds]|] eqn:Ed.
  - left. split; [reflexivity|]. right. right. exact Ed.
  - right. eexists. eexists. split; [reflexivity|].
    cbn [Populate.universities Populate.programs].
    repeat (split; [reflexivity|]). reflexivity.
  - right. eexists. eexists. split; [reflexivity|].
    cbn [Populate.universities Populate.programs].
    repeat (split; [reflexivity|]). reflexivity.
Qed.

Lemma add_and_count_eq
    (t : Populate.Tables) (n : nat) (e : Populate.UniData) :
  Populate.add_and_count (t, n) e
  = (fst (Populate.add_university "United States" t e),
     if snd (Populate.add_university "United States" t e) then S n else n).
Proof.
  unfold Populate.add_and_count. cbn [fst snd].
  now destruct (Populate.add_university "United States" t e).
Qed.

Lemma populate_rows (fetched : list Populate.UniData) :
  forall (t : Populate.Tables) (n : nat),
  Populate.names_unique t = true ->
  let r := fold_left Populate.add_and_count fetched (t, n) in
  exists added : list University.t,
    Populate.universities (fst r) = Populate.universities t ++ added /\
    snd r = n + List.length added /\
    List.length added <= List.length fetched /\
    Forall (fun u =>
        University.country u = "United States" /\
        exists e, In e fetched /\ Populate.name e = University.name u /\
          University.domain u
          = match Populate.domains e with
            | Some (d :: _) => Some d
            | _ => None
            end) added /\
    map (fun p => (Program.name p, Program.university_id p))
        (Populate.programs (fst r))
    = map (fun p => (Program.name p, Program.university_id p))
          (Populate.programs t)
      ++ flat_map (fun u => map (fun name => (name, University.id u))
                                Populate.common_programs) added /\
    Populate.names_unique (fst r) = true /\
    (distinct (map University.id (Populate.universities t)) = true ->
     distinct (map University.id (Populate.universities (fst r))) = true) /\
    (distinct (map Program.id (Populate.programs t)) = true ->
     distinct (map Program.id (Populate.programs (fst r))) = true).
Proof.
  induction fetched as [|e rest IH]; intros t n Hu; cbv zeta;
    cbn [fold_left List.length].
  - cbn [fst snd]. exists []. rewrite !app_nil_r. simpl.
    repeat split; auto.
  - rewrite add_and_count_eq.
    destruct (add_university_cases "United States" t e)
      as [[-> _]|(t' & u & -> & Hex & Hunis & Hname & Hprogs & Hid & Hc & Hdom)];
      cbn [fst snd].
    + destruct (IH t n Hu) as (added & H1 & H2 & H3 & H4 & H5 & H6 & H7 & H8).
      exists added. repeat split; try assumption; [lia|].
      eapply Forall_impl; [|exact H4].
      intros x (Hx & e' & Hin & Hrest). split; [exact Hx|].
      exists e'. split; [now right|exact Hrest].
    + assert (Hu' : Populate.names_unique t' = true).
      { unfold Populate.names_unique in *. rewrite Hunis.
        apply one_row_per_key_app; [exact Hu|].
        intros y Hy. rewrite Hname.
        unfold Populate.existing_uni in Hex.
        exact (find_none _ _ Hex y Hy). }
      destruct (IH t' (S n) Hu')
        as (added & H1 & H2 & H3 & H4 & H5 & H6 & H7 & H8).
      destruct (add_programs_rows Populate.common_programs
                  (Populate.programs t) (University.id u)) as [Hrows Hids].
      exists (u :: added).
      split; [rewrite H1, Hunis, <- app_assoc; reflexivity|].
      split; [simpl; lia|]. split; [simpl; lia|].
      split; [|split; [|split; [exact H6|split]]].
      * constructor.
        -- split; [exact Hc|]. exists e.
           split; [now left|]. split; [now rewrite Hname|exact Hdom].
        -- eapply Forall_impl; [|exact H4].
           intros x (Hx & e' & Hin & Hrest). split; [exact Hx|].
           exists e'. split; [now right|exact Hrest].
      * rewrite H5, Hprogs, Hrows, <- app_assoc. reflexivity.
      * intros Hd. apply H7. rewrite Hunis, map_app. simpl. rewrite Hid.
        now apply distinct_app_fresh.
      * intros Hd. apply H8. rewrite Hprogs. now apply Hids.
Qed.

(** X26.  From tables where no two universities have the same name,
    [populate_database] leaves such tables and keeps the rows that were
    there; the number it reports is the number of universities it appended,
    at most one per fetched entry, each in the country ["United States"]
    under the name of a fetched entry and with the first of its domains;
    after the programs that were there come, for each appended university
    in turn, the ten names of [common_programs] in their order under its
    identifier; and identifiers that were distinct stay distinct in both
    tables. *)
Theorem populate_database_adds_what_it_reports
    (fetched : list Populate.UniData) (t : Populate.Tables) :
  Populate.names_unique t = true ->
  let r := Populate.populate_database fetched t in
  exists added : list University.t,
    Populate.universities (fst r) = Populate.universities t ++ added /\
    snd r = List.length added /\
    snd r <= List.length fetched /\
    Forall (fun u =>
        University.country u = "United States" /\
        exists e, In e fetched /\ Populate.name e = University.name u /\
          University.domain u
          = match Populate.domains e with
            | Some (d :: _) => Some d
            | _ => None
            end) added /\
    map (fun p => (Program.name p, Program.university_id p))
        (Populate.programs (fst r))
    = map (fun p => (Program.name p, Program.university_id p))
          (Populate.programs t)
      ++ flat_map (fun u => map (fun name => (name, University.id u))
                                Populate.common_programs) added /\
    Populate.names_unique (fst r) = true /\
    (distinct (map University.id (Populate.universities t)) = true ->
     distinct (map University.id (Populate.universities (fst r))) = true) /\
    (distinct (map Program.id (Populate.programs t)) = true ->
     distinct (map Program.id (Populate.programs (fst r))) = true).
Proof.
  intros Hu. cbv zeta. unfold Populate.populate_database.
  destruct (populate_rows fetched t 0 Hu)
    as (added & H1 & H2 & H3 & H4 & H5 & H6 & H7 & H8).
  exists added. simpl in H2.
  repeat split; try assumption. rewrite H2. exact H3.
Qed.

Lemma populate_database_adds_what_it_reports_witness :
  let r := Populate.populate_database fetched_universities no_universities in
  Populate.names_unique no_universities = true /\
  snd r = 2 /\
  map (fun u => (University.id u, University.name u, University.domain u))
      (Populate.universities (fst r))
  = [(1, "MIT", Some "mit.edu"); (2, "Reed", None)] /\
  map (fun p => (Program.name p, Program.university_id p))
      (Populate.programs (fst r))
  = flat_map (fun u => map (fun name => (name, University.id u))
                           Populate.common_programs)
             (Populate.universities (fst r)) /\
  distinct (map Program.id (Populate.programs (fst r))) = true.
Proof.
  intros r. split; [reflexivity|].
  split; [reflexivity|]. split; [reflexivity|].
  destruct (populate_database_adds_what_it_reports fetched_universities
              no_universities eq_refl)
    as (added & Hunis & _ & _ & _ & Hprogs & _ & _ & Hids).
  assert (E : added = Populate.universities (fst r)) by (symmetry; exact Hunis).
  rewrite E in Hprogs. split; [exact Hprogs|exact (Hids eq_refl)].
Defined.

Lemma existing_uni_stays
    (country : string) (t : Populate.Tables) (e : Populate.UniData)
    (uni_name : string) :
  Populate.existing_uni t uni_name <> None ->
  Populate.existing_uni (fst (Populate.add_university country t e)) uni_name
  <> None.
Proof.
  intros H.
  destruct (add_university_cases country t e)
    as [[-> _]|(t' & u & -> & _ & Hunis & _ & _)]; [exact H|].
  simpl. unfold Populate.existing_uni in *. rewrite Hunis, find_app.
  destruct (find _ (Populate.universities t)); [discriminate|contradiction].
Qed.

Lemma passed_over_after
    (country : string) (t : Populate.Tables) (e : Populate.UniData) :
  Populate.passed_over (fst (Populate.add_university country t e)) e.
Proof.
  destruct (add_university_cases country t e)
    as [[-> H]|(t' & u & -> & Hex & Hunis & Hname & _)]; [exact H|].
  right. left. simpl. unfold Populate.existing_uni in *.
  rewrite Hunis, find_app, Hex, Hname, String.eqb_refl. discriminate.
Qed.

Lemma passed_over_is_skipped
    (country : string) (t : Populate.Tables) (e : Populate.UniData) :
  Populate.passed_over t e -> Populate.add_university country t e = (t, false).
Proof.
  intros H. unfold Populate.add_university.
  destruct (String.eqb (Populate.name e) "") eqn:En; [reflexivity|].
  destruct (Populate.existing_uni t (Populate.name e)) eqn:Ex; [reflexivity|].
  destruct H as [H|[H|H]].
  - apply String.eqb_neq in En. contradiction.
  - contradiction.
  - now rewrite H.
Qed.

Lemma passed_over_stays (e : Populate.UniData) (fetched : list Populate.UniData) :
  forall (t : Populate.Tables) (n : nat),
  Populate.passed_over t e -> Populate.passed_over (fst (fold_left Populate.add_and_count fetched (t, n))) e.
Proof.
  induction fetched as [|x rest IH]; intros t n H; cbn [fold_left];
    [exact H|].
  rewrite add_and_count_eq. apply IH.
  destruct H as [H|[H|H]].
  - now left.
  - right. left. now apply existing_uni_stays.
  - right. right. exact H.
Qed.

Lemma all_passed_over_after (fetched : list Populate.UniData) :
  forall (t : Populate.Tables) (n : nat) (e : Populate.UniData),
  In e fetched -> Populate.passed_over (fst (fold_left Populate.add_and_count fetched (t, n))) e.
Proof.
  induction fetched as [|x rest IH]; intros t n e; cbn [fold_left In];
    [contradiction|].
  rewrite add_and_count_eq.
  intros [<-|Hin]; [|now apply IH].
  apply passed_over_stays. apply passed_over_after.
Qed.

Lemma all_passed_over_skipped (fetched : list Populate.UniData) :
  forall (t : Populate.Tables) (n : nat),
  (forall e, In e fetched -> Populate.passed_over t e) ->
  fold_left Populate.add_and_count fetched (t, n) = (t, n).
Proof.
  induction fetched as [|x rest IH]; intros t n H; cbn [fold_left];
    [reflexivity|].
  rewrite add_and_count_eq.
  rewrite (passed_over_is_skipped "United States" t x
             (H x (or_introl eq_refl))).
  cbn [fst snd]. apply IH. intros e He. apply H. now right.
Qed.

(** X27.  Running [populate_database] again on the same fetched list adds
    nothing: every entry of the list is then without a name, under a name
    that is in the table, or with an empty list of domains, and the second
    run reports 0 and leaves the tables of the first. *)
Theorem populate_database_twice_adds_nothing
    (fetched : list Populate.UniData) (t : Populate.Tables) :
  Populate.populate_database fetched
    (fst (Populate.populate_database fetched t))
  = (fst (Populate.populate_database fetched t), 0).
Proof.
  unfold Populate.populate_database.
  apply all_passed_over_skipped. intros e He. now apply all_passed_over_after.
Qed.

End PopulateFacts.
